(** * Timesketch API client: the retrying request layer of [client.py]

    A shallow embedding of [timesketch_api_client/client.py]
    ([TimesketchApi]): the generic GET with retry and backoff
    ([fetch_resource_data]), the create operations with their own retry
    loops, and the listing generators built on the fetcher.

    The HTTP session is a server function [srv] that answers a request
    (method, URI, query parameters or JSON body) given the index of the
    call; a state monad records every request and every [time.sleep] in a
    trace and every value a generator yields, and carries the Python
    exception raised, if any. *)

From Stdlib Require Import String List ZArith QArith Bool Lia.
Import ListNotations.

#[local] Set Warnings "-register-all".

Local Open Scope string_scope.
Local Open Scope list_scope.
Local Open Scope Z_scope.

(** ** Decoded JSON values and Python truthiness *)

Inductive json : Type :=
| JNull
| JBool (b : bool)
| JNum (z : Z)
| JStr (s : string)
| JList (l : list json)
| JObj (kvs : list (string * json)).

(** [bool(x)] in Python for a decoded JSON value. *)
Definition truthy (j : json) : bool :=
  match j with
  | JNull => false
  | JBool b => b
  | JNum z => negb (z =? 0)
  | JStr s => negb (String.eqb s EmptyString)
  | JList l => match l with [] => false | _ => true end
  | JObj kvs => match kvs with [] => false | _ => true end
  end.

Fixpoint assoc (k : string) (kvs : list (string * json)) : option json :=
  match kvs with
  | [] => None
  | (k', v) :: kvs' => if String.eqb k k' then Some v else assoc k kvs'
  end.

(** ** Python exceptions raised on these paths

    [ConnectionError] is [requests.exceptions.ConnectionError], a subclass
    of [requests.exceptions.RequestException]. [OutOfFuel] is not a Python
    exception: it marks a model run that exhausted the fuel bounding a
    [while True] loop. *)

Inductive exc : Type :=
| ConnectionError
| RuntimeError
| ValueError
| KeyError
| IndexError
| TypeError
| AttributeError
| UnboundLocalError
| OutOfFuel.

Definition is_request_exception (e : exc) : bool :=
  match e with ConnectionError => true | _ => false end.

Definition python_exc (e : exc) : Prop := e <> OutOfFuel.

(** ** Requests, responses and the observable trace *)

Inductive meth : Type := GET | POST.

(** [rarg] is the [params] dict of a GET or the [json] body of a POST. *)
Record request : Type := mkreq { rmeth : meth; rurl : string; rarg : json }.

(** The outcome of [session.get]/[session.post]: a connection failure, or
    a response with its status code and its body, [None] when the body is
    not valid JSON. *)
Inductive http_outcome : Type :=
| HConnErr
| HResp (status : Z) (body : option json).

Inductive event : Type :=
| ECall (r : request)
| ESleep (d : Q).

(** Modelled from the spec: the wrapper classes [sketch.Sketch],
    [index.SearchIndex], [user.User] and [sigma.SigmaRule] (in
    sketch.py, index.py, user.py and sigma.py, not in client.py), which
    the spec treats as out-of-scope external collaborators: a wrapper
    object is the arguments of its constructor. [ONone] is Python's
    [None]. *)
Inductive obj : Type :=
| OSketch (sketch_id sketch_name : json)
| OSearchIndex (searchindex_id searchindex_name : json)
| OUser (user_id : json)
| OSigmaRule (rule_uuid : json)
| ONone.

Record st : Type := mkst { ncalls : nat; trace : list event; out : list obj }.

Definition init_st : st := mkst 0 [] [].

Inductive res (A : Type) : Type :=
| Ok (a : A)
| Exc (e : exc).
Arguments Ok {A} a.
Arguments Exc {A} e.

Definition M (A : Type) : Type := st -> res A * st.

Definition ret {A} (a : A) : M A := fun s => (Ok a, s).
Definition raise {A} (e : exc) : M A := fun s => (Exc e, s).
Definition bind {A B} (m : M A) (k : A -> M B) : M B :=
  fun s => match m s with
           | (Ok a, s') => k a s'
           | (Exc e, s') => (Exc e, s')
           end.
(** [try: m except e: h e] *)
Definition catch {A} (m : M A) (h : exc -> M A) : M A :=
  fun s => match m s with
           | (Ok a, s') => (Ok a, s')
           | (Exc e, s') => h e s'
           end.

(** A result computed without effects, as a step of a run. *)
Definition of_res {A} (r : res A) : M A := fun s => (r, s).

Notation "x <- m ;; k" := (bind m (fun x => k))
  (at level 61, m at next level, right associativity).
Notation "m ;;; k" := (bind m (fun _ : unit => k))
  (at level 61, right associativity).

Definition sleep (d : Q) : M unit :=
  fun s => (Ok tt, mkst (ncalls s) (trace s ++ [ESleep d]) (out s)).

Definition yield (o : obj) : M unit :=
  fun s => (Ok tt, mkst (ncalls s) (trace s) (out s ++ [o])).

(** ** Python built-ins on decoded JSON *)

(** [d.get(k, default)]; [.get] exists on dicts only. *)
Definition dict_get (d : json) (k : string) (default : json) : M json :=
  match d with
  | JObj kvs => ret (match assoc k kvs with Some v => v | None => default end)
  | _ => raise AttributeError
  end.

(** [x[k]] with a string key. *)
Definition getitem_str (x : json) (k : string) : M json :=
  match x with
  | JObj kvs => match assoc k kvs with Some v => ret v | None => raise KeyError end
  | _ => raise TypeError
  end.

(** [x[0]]; JSON object keys are strings, so [d[0]] is a [KeyError]. *)
Definition getitem_0 (x : json) : M json :=
  match x with
  | JList (v :: _) => ret v
  | JList [] => raise IndexError
  | JObj _ => raise KeyError
  | JStr (String c _) => ret (JStr (String c EmptyString))
  | JStr EmptyString => raise IndexError
  | _ => raise TypeError
  end.

(** [for v in x]: lists give their items, dicts their keys, strings their
    characters. *)
Definition py_iter (x : json) : M (list json) :=
  match x with
  | JList l => ret l
  | JObj kvs => ret (map (fun kv => JStr (fst kv)) kvs)
  | JStr s => ret (map (fun c => JStr (String c EmptyString)) (list_ascii_of_string s))
  | _ => raise TypeError
  end.

(** [for v in l: body v], the loop body threading the monad. *)
Fixpoint for_each {A} (l : list A) (body : A -> M unit) : M unit :=
  match l with
  | [] => ret tt
  | v :: l' => body v ;;; for_each l' body
  end.

Definition DEFAULT_RETRY_COUNT : nat := 5.

(** Modelled from the spec: [error.get_response_json] (error.py, not in
    client.py). A status outside the 20x family raises [RuntimeError], a
    body that is not JSON raises [ValueError] (the comment at its call in
    [create_searchindex] says the same); otherwise the decoded JSON. *)
Definition is_20x (status : Z) : bool := (200 <=? status) && (status <=? 299).

Definition get_response_json (resp : Z * option json) : M json :=
  let (status, body) := resp in
  if is_20x status
  then match body with Some j => ret j | None => raise ValueError end
  else raise RuntimeError.

Definition is_list (x : json) : bool := match x with JList _ => true | _ => false end.
Definition is_dict (x : json) : bool := match x with JObj _ => true | _ => false end.
Definition has_key (k : string) (x : json) : bool :=
  match x with JObj kvs => match assoc k kvs with Some _ => true | None => false end | _ => false end.
Definition len_pos (x : json) : bool :=
  match x with JList l => (0 <? length l)%nat | _ => false end.
Definition first_elem (x : json) : json :=
  match x with JList (v :: _) => v | _ => JNull end.

(** The guard of [create_sketch] and [create_searchindex]:
    [objects and isinstance(objects, list) and len(objects) > 0
     and isinstance(objects[0], dict) and "id" in objects[0]]. *)
Definition objects_valid (objects : json) : bool :=
  truthy objects && is_list objects && len_pos objects
  && is_dict (first_elem objects) && has_key "id" (first_elem objects).

(** One pass of a create loop either returns or carries on with the new
    [last_exception]. *)
Inductive step (A : Type) : Type :=
| Return (a : A)
| Continue (last_exception : option exc).
Arguments Return {A} a.
Arguments Continue {A} last_exception.

(** [0.5 * (2 ** (attempt - 2))] of [fetch_resource_data]. *)
Definition fetch_backoff (attempt : nat) : Q :=
  (1 # 2) * inject_Z (2 ^ (Z.of_nat attempt - 2)).

(** [0.5 * (2**attempt)] of [create_sketch] and [create_searchindex]. *)
Definition create_backoff (attempt : nat) : Q :=
  (1 # 2) * inject_Z (2 ^ Z.of_nat attempt).

Section Client.

(** The borrowed session: the outcome of the [n]-th request [r]. *)
Variable srv : request -> nat -> http_outcome.
(** [self.api_root], ["<host_uri>/api/v1"]. *)
Variable api_root : string.

(** [self.session.get(url, params=...)] / [self.session.post(url, json=...)]. *)
Definition http (r : request) : M (Z * option json) :=
  fun s =>
    let s' := mkst (S (ncalls s)) (trace s ++ [ECall r]) (out s) in
    match srv r (ncalls s) with
    | HConnErr => (Exc ConnectionError, s')
    | HResp status body => (Ok (status, body), s')
    end.

(** The [while True] loop of [fetch_resource_data]; [attempt] is the
    counter before the increment. It leaves the loop at [attempt = 5] at
    the latest, so [DEFAULT_RETRY_COUNT] passes of fuel suffice. *)
Fixpoint fetch_loop (fuel : nat) (resource_url : string) (params : json)
    (attempt : nat) : M json :=
  match fuel with
  | O => raise OutOfFuel
  | S fuel' =>
    let attempt := S attempt in
    (if (1 <? attempt)%nat then sleep (fetch_backoff attempt) else ret tt) ;;;
    r <- catch
           (response <- http (mkreq GET resource_url params) ;;
            result <- get_response_json response ;;
            ret (if truthy result then Some result else None))
           (fun e => match e with
                     | RuntimeError | ValueError | ConnectionError =>
                         if (DEFAULT_RETRY_COUNT <=? attempt)%nat then raise e
                         else ret None
                     | _ => raise e
                     end) ;;
    match r with
    | Some result => ret result
    | None =>
        if (DEFAULT_RETRY_COUNT <=? attempt)%nat then raise RuntimeError
        else fetch_loop fuel' resource_url params attempt
    end
  end.

Definition fetch_resource_data (resource_uri : string) (params : json) : M json :=
  fetch_loop DEFAULT_RETRY_COUNT (api_root ++ "/" ++ resource_uri)%string params 0.

(** Modelled from the spec: [get_sketch(sketch_id)] returns
    [sketch.Sketch(sketch_id, api=self)]; the [Sketch] class is not part of
    client.py, so the wrapper is kept as an opaque value for the id, with
    no request of its own here. *)
Definition get_sketch (sketch_id : json) : M obj := ret (OSketch sketch_id JNull).

(** [for attempt in range(DEFAULT_RETRY_COUNT)] of [create_sketch]; the
    [session.post] is outside the [try]. The empty list is the fallback
    [raise] after the loop. *)
Fixpoint create_sketch_loop (attempts : list nat) (resource_url : string)
    (form_data : json) (last_exception : option exc) : M obj :=
  match attempts with
  | [] => raise RuntimeError
  | attempt :: rest =>
    response <- http (mkreq POST resource_url form_data) ;;
    r <- catch
           (response_dict <- get_response_json response ;;
            objects <- dict_get response_dict "objects" JNull ;;
            if objects_valid objects then
              first <- getitem_0 objects ;;
              sketch_id <- getitem_str first "id" ;;
              o <- get_sketch sketch_id ;;
              ret (Return o)
            else ret (Continue (Some RuntimeError)))
           (fun e => match e with
                     | ValueError | RuntimeError => ret (Continue (Some e))
                     | _ => if is_request_exception e then ret (Continue (Some e))
                            else raise e
                     end) ;;
    match r with
    | Return o => ret o
    | Continue last =>
        if (attempt <? DEFAULT_RETRY_COUNT - 1)%nat then
          sleep (create_backoff attempt) ;;; create_sketch_loop rest resource_url form_data last
        else raise RuntimeError
    end
  end.

(** [create_sketch(name, description=None)]; [None] for [description] is
    [description = None]. *)
Definition create_sketch (name : string) (description : option string) : M obj :=
  let description :=
    match description with
    | Some d => if String.eqb d EmptyString then name else d
    | None => name
    end in
  if String.eqb name EmptyString then raise ValueError
  else create_sketch_loop (seq 0 DEFAULT_RETRY_COUNT) (api_root ++ "/sketches/")%string
         (JObj [("name", JStr name); ("description", JStr description)]) None.

(** The loop of [create_searchindex]: the [session.post] is inside the
    [try]. After the last attempt, with [last_exception] set, the line
    [RuntimeError(f"{0:s} Response: {1!s}".format(...))] evaluates the
    f-string field [{0:s}], i.e. [format(0, "s")], which raises
    [ValueError]; otherwise [RuntimeError] is raised. *)
Fixpoint create_searchindex_loop (attempts : list nat) (resource_url : string)
    (form_data : json) (last_exception : option exc) : M obj :=
  match attempts with
  | [] => raise RuntimeError
  | attempt :: rest =>
    r <- catch
           (response <- http (mkreq POST resource_url form_data) ;;
            response_dict <- get_response_json response ;;
            objects <- dict_get response_dict "objects" JNull ;;
            if objects_valid objects then
              first <- getitem_0 objects ;;
              searchindex_id <- getitem_str first "id" ;;
              ret (Return (OSearchIndex searchindex_id JNull))
            else ret (Continue (Some RuntimeError)))
           (fun e => match e with
                     | ValueError | RuntimeError => ret (Continue (Some e))
                     | _ => if is_request_exception e then ret (Continue (Some e))
                            else raise e
                     end) ;;
    match r with
    | Return o => ret o
    | Continue last =>
        if (attempt <? DEFAULT_RETRY_COUNT - 1)%nat then
          sleep (create_backoff attempt) ;;; create_searchindex_loop rest resource_url form_data last
        else match last with
             | Some _ => raise ValueError
             | None => raise RuntimeError
             end
    end
  end.

Definition create_searchindex (searchindex_name opensearch_index_name : string) : M obj :=
  create_searchindex_loop (seq 0 DEFAULT_RETRY_COUNT) (api_root ++ "/searchindices/")%string
    (JObj [("searchindex_name", JStr searchindex_name);
           ("es_index_name", JStr opensearch_index_name)]) None.

(** The [while True] loop written out identically in [create_user] and
    [create_sigmarule]: no [try], only a falsy [objects] is retried. It
    leaves the loop after [DEFAULT_RETRY_COUNT] passes at the latest. *)
Fixpoint post_objects_loop (fuel : nat) (resource_url : string) (form_data : json)
    (retry_count : nat) : M json :=
  match fuel with
  | O => raise OutOfFuel
  | S fuel' =>
    response <- http (mkreq POST resource_url form_data) ;;
    response_dict <- get_response_json response ;;
    objects <- dict_get response_dict "objects" JNull ;;
    if truthy objects then ret objects
    else
      let retry_count := S retry_count in
      if (DEFAULT_RETRY_COUNT <=? retry_count)%nat then raise RuntimeError
      else post_objects_loop fuel' resource_url form_data retry_count
  end.

Definition create_user (username password : string) : M obj :=
  objects <- post_objects_loop DEFAULT_RETRY_COUNT (api_root ++ "/users/")%string
               (JObj [("username", JStr username); ("password", JStr password)]) 0 ;;
  first <- getitem_0 objects ;;
  user_id <- getitem_str first "id" ;;
  ret (OUser user_id).

(** Modelled from the spec: [get_sigmarule(rule_uuid)] builds
    [sigma.SigmaRule(api=self)] and calls its [from_rule_uuid(rule_uuid)];
    [SigmaRule] is in sigma.py, not in client.py. Its constructor sends
    nothing, like the other wrapper classes. [from_rule_uuid] fetches the
    rule from the server: the docstring says "Fetches a single Sigma rule
    from the database", and the spec says "fetch and return the full
    resource by that id (a second network round trip)". That fetch is this
    client's [fetch_resource_data] of the rule's resource. Two parts of
    sigma.py are kept as parameters: the path it builds for the uuid,
    [sigmarule_uri], and what the [SigmaRule] makes of the fetched payload,
    [sigmarule_of] (the loaded rule, or the exception it raises). *)
Variable sigmarule_uri : json -> string.
Variable sigmarule_of : json -> json -> res obj.

Definition get_sigmarule (rule_uuid : json) : M obj :=
  data <- fetch_resource_data (sigmarule_uri rule_uuid) JNull ;;
  of_res (sigmarule_of rule_uuid data).

Definition create_sigmarule (rule_yaml : string) : M obj :=
  objects <- post_objects_loop DEFAULT_RETRY_COUNT (api_root ++ "/sigmarules/")%string
               (JObj [("rule_yaml", JStr rule_yaml)]) 0 ;;
  first <- getitem_0 objects ;;
  rule_uuid <- getitem_str first "rule_uuid" ;;
  get_sigmarule rule_uuid.

(** Modelled from the spec: [sigma.Sigma(api=self)] and its method
    [from_text(rule_text)] (sigma.py, not in client.py) are parameters.
    [parse_sigmarule_by_text] is modelled from client.py. An empty text
    raises [ValueError]. Otherwise a [ValueError] inside the [try] is
    caught. If the constructor raised it, [sigma_obj] was never bound, so
    [return sigma_obj] raises [UnboundLocalError]. If [from_text] raised
    it, the unparsed object is returned. Any other exception propagates. *)
Variable sigma_Sigma : M obj.
Variable from_text : obj -> string -> M unit.

Definition parse_sigmarule_by_text (rule_text : string) : M obj :=
  if String.eqb rule_text EmptyString then raise ValueError
  else
    sigma_obj <- catch (o <- sigma_Sigma ;; ret (Some o))
                   (fun e => match e with ValueError => ret None | _ => raise e end) ;;
    match sigma_obj with
    | None => raise UnboundLocalError
    | Some o =>
        catch (from_text o rule_text)
          (fun e => match e with ValueError => ret tt | _ => raise e end) ;;;
        ret o
    end.

(** ** Listing generators: consuming the generator runs its body, each
    [yield] appending to [out]. *)


Definition list_searchindices : M unit :=
  response <- fetch_resource_data "searchindices/" JNull ;;
  response_objects <- dict_get response "objects" JNull ;;
  if negb (truthy response_objects) then yield ONone
  else
    first <- getitem_0 response_objects ;;
    items <- py_iter first ;;
    for_each items (fun index_dict =>
      index_id <- getitem_str index_dict "id" ;;
      index_name <- getitem_str index_dict "name" ;;
      yield (OSearchIndex index_id index_name)).

(** The [while has_next_page] loop of [list_sketches]. [url_params] holds
    the keys set before the loop; [url_params["page"] = page] adds the key
    [page] after them. The loop follows the server's [meta.next_page], so
    the model bounds it by [fuel] passes. *)
Fixpoint list_sketches_loop (fuel : nat) (url_params : list (string * json))
    (page : json) : M unit :=
  match fuel with
  | O => raise OutOfFuel
  | S fuel' =>
    response <- fetch_resource_data "sketches/" (JObj (url_params ++ [("page", page)])) ;;
    meta <- dict_get response "meta" (JObj []) ;;
    page <- dict_get meta "next_page" JNull ;;
    let has_next_page := truthy page in
    objects <- dict_get response "objects" (JList []) ;;
    items <- py_iter objects ;;
    for_each items (fun sketch_dict =>
      sketch_id <- getitem_str sketch_dict "id" ;;
      sketch_name <- getitem_str sketch_dict "name" ;;
      yield (OSketch sketch_id sketch_name)) ;;;
    if has_next_page then list_sketches_loop fuel' url_params page else ret tt
  end.

Definition list_sketches_params (per_page : Z) (scope : string) (include_archived : bool)
  : list (string * json) :=
  [("per_page", JNum per_page); ("scope", JStr scope);
   ("include_archived", JBool include_archived)].

(** [list_sketches(per_page=50, scope="user", include_archived=True)],
    starting with [page = 1]. *)
Definition list_sketches (fuel : nat) (per_page : Z) (scope : string)
    (include_archived : bool) : M unit :=
  list_sketches_loop fuel (list_sketches_params per_page scope include_archived) (JNum 1).

End Client.

(** ** One attempt of each retry loop, read off the code

    The outcome of one pass of a loop as a function of the server's
    answer: [None]/[Continue] means the loop goes on to the next attempt. *)

Definition fetch_pre (attempt : nat) : list event :=
  if (1 <? attempt)%nat then [ESleep (fetch_backoff attempt)] else [].

Definition fetch_verdict (attempt : nat) (o : http_outcome) : option (res json) :=
  let last := (DEFAULT_RETRY_COUNT <=? attempt)%nat in
  match o with
  | HConnErr => if last then Some (Exc ConnectionError) else None
  | HResp status body =>
      if is_20x status then
        match body with
        | None => if last then Some (Exc ValueError) else None
        | Some j => if truthy j then Some (Ok j)
                    else if last then Some (Exc RuntimeError) else None
        end
      else if last then Some (Exc RuntimeError) else None
  end.

(** [response_dict.get("objects")] of a decoded dict. *)
Definition objects_of (kvs : list (string * json)) : json :=
  match assoc "objects" kvs with Some v => v | None => JNull end.

(** [objects[0]["id"]] once [objects_valid] holds. *)
Definition objects_id (objects : json) : json :=
  match first_elem objects with
  | JObj kvs => match assoc "id" kvs with Some v => v | None => JNull end
  | _ => JNull
  end.

Definition sketch_verdict (o : http_outcome) : res (step obj) :=
  match o with
  | HConnErr => Exc ConnectionError
  | HResp status body =>
      if is_20x status then
        match body with
        | None => Ok (Continue (Some ValueError))
        | Some (JObj kvs) =>
            if objects_valid (objects_of kvs)
            then Ok (Return (OSketch (objects_id (objects_of kvs)) JNull))
            else Ok (Continue (Some RuntimeError))
        | Some _ => Exc AttributeError
        end
      else Ok (Continue (Some RuntimeError))
  end.

Definition searchindex_verdict (o : http_outcome) : res (step obj) :=
  match o with
  | HConnErr => Ok (Continue (Some ConnectionError))
  | HResp status body =>
      if is_20x status then
        match body with
        | None => Ok (Continue (Some ValueError))
        | Some (JObj kvs) =>
            if objects_valid (objects_of kvs)
            then Ok (Return (OSearchIndex (objects_id (objects_of kvs)) JNull))
            else Ok (Continue (Some RuntimeError))
        | Some _ => Exc AttributeError
        end
      else Ok (Continue (Some RuntimeError))
  end.

Definition post_objects_verdict (o : http_outcome) : res (option json) :=
  match o with
  | HConnErr => Exc ConnectionError
  | HResp status body =>
      if is_20x status then
        match body with
        | None => Exc ValueError
        | Some (JObj kvs) =>
            if truthy (objects_of kvs) then Ok (Some (objects_of kvs)) else Ok None
        | Some _ => Exc AttributeError
        end
      else Exc RuntimeError
  end.

(** The state after one request [r], after the events [pre]. *)
Definition after_call (s : st) (pre : list event) (r : request) : st :=
  mkst (S (ncalls s)) (trace s ++ pre ++ [ECall r]) (out s).

Definition after_sleep (s : st) (d : Q) : st :=
  mkst (ncalls s) (trace s ++ [ESleep d]) (out s).

(** ** Kinds of failed attempts

    The spec's transient failures: a connection error, a status outside
    20x, a body that is not JSON, or a payload the operation's check
    rejects. The check differs: [fetch_resource_data] rejects a falsy
    payload; [create_sketch] and [create_searchindex] reject a dict whose
    [objects] fails [objects_valid]; [create_user] and [create_sigmarule]
    reject a dict whose [objects] is falsy. *)

Definition transient_get (o : http_outcome) : bool :=
  match o with
  | HConnErr => true
  | HResp status body =>
      negb (is_20x status)
      || match body with None => true | Some j => negb (truthy j) end
  end.

Definition transient_create (o : http_outcome) : bool :=
  match o with
  | HConnErr => true
  | HResp status body =>
      negb (is_20x status)
      || match body with
         | None => true
         | Some (JObj kvs) => negb (objects_valid (objects_of kvs))
         | Some _ => false
         end
  end.

Definition is_conn_error (o : http_outcome) : bool :=
  match o with HConnErr => true | _ => false end.

(** The same failures without the connection error. *)
Definition response_failure_create (o : http_outcome) : bool :=
  transient_create o && negb (is_conn_error o).

Definition objects_falsy (o : http_outcome) : bool :=
  match o with
  | HResp status (Some (JObj kvs)) => is_20x status && negb (truthy (objects_of kvs))
  | _ => false
  end.

(** A connection error, a non-20x status or a body that is not JSON. *)
Definition hard_failure (o : http_outcome) : bool :=
  match o with
  | HConnErr => true
  | HResp status body =>
      negb (is_20x status) || match body with None => true | Some _ => false end
  end.

(** A run ends in a Python exception after [n] requests. *)
Definition raises_after {A} (n : nat) (p : res A * st) : Prop :=
  (exists e, fst p = Exc e /\ python_exc e) /\ ncalls (snd p) = n.

(** A server answering every request with status [status] and body
    [body]. *)
Definition server_const (o : http_outcome) : request -> nat -> http_outcome :=
  fun _ _ => o.

(** An instance of the sigma.py parameters of [get_sigmarule], for
    concrete runs: the rule's resource is [sigmarules/<uuid>/] and the
    loaded rule is the wrapper for the uuid. *)
Definition example_sigmarule_uri (rule_uuid : json) : string :=
  match rule_uuid with JStr u => ("sigmarules/" ++ u ++ "/")%string | _ => "sigmarules/" end.

Definition example_sigmarule_of (rule_uuid data : json) : res obj := Ok (OSigmaRule rule_uuid).

(** ** Backoff delays observed in a trace *)

(** For each request of a trace, the time slept since the previous
    request ([acc] before the first). *)
Fixpoint pre_delays_from (acc : Q) (tr : list event) : list Q :=
  match tr with
  | [] => []
  | ECall _ :: tr' => acc :: pre_delays_from 0 tr'
  | ESleep d :: tr' => pre_delays_from (acc + d) tr'
  end.

Definition pre_delays (tr : list event) : list Q := pre_delays_from 0 tr.

(** The spec's unified backoff [delay(attempt) = 0.5 * 2^(attempt-1)],
    [attempt] the number of attempts already made, [delay(0) = 0]. *)
Definition unified_delay (attempt : nat) : Q :=
  match attempt with
  | O => 0
  | S a => (1 # 2) * inject_Z (2 ^ Z.of_nat a)
  end.

(** [l1] is, up to [Qeq], a prefix of [l2]. *)
Definition qprefix (l1 l2 : list Q) : Prop := Forall2 Qeq l1 (firstn (length l1) l2).

(** The response body [{"objects": [{"id": 42}]}]. *)
Definition objects_id42 : json := JObj [("objects", JList [JObj [("id", JNum 42)]])].

(** ** Successful attempts *)

(** A response [fetch_resource_data] accepts, with the payload it
    returns: 20x, a JSON body, and that body truthy. *)
Definition get_ok (o : http_outcome) : option json :=
  match o with
  | HResp status (Some j) => if is_20x status && truthy j then Some j else None
  | _ => None
  end.

(** The last event of a trace is the request [r]: nothing was slept or
    sent after it. *)
Definition ends_with_call (tr : list event) (r : request) : Prop :=
  exists tr', tr = tr' ++ [ECall r].

(** The requests of a trace, in order. *)
Fixpoint calls (tr : list event) : list request :=
  match tr with
  | [] => []
  | ECall r :: tr' => r :: calls tr'
  | ESleep _ :: tr' => calls tr'
  end.

(** The code after the loop of [create_user] and [create_sigmarule]:
    [objects[0][key]], wrapped by [f]. *)
Definition extract_first (objects : json) (key : string) (f : json -> obj) : M obj :=
  first <- getitem_0 objects ;;
  x <- getitem_str first key ;;
  ret (f x).

(** A server failing the first [k] requests with a 503 and answering
    later ones with [body]. *)
Definition server_after (k : nat) (body : json) : request -> nat -> http_outcome :=
  fun _ n => if (n <? k)%nat then HResp 503 None else HResp 200 (Some body).

(** A 20x dict whose [objects] fails the check of [create_sketch] and
    [create_searchindex], such as [{"objects": []}]. *)
Definition objects_rejected (o : http_outcome) : bool :=
  match o with
  | HResp status (Some (JObj kvs)) => is_20x status && negb (objects_valid (objects_of kvs))
  | _ => false
  end.

(** ** A paginated dataset of sketches

    A server holding [pages], each a list of [(id, name)] entries, that
    answers a GET whose [params] carry [page = q] with page [q] (from 1).
    Every page but the last links to the next one by [meta.next_page];
    the last page carries [last_meta] as its [meta] ([None]: no [meta]
    key at all). *)

Definition sketch_entry (e : json * json) : json := JObj [("id", fst e); ("name", snd e)].

Definition sketch_of_entry (e : json * json) : obj := OSketch (fst e) (snd e).

Definition dataset_page (pages : list (list (json * json))) (last_meta : option json)
    (q : nat) : json :=
  JObj ((if (q <? length pages)%nat
         then [("meta", JObj [("next_page", JNum (Z.of_nat (S q)))])]
         else match last_meta with None => [] | Some m => [("meta", m)] end)
        ++ [("objects", JList (map sketch_entry (nth (pred q) pages [])))]).

Definition page_param (params : json) : option Z :=
  match params with
  | JObj kvs => match assoc "page" kvs with Some (JNum q) => Some q | _ => None end
  | _ => None
  end.

Definition dataset_server (pages : list (list (json * json))) (last_meta : option json)
  : request -> nat -> http_outcome :=
  fun r _ =>
    match page_param (rarg r) with
    | Some q => HResp 200 (Some (dataset_page pages last_meta (Z.to_nat q)))
    | None => HResp 400 None
    end.

(** A last [meta] that ends the listing: absent, or a dict whose
    [next_page] is absent or falsy. *)
Definition meta_stops (last_meta : option json) : bool :=
  match last_meta with
  | None => true
  | Some (JObj kvs) =>
      match assoc "next_page" kvs with None => true | Some v => negb (truthy v) end
  | Some _ => false
  end.

(** The request [list_sketches] sends for page [q]. *)
Definition page_call (api_root : string) (url_params : list (string * json)) (q : nat) : event :=
  ECall (mkreq GET (api_root ++ "/" ++ "sketches/")%string
           (JObj (url_params ++ [("page", JNum (Z.of_nat q))]))).

(** ** Lists of user dicts *)


(** ** More of [TimesketchApi]: status, version, aggregators, Sigma rules *)

(** [str(n)] / ["{0:d}".format(n)] for a natural number: its decimal
    digits. *)
Fixpoint string_of_nat_aux (fuel n : nat) (acc : string) : string :=
  match fuel with
  | O => acc
  | S fuel' =>
    let acc' := String (Ascii.ascii_of_nat (48 + Nat.modulo n 10)) acc in
    if (n <? 10)%nat then acc' else string_of_nat_aux fuel' (Nat.div n 10) acc'
  end.

Definition string_of_nat (n : nat) : string := string_of_nat_aux (S n) n EmptyString.

(** ["{0:s}".format(x)] of a decoded JSON value: a string formats as
    itself; [int] and [bool] reject the format code [s] with [ValueError];
    [None], lists and dicts reject any non-empty format spec with
    [TypeError]. *)
Definition format_s (x : json) : M string :=
  match x with
  | JStr s => ret s
  | JNum _ | JBool _ => raise ValueError
  | _ => raise TypeError
  end.

(** The newline character ["\n"]. *)
Definition newline : string := String (Ascii.ascii_of_nat 10) EmptyString.

(** [d.items()]; only dicts have it. *)
Definition dict_items (d : json) : M (list (string * json)) :=
  match d with
  | JObj kvs => ret kvs
  | _ => raise AttributeError
  end.

(** [[f(x) for x in l]] in the monad, left to right. *)
Fixpoint map_m {A B} (f : A -> M B) (l : list A) : M (list B) :=
  match l with
  | [] => ret []
  | x :: l' => y <- f x ;; ys <- map_m f l' ;; ret (y :: ys)
  end.

(** The result of [get_aggregator_info]: the decoded JSON, or with
    [as_pandas] the rows handed to [pandas.DataFrame], each row the
    [line_dict] built for it (its keys in insertion order). *)
Inductive agg_result : Type :=
| AggJson (response_json : json)
| AggFrame (lines : list (list (string * json))).

(** The inner loop of [get_aggregator_info]:
    [for field_index, field in enumerate(...)], the column names numbered
    from [field_index + 1]. *)
Fixpoint aggregator_fields (field_index : nat) (fields : list json)
  : M (list (string * json)) :=
  match fields with
  | [] => ret []
  | field :: rest =>
    field_name <- dict_get field "name" JNull ;;
    field_description <- dict_get field "description" JNull ;;
    more <- aggregator_fields (S field_index) rest ;;
    ret ((("field_" ++ string_of_nat (S field_index) ++ "_name")%string, field_name)
         :: (("field_" ++ string_of_nat (S field_index) ++ "_description")%string,
             field_description)
         :: more)
  end.

(** The [line_dict] of one [line] of [get_aggregator_info]. *)
Definition aggregator_line (line : json) : M (list (string * json)) :=
  name <- dict_get line "name" (JStr "N/A") ;;
  description <- dict_get line "description" (JStr "N/A") ;;
  fields <- dict_get line "fields" (JList []) ;;
  items <- py_iter fields ;;
  columns <- aggregator_fields 0 items ;;
  ret (("name", name) :: ("description", description) :: columns).

(** The result of [list_sigmarules]: with [as_pandas] the records handed
    to [pandas.DataFrame.from_records]; otherwise the list of
    [sigma.SigmaRule] objects, each one kept as the [(key, value)] pairs
    passed to its [set_value], in order. *)
Inductive sigma_rules : Type :=
| RulesFrame (records : json)
| Rules (rules : list (list (string * json))).

(** The [for rule_dict in response["objects"]] loop of [list_sigmarules],
    [rules] the list built so far. *)
Fixpoint list_sigmarules_loop (items : list json) (rules : list (list (string * json)))
  : M (list (list (string * json))) :=
  match items with
  | [] => ret rules
  | rule_dict :: rest =>
    if negb (truthy rule_dict) then raise ValueError
    else
      kvs <- dict_items rule_dict ;;
      list_sigmarules_loop rest (rules ++ [kvs])
  end.

Section ClientMore.

Variable srv : request -> nat -> http_outcome.
Variable api_root : string.
(** [version.get_version()], the client's own version string (version.py). *)
Variable client_version : string.

(** [check_celery_status(job_id="")]. *)
Definition check_celery_status (job_id : string) : M json :=
  response <- (if negb (String.eqb job_id EmptyString)
               then fetch_resource_data srv api_root ("tasks/?job_id=" ++ job_id)%string JNull
               else fetch_resource_data srv api_root "tasks/" JNull) ;;
  dict_get response "objects" (JList []).

(** The [version] property. *)
Definition version : M string :=
  version_dict <- fetch_resource_data srv api_root "version/" JNull ;;
  ts_version <- (if truthy version_dict
                 then meta <- dict_get version_dict "meta" (JObj []) ;;
                      dict_get meta "version" JNull
                 else ret JNull) ;;
  if truthy ts_version
  then v <- format_s ts_version ;;
       ret ("API Client: " ++ client_version ++ newline ++ "TS Backend: " ++ v)%string
  else ret ("API Client: " ++ client_version)%string.

(** [get_aggregator_info(name="", as_pandas=False)]: with a name, one
    [session.post] outside any retry loop. *)
Definition get_aggregator_info (name : string) (as_pandas : bool) : M agg_result :=
  let resource_uri := "aggregation/info/" in
  response_json <-
    (if negb (String.eqb name EmptyString)
     then response <- http srv (mkreq POST (api_root ++ "/" ++ resource_uri)%string
                                  (JObj [("aggregator", JStr name)])) ;;
          get_response_json response
     else fetch_resource_data srv api_root resource_uri JNull) ;;
  if negb as_pandas then ret (AggJson response_json)
  else
    let response_json :=
      match response_json with JObj _ => JList [response_json] | _ => response_json end in
    items <- py_iter response_json ;;
    lines <- map_m aggregator_line items ;;
    ret (AggFrame lines).

(** [list_sigmarules(as_pandas=False)]. *)
Definition list_sigmarules (as_pandas : bool) : M sigma_rules :=
  response <- fetch_resource_data srv api_root "sigmarules/" JNull ;;
  if negb (truthy response) then raise ValueError
  else if as_pandas then
    records <- dict_get response "objects" JNull ;;
    ret (RulesFrame records)
  else
    objects <- getitem_str response "objects" ;;
    items <- py_iter objects ;;
    rules <- list_sigmarules_loop items [] ;;
    ret (Rules rules).

End ClientMore.

(** ** Sessions: [_create_session], [_set_csrf_token], [_authenticate_session]

    A [requests.Session] as far as client.py sets it up: its [auth], its
    [verify] flag and the headers client.py adds (the library's default
    headers are left out). [requests.Session()] starts with no [auth] and
    [verify = True]. *)

Record Session : Type := mksession {
  auth : option (string * string);
  verify : bool;
  headers : list (string * string)
}.

Definition new_session : Session := mksession None true [].

(** [session.auth = a] and [session.verify = b]. *)
Definition set_auth (sess : Session) (a : option (string * string)) : Session :=
  mksession a (verify sess) (headers sess).

Definition set_verify (sess : Session) (b : bool) : Session :=
  mksession (auth sess) b (headers sess).

(** [str.lower()] on ASCII text. *)
Definition ascii_lower (c : Ascii.ascii) : Ascii.ascii :=
  let n := Ascii.nat_of_ascii c in
  if (65 <=? n)%nat && (n <=? 90)%nat then Ascii.ascii_of_nat (n + 32)%nat else c.

Fixpoint str_lower (s : string) : string :=
  match s with
  | EmptyString => EmptyString
  | String c s' => String (ascii_lower c) (str_lower s')
  end.

(** [session.headers] is a [requests.structures.CaseInsensitiveDict]:
    [headers[k] = v] replaces the entry whose key has the same lower case,
    in its place, by [(k, v)], and appends [(k, v)] otherwise. *)
Fixpoint header_set (h : list (string * string)) (k v : string) : list (string * string) :=
  match h with
  | [] => [(k, v)]
  | (k', v') :: h' =>
      if String.eqb (str_lower k) (str_lower k') then (k, v) :: h'
      else (k', v') :: header_set h' k v
  end.

(** [session.headers.get(k)]. *)
Fixpoint header_get (h : list (string * string)) (k : string) : option string :=
  match h with
  | [] => None
  | (k', v) :: h' => if String.eqb (str_lower k) (str_lower k') then Some v else header_get h' k
  end.

(** The client object: [api_root] and [_session] ([None] until set). *)
Record api : Type := mkapi { api_root_of : string; session_of : option Session }.

Section Sessions.

Variable srv : request -> nat -> http_outcome.
(** [self._host_uri]. *)
Variable host_uri : string.
(** What BeautifulSoup finds in the page served for the [n]-th request
    [r]: [csrf_input r n] is [soup.find(id="csrf_token")] ([None]: no such
    tag) with the tag's [get("value")]; [csrf_meta r n] is
    [soup.find("meta", attrs={"name": "csrf-token"})] with its
    [attrs.get("content")]. *)
Variable csrf_input csrf_meta : request -> nat -> option (option string).
(** [_create_oauth_session(client_id, client_secret, run_server, skip_open)]:
    the interactive OAuth flow (a browser or the console), not embedded. *)
Variable _create_oauth_session : string -> string -> bool -> bool -> M Session.

Definition _set_csrf_token (session : Session) : M Session :=
  fun s =>
    let r := mkreq GET host_uri JNull in
    match http srv r s with
    | (Exc e, s') => (Exc e, s')
    | (Ok _, s') =>
      let csrf_token :=
        match csrf_input r (ncalls s) with
        | Some value => value
        | None => match csrf_meta r (ncalls s) with
                  | Some content => content
                  | None => None
                  end
        end in
      match csrf_token with
      | Some t =>
          if String.eqb t EmptyString then (Ok session, s')
          else (Ok (mksession (auth session) (verify session)
                      (header_set (header_set (headers session) "x-csrftoken" t)
                                  "referer" host_uri)), s')
      | None => (Ok session, s')
      end
    end.

(** [session.post("<host_uri>/login/", data=...)]: the form fields are
    the request's [rarg]; the response is not looked at. *)
Definition _authenticate_session (username password : string) : M unit :=
  _ <- http srv (mkreq POST (host_uri ++ "/login/")%string
                   (JObj [("username", JStr username); ("password", JStr password)])) ;;
  ret tt.

(** [_create_session]; [requests.packages.urllib3.disable_warnings] (a
    process-wide logging switch) is left out. *)
Definition _create_session (username password : string) (verify : bool)
    (client_id client_secret auth_mode : string) : M Session :=
  if String.eqb auth_mode "oauth" then _create_oauth_session client_id client_secret true false
  else if String.eqb auth_mode "oauth_local" then
    _create_oauth_session client_id client_secret false true
  else
    let session := new_session in
    let session :=
      if String.eqb auth_mode "http-basic"
      then set_auth session (Some (username, password))
      else session in
    let session :=
      if negb verify then set_verify session false else session in
    session <- _set_csrf_token session ;;
    (if String.eqb auth_mode "userpass" then _authenticate_session username password
     else ret tt) ;;;
    ret session.

(** [TimesketchApi(host_uri, username, password="", verify=True,
    client_id="", client_secret="", auth_mode="userpass",
    create_session=True)]; the [except] clauses re-raise the same class. *)
Definition TimesketchApi (username password : string) (verify : bool)
    (client_id client_secret auth_mode : string) (create_session : bool) : M api :=
  let api_root := (host_uri ++ "/api/v1")%string in
  if negb create_session then ret (mkapi api_root None)
  else
    catch (session <- _create_session username password verify client_id client_secret auth_mode ;;
           ret (mkapi api_root (Some session)))
          (fun e => match e with
                    | ConnectionError => raise ConnectionError
                    | RuntimeError => raise RuntimeError
                    | _ => raise e
                    end).

End Sessions.

(** The [session] property: [ValueError] while no session is set. *)
Definition session_prop (a : api) : M Session :=
  match session_of a with
  | None => raise ValueError
  | Some s => ret s
  end.

(** ** Observations on runs *)

(** The exception [fetch_resource_data] raises when its last attempt fails
    with [o]: the class caught by its [except] clause
    ([ConnectionError], [RuntimeError] for a status outside 20x,
    [ValueError] for a body that is not JSON), and [RuntimeError] for a
    falsy payload. *)
Definition get_failure_exc (o : http_outcome) : exc :=
  match o with
  | HConnErr => ConnectionError
  | HResp status body =>
      if is_20x status
      then match body with None => ValueError | Some _ => RuntimeError end
      else RuntimeError
  end.

(** Every request of [tr] is [r]; [tr] may hold sleeps as well. *)
Definition only_calls (r : request) (tr : list event) : Prop :=
  Forall (fun e => match e with ECall r' => r' = r | ESleep _ => True end) tr.

(** [tr] holds no sleep. *)
Definition no_sleep (tr : list event) : Prop :=
  Forall (fun e => match e with ECall _ => True | ESleep _ => False end) tr.

(** The run [p] started in state [s] only added the events [tr] to the
    trace. *)
Definition appended (s : st) {A} (p : res A * st) (tr : list event) : Prop :=
  trace (snd p) = trace s ++ tr.

(** A computation that leaves the state alone: no request, sleep or
    yield. *)
Definition pure_m {A} (m : M A) : Prop := forall s, snd (m s) = s.

(** The column names [pandas.DataFrame] gets from the fields of a line:
    [field_1_name], [field_1_description], [field_2_name], ... *)
Definition aggregator_columns (n : nat) : list string :=
  flat_map (fun i => [("field_" ++ string_of_nat i ++ "_name")%string;
                      ("field_" ++ string_of_nat i ++ "_description")%string])
    (seq 1 n).

(** An aggregator description [get_aggregator_info] turns into a row: a
    dict whose [fields], if present, is a list of dicts. *)
Definition aggregator_line_ok (line : json) : Prop :=
  exists kvs, line = JObj kvs /\
  match assoc "fields" kvs with
  | None => True
  | Some (JList fields) => Forall (fun f => exists fkvs, f = JObj fkvs) fields
  | Some _ => False
  end.

(** The number of fields of such a line. *)
Definition aggregator_nfields (line : json) : nat :=
  match line with
  | JObj kvs => match assoc "fields" kvs with Some (JList fields) => length fields | _ => 0 end
  | _ => 0
  end.

(** [d.get(k, default)] on a dict given by its pairs. *)
Definition get_or (kvs : list (string * json)) (k : string) (default : json) : json :=
  match assoc k kvs with Some v => v | None => default end.

(** The [SearchIndex] that [list_searchindices] builds from [index_dict]:
    a dict with an [id] and a [name]. *)
Definition index_of (index_dict : json) (o : obj) : Prop :=
  exists kvs i n, index_dict = JObj kvs /\ assoc "id" kvs = Some i /\
                  assoc "name" kvs = Some n /\ o = OSearchIndex i n.

(** The row [get_aggregator_info] builds for [line]: the columns [name]
    and [description] (with their values, ["N/A"] when absent), then two
    columns per field. *)
Definition aggregator_row (line : json) (row : list (string * json)) : Prop :=
  map fst row = "name" :: "description" :: aggregator_columns (aggregator_nfields line) /\
  exists kvs, line = JObj kvs /\
  firstn 2 (map snd row) = [get_or kvs "name" (JStr "N/A"); get_or kvs "description" (JStr "N/A")].

(** * Proofs *)

Lemma objects_valid_inv (objects : json) :
  objects_valid objects = true ->
  exists kvs l v, objects = JList (JObj kvs :: l) /\ assoc "id" kvs = Some v
                  /\ objects_id objects = v.
Proof.
  unfold objects_valid, objects_id.
  destruct objects as [| | | | [|x l] |]; simpl; rewrite ?andb_false_r;
    try discriminate.
  destruct x as [| | | | |kvs]; simpl; rewrite ?andb_false_r; try discriminate.
  unfold has_key; simpl. destruct (assoc "id" kvs) as [v|] eqn:E.
  - intros _. exists kvs, l, v. auto.
  - discriminate.
Qed.

Ltac step_cases :=
  repeat (simpl; match goal with
  | |- context [match ?x with HConnErr => _ | HResp _ _ => _ end] => destruct x
  | |- context [if ?b then _ else _] => destruct b eqn:?
  | |- context [match ?x with Some _ => _ | None => _ end] => destruct x eqn:?
  | |- context [match ?x with JNull => _ | _ => _ end] => destruct x
  end).

Lemma fetch_loop_unfold srv fuel url params a s :
  fetch_loop srv (S fuel) url params a s =
  match fetch_verdict (S a) (srv (mkreq GET url params) (ncalls s)) with
  | Some v => (v, after_call s (fetch_pre (S a)) (mkreq GET url params))
  | None => fetch_loop srv fuel url params (S a)
              (after_call s (fetch_pre (S a)) (mkreq GET url params))
  end.
Proof.
  unfold after_call, fetch_pre.
  cbn [fetch_loop]. unfold bind, catch, ret, raise, sleep, http.
  destruct (1 <? S a)%nat; cbn [ncalls trace out app];
    destruct (srv _ _) as [|status body]; cbn [fetch_verdict];
    unfold get_response_json; step_cases; rewrite <- ?app_assoc; reflexivity.
Qed.

Ltac valid_objects :=
  match goal with
  | H : objects_valid ?o = true |- _ =>
      apply objects_valid_inv in H;
      destruct H as (?kvs & ?l & ?v & -> & ?Hid & _);
      unfold objects_id, first_elem; simpl; rewrite ?Hid; simpl
  end.

Lemma create_sketch_loop_unfold srv a rest url fd last s :
  create_sketch_loop srv (a :: rest) url fd last s =
  match sketch_verdict (srv (mkreq POST url fd) (ncalls s)) with
  | Exc e => (Exc e, after_call s [] (mkreq POST url fd))
  | Ok (Return o) => (Ok o, after_call s [] (mkreq POST url fd))
  | Ok (Continue last') =>
      if (a <? DEFAULT_RETRY_COUNT - 1)%nat
      then create_sketch_loop srv rest url fd last'
             (after_sleep (after_call s [] (mkreq POST url fd)) (create_backoff a))
      else (Exc RuntimeError, after_call s [] (mkreq POST url fd))
  end.
Proof.
  unfold after_call, after_sleep.
  cbn [create_sketch_loop]. unfold bind, catch, ret, raise, sleep, http, get_sketch.
  destruct (srv _ _) as [|status body]; cbn [sketch_verdict];
    unfold get_response_json, objects_of; step_cases; try valid_objects;
    reflexivity.
Qed.

Lemma create_searchindex_loop_unfold srv a rest url fd last s :
  create_searchindex_loop srv (a :: rest) url fd last s =
  match searchindex_verdict (srv (mkreq POST url fd) (ncalls s)) with
  | Exc e => (Exc e, after_call s [] (mkreq POST url fd))
  | Ok (Return o) => (Ok o, after_call s [] (mkreq POST url fd))
  | Ok (Continue last') =>
      if (a <? DEFAULT_RETRY_COUNT - 1)%nat
      then create_searchindex_loop srv rest url fd last'
             (after_sleep (after_call s [] (mkreq POST url fd)) (create_backoff a))
      else match last' with
           | Some _ => (Exc ValueError, after_call s [] (mkreq POST url fd))
           | None => (Exc RuntimeError, after_call s [] (mkreq POST url fd))
           end
  end.
Proof.
  unfold after_call, after_sleep.
  cbn [create_searchindex_loop]. unfold bind, catch, ret, raise, sleep, http.
  destruct (srv _ _) as [|status body]; cbn [searchindex_verdict];
    unfold get_response_json, objects_of; step_cases; try valid_objects;
    reflexivity.
Qed.

Lemma post_objects_loop_unfold srv fuel url fd rc s :
  post_objects_loop srv (S fuel) url fd rc s =
  match post_objects_verdict (srv (mkreq POST url fd) (ncalls s)) with
  | Exc e => (Exc e, after_call s [] (mkreq POST url fd))
  | Ok (Some objects) => (Ok objects, after_call s [] (mkreq POST url fd))
  | Ok None =>
      if (DEFAULT_RETRY_COUNT <=? S rc)%nat
      then (Exc RuntimeError, after_call s [] (mkreq POST url fd))
      else post_objects_loop srv fuel url fd (S rc) (after_call s [] (mkreq POST url fd))
  end.
Proof.
  unfold after_call.
  cbn [post_objects_loop]. unfold bind, ret, raise, http.
  destruct (srv _ _) as [|status body]; cbn [post_objects_verdict];
    unfold get_response_json, objects_of; step_cases; reflexivity.
Qed.

Lemma bind_exc {A B} (m : M A) (k : A -> M B) s e s' :
  m s = (Exc e, s') -> bind m k s = (Exc e, s').
Proof. intros H. unfold bind. rewrite H. reflexivity. Qed.

Lemma bind_ok {A B} (m : M A) (k : A -> M B) s a s' :
  m s = (Ok a, s') -> bind m k s = k a s'.
Proof. intros H. unfold bind. rewrite H. reflexivity. Qed.

(** *** Verdicts on transient failures *)

Lemma fetch_verdict_retry a o :
  transient_get o = true -> (a < DEFAULT_RETRY_COUNT)%nat -> fetch_verdict a o = None.
Proof.
  intros Ht Ha. assert (E : (DEFAULT_RETRY_COUNT <=? a)%nat = false)
    by (apply Nat.leb_gt; exact Ha).
  unfold fetch_verdict. rewrite E.
  destruct o as [|status [j|]]; simpl in Ht |- *; auto;
    destruct (is_20x status); simpl in Ht |- *; auto.
  destruct (truthy j); simpl in Ht; auto; discriminate.
Qed.

Lemma fetch_verdict_last a o :
  transient_get o = true -> (DEFAULT_RETRY_COUNT <= a)%nat ->
  exists e, fetch_verdict a o = Some (Exc e) /\ python_exc e.
Proof.
  intros Ht Ha. assert (E : (DEFAULT_RETRY_COUNT <=? a)%nat = true)
    by (apply Nat.leb_le; exact Ha).
  unfold fetch_verdict, python_exc. rewrite E.
  destruct o as [|status [j|]]; simpl in Ht |- *;
    [|destruct (is_20x status); simpl in Ht |- *;
      [destruct (truthy j); simpl in Ht; [discriminate|]|]
     |destruct (is_20x status)];
    eexists; split; try reflexivity; discriminate.
Qed.

Lemma searchindex_verdict_retry o :
  transient_create o = true -> exists e, searchindex_verdict o = Ok (Continue (Some e)).
Proof.
  intros Ht. destruct o as [|status [j|]]; simpl in *; eauto.
  - destruct (is_20x status); simpl in *; eauto.
    destruct j; try discriminate.
    destruct (objects_valid (objects_of kvs)); simpl in *; try discriminate; eauto.
  - destruct (is_20x status); eauto.
Qed.

Lemma sketch_verdict_retry o :
  response_failure_create o = true -> exists e, sketch_verdict o = Ok (Continue (Some e)).
Proof.
  unfold response_failure_create. intros Ht.
  destruct o as [|status [j|]]; simpl in *; try discriminate;
    rewrite andb_true_r in Ht.
  - destruct (is_20x status); simpl in *; eauto.
    destruct j; try discriminate.
    destruct (objects_valid (objects_of kvs)); simpl in *; try discriminate; eauto.
  - destruct (is_20x status); eauto.
Qed.

Lemma post_objects_verdict_retry o :
  objects_falsy o = true -> post_objects_verdict o = Ok None.
Proof.
  destruct o as [|status [j|]]; simpl; try discriminate.
  destruct j; try discriminate.
  destruct (is_20x status), (truthy (objects_of kvs)); simpl; try discriminate; auto.
Qed.

Lemma post_objects_verdict_hard o :
  hard_failure o = true -> exists e, post_objects_verdict o = Exc e /\ python_exc e.
Proof.
  unfold python_exc.
  destruct o as [|status [j|]]; simpl; intros H;
    try (eexists; split; [reflexivity|discriminate]);
    destruct (is_20x status); simpl in *; try discriminate;
    eexists; split; try reflexivity; discriminate.
Qed.

(** *** Runs in which every attempt fails *)

Section Runs.

Variable srv : request -> nat -> http_outcome.

Lemma fetch_loop_all_transient url params :
  (forall n, transient_get (srv (mkreq GET url params) n) = true) ->
  forall fuel a s, (a + fuel = DEFAULT_RETRY_COUNT)%nat -> (0 < fuel)%nat ->
  raises_after (ncalls s + fuel) (fetch_loop srv fuel url params a s).
Proof.
  intros Ht. induction fuel as [|fuel IH]; intros a s Hf Hpos; [lia|].
  rewrite fetch_loop_unfold.
  destruct (Nat.lt_ge_cases (S a) DEFAULT_RETRY_COUNT) as [Hlt|Hge].
  - rewrite fetch_verdict_retry by auto.
    replace (ncalls s + S fuel)%nat
      with (ncalls (after_call s (fetch_pre (S a)) (mkreq GET url params)) + fuel)%nat
      by (simpl; lia).
    apply IH; unfold DEFAULT_RETRY_COUNT in *; lia.
  - destruct (fetch_verdict_last (S a) _ (Ht (ncalls s)) Hge) as [e [-> He]].
    split; [exists e; auto | unfold DEFAULT_RETRY_COUNT in *; simpl; lia].
Qed.

Lemma create_sketch_loop_all_failed url fd :
  (forall n, response_failure_create (srv (mkreq POST url fd) n) = true) ->
  forall k a last s, (a + k = DEFAULT_RETRY_COUNT)%nat -> (0 < k)%nat ->
  raises_after (ncalls s + k) (create_sketch_loop srv (seq a k) url fd last s).
Proof.
  intros Ht. induction k as [|k IH]; intros a last s Hk Hpos; [lia|].
  cbn [seq]. rewrite create_sketch_loop_unfold.
  destruct (sketch_verdict_retry _ (Ht (ncalls s))) as [e ->].
  destruct (a <? DEFAULT_RETRY_COUNT - 1)%nat eqn:E.
  - apply Nat.ltb_lt in E.
    replace (ncalls s + S k)%nat
      with (ncalls (after_sleep (after_call s [] (mkreq POST url fd)) (create_backoff a)) + k)%nat
      by (simpl; lia).
    apply IH; unfold DEFAULT_RETRY_COUNT in *; lia.
  - apply Nat.ltb_ge in E.
    split; [exists RuntimeError; split; [reflexivity|discriminate]
           | unfold DEFAULT_RETRY_COUNT in *; simpl; lia].
Qed.

Lemma create_searchindex_loop_all_failed url fd :
  (forall n, transient_create (srv (mkreq POST url fd) n) = true) ->
  forall k a last s, (a + k = DEFAULT_RETRY_COUNT)%nat -> (0 < k)%nat ->
  raises_after (ncalls s + k) (create_searchindex_loop srv (seq a k) url fd last s).
Proof.
  intros Ht. induction k as [|k IH]; intros a last s Hk Hpos; [lia|].
  cbn [seq]. rewrite create_searchindex_loop_unfold.
  destruct (searchindex_verdict_retry _ (Ht (ncalls s))) as [e ->].
  destruct (a <? DEFAULT_RETRY_COUNT - 1)%nat eqn:E.
  - apply Nat.ltb_lt in E.
    replace (ncalls s + S k)%nat
      with (ncalls (after_sleep (after_call s [] (mkreq POST url fd)) (create_backoff a)) + k)%nat
      by (simpl; lia).
    apply IH; unfold DEFAULT_RETRY_COUNT in *; lia.
  - apply Nat.ltb_ge in E.
    split; [exists ValueError; split; [reflexivity|discriminate]
           | unfold DEFAULT_RETRY_COUNT in *; simpl; lia].
Qed.

Lemma post_objects_loop_all_falsy url fd :
  (forall n, objects_falsy (srv (mkreq POST url fd) n) = true) ->
  forall fuel rc s, (rc + fuel = DEFAULT_RETRY_COUNT)%nat -> (0 < fuel)%nat ->
  raises_after (ncalls s + fuel) (post_objects_loop srv fuel url fd rc s).
Proof.
  intros Ht. induction fuel as [|fuel IH]; intros rc s Hf Hpos; [lia|].
  rewrite post_objects_loop_unfold, post_objects_verdict_retry by auto.
  destruct (DEFAULT_RETRY_COUNT <=? S rc)%nat eqn:E.
  - apply Nat.leb_le in E.
    split; [exists RuntimeError; split; [reflexivity|discriminate]
           | unfold DEFAULT_RETRY_COUNT in *; simpl; lia].
  - apply Nat.leb_gt in E.
    replace (ncalls s + S fuel)%nat
      with (ncalls (after_call s [] (mkreq POST url fd)) + fuel)%nat by (simpl; lia).
    apply IH; unfold DEFAULT_RETRY_COUNT in *; lia.
Qed.

Lemma post_objects_loop_hard url fd fuel rc s :
  hard_failure (srv (mkreq POST url fd) (ncalls s)) = true ->
  raises_after (S (ncalls s)) (post_objects_loop srv (S fuel) url fd rc s).
Proof.
  intros H. rewrite post_objects_loop_unfold.
  destruct (post_objects_verdict_hard _ H) as [e [-> He]].
  split; [exists e; auto | reflexivity].
Qed.

Lemma raises_after_bind {A B} n (m : M A) (k : A -> M B) s :
  raises_after n (m s) -> raises_after n (bind m k s).
Proof.
  unfold raises_after, bind. destruct (m s) as [[a|e] s']; simpl.
  - intros [[e [H _]] _]. discriminate.
  - intros [[e' [H He]] Hn]. injection H as ->. split; eauto.
Qed.

End Runs.

(** ** C1: the retry budget of each operation *)

(** C1 (as amended). When every attempt fails in a way the operation
    retries, it raises after exactly [DEFAULT_RETRY_COUNT] = 5 requests:
    [fetch_resource_data] and [create_searchindex] for a connection error,
    a non-20x status, an undecodable body or a rejected payload;
    [create_sketch] for the same failures other than a connection error;
    [create_user] and [create_sigmarule] for a 20x dict whose [objects] is
    falsy. [create_user] and [create_sigmarule] raise after the first
    request on a connection error, a non-20x status or an undecodable
    body. *)
Theorem retry_budget_by_operation srv api_root sigmarule_uri sigmarule_of :
  ((forall r n, transient_get (srv r n) = true) ->
     forall uri params,
       raises_after 5 (fetch_resource_data srv api_root uri params init_st)) /\
  ((forall r n, transient_create (srv r n) = true) ->
     forall name index_name,
       raises_after 5 (create_searchindex srv api_root name index_name init_st)) /\
  ((forall r n, response_failure_create (srv r n) = true) ->
     forall name description, name <> EmptyString ->
       raises_after 5 (create_sketch srv api_root name description init_st)) /\
  ((forall r n, objects_falsy (srv r n) = true) ->
     (forall username password,
        raises_after 5 (create_user srv api_root username password init_st)) /\
     (forall rule_yaml,
        raises_after 5 (create_sigmarule srv api_root sigmarule_uri sigmarule_of rule_yaml init_st))) /\
  ((forall r, hard_failure (srv r 0%nat) = true) ->
     (forall username password,
        raises_after 1 (create_user srv api_root username password init_st)) /\
     (forall rule_yaml,
        raises_after 1 (create_sigmarule srv api_root sigmarule_uri sigmarule_of rule_yaml init_st))).
Proof.
  split; [|split; [|split; [|split]]].
  - intros Ht uri params. unfold fetch_resource_data.
    change 5%nat with (ncalls init_st + DEFAULT_RETRY_COUNT)%nat at 1.
    apply (fetch_loop_all_transient srv _ _ (fun n => Ht _ n) _ 0 init_st); unfold DEFAULT_RETRY_COUNT; lia.
  - intros Ht name index_name. unfold create_searchindex.
    change 5%nat with (ncalls init_st + DEFAULT_RETRY_COUNT)%nat at 1.
    apply (create_searchindex_loop_all_failed srv _ _ (fun n => Ht _ n) _ 0 None init_st);
      unfold DEFAULT_RETRY_COUNT; lia.
  - intros Ht name description Hname. unfold create_sketch.
    destruct (String.eqb_spec name EmptyString) as [Heq|_]; [contradiction|].
    change 5%nat with (ncalls init_st + DEFAULT_RETRY_COUNT)%nat at 1.
    apply (create_sketch_loop_all_failed srv _ _ (fun n => Ht _ n) _ 0 None init_st);
      unfold DEFAULT_RETRY_COUNT; lia.
  - intros Ht. split.
    + intros username password. unfold create_user. apply raises_after_bind.
      change 5%nat with (ncalls init_st + DEFAULT_RETRY_COUNT)%nat at 1.
      apply (post_objects_loop_all_falsy srv _ _ (fun n => Ht _ n) _ 0 init_st); unfold DEFAULT_RETRY_COUNT; lia.
    + intros rule_yaml. unfold create_sigmarule. apply raises_after_bind.
      change 5%nat with (ncalls init_st + DEFAULT_RETRY_COUNT)%nat at 1.
      apply (post_objects_loop_all_falsy srv _ _ (fun n => Ht _ n) _ 0 init_st); unfold DEFAULT_RETRY_COUNT; lia.
  - intros Ht. split.
    + intros username password. unfold create_user. apply raises_after_bind.
      apply (post_objects_loop_hard srv _ _ 4 0 init_st (Ht _)).
    + intros rule_yaml. unfold create_sigmarule. apply raises_after_bind.
      apply (post_objects_loop_hard srv _ _ 4 0 init_st (Ht _)).
Qed.

Lemma retry_budget_by_operation_witness :
  raises_after 5 (fetch_resource_data (server_const (HResp 503 None)) "https://ts/api/v1"
                    "sketches/" JNull init_st) /\
  raises_after 1 (create_user (server_const (HResp 503 None)) "https://ts/api/v1"
                    "alice" "secret" init_st).
Proof.
  destruct (retry_budget_by_operation (server_const (HResp 503 None)) "https://ts/api/v1"
              example_sigmarule_uri example_sigmarule_of)
    as [Hfetch [_ [_ [_ Hhard]]]].
  split.
  - exact (Hfetch (fun r n => eq_refl) "sketches/" JNull).
  - exact (proj1 (Hhard (fun r => eq_refl)) "alice" "secret").
Defined.

(** C1 fails as stated: every attempt of [create_user] would fail with a
    non-20x status (a transient failure for the claim), yet it raises
    after one request, not five. *)
Lemma create_user_non20x_one_attempt :
  (forall r n, transient_get (server_const (HResp 500 None) r n) = true) /\
  fst (create_user (server_const (HResp 500 None)) "https://ts/api/v1" "alice" "secret" init_st)
    = Exc RuntimeError /\
  ncalls (snd (create_user (server_const (HResp 500 None)) "https://ts/api/v1"
                 "alice" "secret" init_st)) = 1%nat.
Proof. split; [intros; reflexivity | split; reflexivity]. Qed.

(** ** C2: the failure kinds each operation retries, and how *)

(** The loops read the server only at the indices of the requests they
    make, from the current call count on. *)
Lemma fetch_loop_agree srv1 srv2 n0 url params :
  (forall r n, (n0 <= n)%nat -> srv1 r n = srv2 r n) ->
  forall fuel a s, (n0 <= ncalls s)%nat ->
  fetch_loop srv1 fuel url params a s = fetch_loop srv2 fuel url params a s.
Proof.
  intros H. induction fuel as [|fuel IH]; intros a s Hs; [reflexivity|].
  rewrite !fetch_loop_unfold, H by exact Hs.
  destruct (fetch_verdict _ _); [reflexivity|]. apply IH. simpl. lia.
Qed.

(** The lookup of [get_sigmarule] sends only GET requests. *)
Lemma fetch_loop_agree_get srv1 srv2 url params :
  (forall n, srv1 (mkreq GET url params) n = srv2 (mkreq GET url params) n) ->
  forall fuel a s, fetch_loop srv1 fuel url params a s = fetch_loop srv2 fuel url params a s.
Proof.
  intros H. induction fuel as [|fuel IH]; intros a s; [reflexivity|].
  rewrite !fetch_loop_unfold, H.
  destruct (fetch_verdict _ _); [reflexivity|]. apply IH.
Qed.

Lemma get_sigmarule_agree srv1 srv2 api_root sigmarule_uri sigmarule_of u s :
  (forall r n, rmeth r = GET -> srv1 r n = srv2 r n) ->
  get_sigmarule srv1 api_root sigmarule_uri sigmarule_of u s
  = get_sigmarule srv2 api_root sigmarule_uri sigmarule_of u s.
Proof.
  intros H. unfold get_sigmarule, fetch_resource_data, bind.
  rewrite (fetch_loop_agree_get srv1 srv2) by (intros n; apply H; reflexivity).
  reflexivity.
Qed.

Lemma create_sketch_loop_agree srv1 srv2 n0 url fd :
  (forall r n, (n0 <= n)%nat -> srv1 r n = srv2 r n) ->
  forall l last s, (n0 <= ncalls s)%nat ->
  create_sketch_loop srv1 l url fd last s = create_sketch_loop srv2 l url fd last s.
Proof.
  intros H. induction l as [|a l IH]; intros last s Hs; [reflexivity|].
  rewrite !create_sketch_loop_unfold, H by exact Hs.
  destruct (sketch_verdict _) as [[o|last']|e]; try reflexivity.
  destruct (a <? _)%nat; [apply IH; simpl; lia | reflexivity].
Qed.

Lemma create_searchindex_loop_agree srv1 srv2 n0 url fd :
  (forall r n, (n0 <= n)%nat -> srv1 r n = srv2 r n) ->
  forall l last s, (n0 <= ncalls s)%nat ->
  create_searchindex_loop srv1 l url fd last s = create_searchindex_loop srv2 l url fd last s.
Proof.
  intros H. induction l as [|a l IH]; intros last s Hs; [reflexivity|].
  rewrite !create_searchindex_loop_unfold, H by exact Hs.
  destruct (searchindex_verdict _) as [[o|last']|e]; try reflexivity.
  destruct (a <? _)%nat; [apply IH; simpl; lia | reflexivity].
Qed.

Lemma post_objects_loop_agree srv1 srv2 n0 url fd :
  (forall r n, (n0 <= n)%nat -> srv1 r n = srv2 r n) ->
  forall fuel rc s, (n0 <= ncalls s)%nat ->
  post_objects_loop srv1 fuel url fd rc s = post_objects_loop srv2 fuel url fd rc s.
Proof.
  intros H. induction fuel as [|fuel IH]; intros rc s Hs; [reflexivity|].
  rewrite !post_objects_loop_unfold, H by exact Hs.
  destruct (post_objects_verdict _) as [[o|]|e]; try reflexivity.
  destruct (_ <=? _)%nat; [reflexivity | apply IH; simpl; lia].
Qed.

(** [last_exception] is overwritten before it is read. *)
Lemma create_sketch_loop_last srv l url fd last1 last2 s :
  create_sketch_loop srv l url fd last1 s = create_sketch_loop srv l url fd last2 s.
Proof. destruct l; [reflexivity|]. rewrite !create_sketch_loop_unfold. reflexivity. Qed.

Lemma create_searchindex_loop_last srv l url fd last1 last2 s :
  create_searchindex_loop srv l url fd last1 s = create_searchindex_loop srv l url fd last2 s.
Proof. destruct l; [reflexivity|]. rewrite !create_searchindex_loop_unfold. reflexivity. Qed.

Section Alike.

Variables srv1 srv2 : request -> nat -> http_outcome.
Variable k : nat.
Hypothesis Hagree : forall r n, n <> k -> srv1 r n = srv2 r n.

Lemma agree_after : forall r n, (S k <= n)%nat -> srv1 r n = srv2 r n.
Proof. intros r n Hn. apply Hagree. lia. Qed.

Lemma fetch_loop_alike url params :
  transient_get (srv1 (mkreq GET url params) k) = true ->
  transient_get (srv2 (mkreq GET url params) k) = true ->
  (S k < DEFAULT_RETRY_COUNT)%nat ->
  forall fuel a s, a = ncalls s -> (ncalls s <= k)%nat ->
  fetch_loop srv1 fuel url params a s = fetch_loop srv2 fuel url params a s.
Proof.
  intros H1 H2 Hk. induction fuel as [|fuel IH]; intros a s Ha Hs; [reflexivity|].
  rewrite !fetch_loop_unfold.
  destruct (Nat.eq_dec (ncalls s) k) as [E|E].
  - rewrite E, fetch_verdict_retry, (fetch_verdict_retry _ (srv2 _ _)) by (auto; lia).
    apply (fetch_loop_agree _ _ (S k)); [exact agree_after | simpl; lia].
  - rewrite Hagree by exact E.
    destruct (fetch_verdict _ _); [reflexivity|]. apply IH; simpl; lia.
Qed.

Lemma create_sketch_loop_alike url fd :
  response_failure_create (srv1 (mkreq POST url fd) k) = true ->
  response_failure_create (srv2 (mkreq POST url fd) k) = true ->
  forall l last s, (ncalls s <= k)%nat ->
  create_sketch_loop srv1 l url fd last s = create_sketch_loop srv2 l url fd last s.
Proof.
  intros H1 H2. induction l as [|a l IH]; intros last s Hs; [reflexivity|].
  rewrite !create_sketch_loop_unfold.
  destruct (Nat.eq_dec (ncalls s) k) as [E|E].
  - rewrite E. destruct (sketch_verdict_retry _ H1) as [e1 ->].
    destruct (sketch_verdict_retry _ H2) as [e2 ->].
    destruct (a <? _)%nat; [|reflexivity].
    rewrite (create_sketch_loop_last srv1 l url fd (Some e1) (Some e2)).
    apply (create_sketch_loop_agree _ _ (S k)); [exact agree_after | simpl; lia].
  - rewrite Hagree by exact E.
    destruct (sketch_verdict _) as [[o|last']|e]; try reflexivity.
    destruct (a <? _)%nat; [apply IH; simpl; lia | reflexivity].
Qed.

Lemma create_searchindex_loop_alike url fd :
  transient_create (srv1 (mkreq POST url fd) k) = true ->
  transient_create (srv2 (mkreq POST url fd) k) = true ->
  forall l last s, (ncalls s <= k)%nat ->
  create_searchindex_loop srv1 l url fd last s = create_searchindex_loop srv2 l url fd last s.
Proof.
  intros H1 H2. induction l as [|a l IH]; intros last s Hs; [reflexivity|].
  rewrite !create_searchindex_loop_unfold.
  destruct (Nat.eq_dec (ncalls s) k) as [E|E].
  - rewrite E. destruct (searchindex_verdict_retry _ H1) as [e1 ->].
    destruct (searchindex_verdict_retry _ H2) as [e2 ->].
    destruct (a <? _)%nat; [|reflexivity].
    rewrite (create_searchindex_loop_last srv1 l url fd (Some e1) (Some e2)).
    apply (create_searchindex_loop_agree _ _ (S k)); [exact agree_after | simpl; lia].
  - rewrite Hagree by exact E.
    destruct (searchindex_verdict _) as [[o|last']|e]; try reflexivity.
    destruct (a <? _)%nat; [apply IH; simpl; lia | reflexivity].
Qed.

Lemma post_objects_loop_alike url fd :
  objects_falsy (srv1 (mkreq POST url fd) k) = true ->
  objects_falsy (srv2 (mkreq POST url fd) k) = true ->
  forall fuel rc s, (ncalls s <= k)%nat ->
  post_objects_loop srv1 fuel url fd rc s = post_objects_loop srv2 fuel url fd rc s.
Proof.
  intros H1 H2. induction fuel as [|fuel IH]; intros rc s Hs; [reflexivity|].
  rewrite !post_objects_loop_unfold.
  destruct (Nat.eq_dec (ncalls s) k) as [E|E].
  - rewrite E, !post_objects_verdict_retry by assumption.
    destruct (_ <=? _)%nat; [reflexivity|].
    apply (post_objects_loop_agree _ _ (S k)); [exact agree_after | simpl; lia].
  - rewrite Hagree by exact E.
    destruct (post_objects_verdict _) as [[o|]|e]; try reflexivity.
    destruct (_ <=? _)%nat; [reflexivity | apply IH; simpl; lia].
Qed.

End Alike.

(** C2 (as amended). Before the last attempt, each retried failure leads
    to the same run whatever its kind: two servers that differ only in
    the answer to request [k < 4], both answers failures the operation
    retries, give the same result, trace and state. [fetch_resource_data]
    and [create_searchindex] retry all four kinds (connection error,
    non-20x status, undecodable body, rejected payload), [create_sketch]
    the last three, [create_user] and [create_sigmarule] only a falsy
    [objects]; these two raise at the first request on the other three.
    For [create_sigmarule] the two servers must also agree on any GET at
    index [k]. After a successful POST, [get_sigmarule]'s lookup GET can
    be request [k] itself. *)
Theorem failure_kinds_retried_alike :
  (forall srv1 srv2 k api_root uri params,
     (forall r n, n <> k -> srv1 r n = srv2 r n) ->
     (forall r, transient_get (srv1 r k) = true /\ transient_get (srv2 r k) = true) ->
     (k < DEFAULT_RETRY_COUNT - 1)%nat ->
     fetch_resource_data srv1 api_root uri params init_st
     = fetch_resource_data srv2 api_root uri params init_st) /\
  (forall srv1 srv2 k api_root name index_name,
     (forall r n, n <> k -> srv1 r n = srv2 r n) ->
     (forall r, transient_create (srv1 r k) = true /\ transient_create (srv2 r k) = true) ->
     create_searchindex srv1 api_root name index_name init_st
     = create_searchindex srv2 api_root name index_name init_st) /\
  (forall srv1 srv2 k api_root name description,
     (forall r n, n <> k -> srv1 r n = srv2 r n) ->
     (forall r, response_failure_create (srv1 r k) = true
                /\ response_failure_create (srv2 r k) = true) ->
     create_sketch srv1 api_root name description init_st
     = create_sketch srv2 api_root name description init_st) /\
  (forall srv1 srv2 k api_root,
     (forall r n, n <> k -> srv1 r n = srv2 r n) ->
     (forall r, objects_falsy (srv1 r k) = true /\ objects_falsy (srv2 r k) = true) ->
     (forall username password,
        create_user srv1 api_root username password init_st
        = create_user srv2 api_root username password init_st) /\
     (forall sigmarule_uri sigmarule_of,
        (forall r, rmeth r = GET -> srv1 r k = srv2 r k) ->
        forall rule_yaml,
        create_sigmarule srv1 api_root sigmarule_uri sigmarule_of rule_yaml init_st
        = create_sigmarule srv2 api_root sigmarule_uri sigmarule_of rule_yaml init_st)) /\
  (forall srv api_root sigmarule_uri sigmarule_of,
     (forall r, hard_failure (srv r 0%nat) = true) ->
     (forall username password,
        raises_after 1 (create_user srv api_root username password init_st)) /\
     (forall rule_yaml,
        raises_after 1 (create_sigmarule srv api_root sigmarule_uri sigmarule_of rule_yaml init_st))).
Proof.
  split; [|split; [|split; [|split]]].
  - intros srv1 srv2 k api_root uri params Hag Ht Hk. unfold fetch_resource_data.
    apply (fetch_loop_alike srv1 srv2 k Hag);
      try apply Ht; unfold DEFAULT_RETRY_COUNT in *; simpl; lia.
  - intros srv1 srv2 k api_root name index_name Hag Ht. unfold create_searchindex.
    apply (create_searchindex_loop_alike srv1 srv2 k Hag);
      try apply Ht; simpl; lia.
  - intros srv1 srv2 k api_root name description Hag Ht. unfold create_sketch.
    destruct (String.eqb name EmptyString); [reflexivity|].
    apply (create_sketch_loop_alike srv1 srv2 k Hag);
      try apply Ht; simpl; lia.
  - intros srv1 srv2 k api_root Hag Ht. split.
    + intros username password. unfold create_user, bind at 1.
      rewrite (post_objects_loop_alike srv1 srv2 k Hag) by (try apply Ht; simpl; lia).
      reflexivity.
    + intros sigmarule_uri sigmarule_of Hget rule_yaml. unfold create_sigmarule.
      pose proof (post_objects_loop_alike srv1 srv2 k Hag (api_root ++ "/sigmarules/")%string
                    (JObj [("rule_yaml", JStr rule_yaml)]) (proj1 (Ht _)) (proj2 (Ht _))
                    DEFAULT_RETRY_COUNT 0 init_st ltac:(simpl; lia)) as E.
      destruct (post_objects_loop srv2 _ _ _ _ init_st) as [[o|e] s'] eqn:E2;
        [|rewrite (bind_exc _ _ _ _ _ E), (bind_exc _ _ _ _ _ E2); reflexivity].
      rewrite (bind_ok _ _ _ _ _ E), (bind_ok _ _ _ _ _ E2).
      unfold bind. destruct (getitem_0 o s') as [[f|e] s'']; [|reflexivity].
      destruct (getitem_str f "rule_uuid" s'') as [[u|e] s3]; [|reflexivity].
      apply get_sigmarule_agree. intros r n Hr.
      destruct (Nat.eq_dec n k) as [->|Hn]; [apply Hget; exact Hr | apply Hag; exact Hn].
  - intros srv api_root sigmarule_uri sigmarule_of Ht. split.
    + intros username password. unfold create_user. apply raises_after_bind.
      apply (post_objects_loop_hard srv _ _ 4 0 init_st (Ht _)).
    + intros rule_yaml. unfold create_sigmarule. apply raises_after_bind.
      apply (post_objects_loop_hard srv _ _ 4 0 init_st (Ht _)).
Qed.

Lemma failure_kinds_retried_alike_witness :
  fetch_resource_data (server_const (HResp 500 None)) "https://ts/api/v1" "sketches/" JNull init_st
  = fetch_resource_data (fun _ n => match n with O => HConnErr | S _ => HResp 500 None end)
      "https://ts/api/v1" "sketches/" JNull init_st.
Proof.
  refine (proj1 failure_kinds_retried_alike (server_const (HResp 500 None))
            (fun _ n => match n with O => HConnErr | S _ => HResp 500 None end)
            0%nat "https://ts/api/v1" "sketches/" JNull _ _ _).
  - intros r [|n] H; [contradiction|reflexivity].
  - intros r; split; reflexivity.
  - unfold DEFAULT_RETRY_COUNT; lia.
Defined.

(** C2 fails as stated: a connection error makes [create_sigmarule] raise
    after its first request, before the retry budget is spent. *)
Lemma create_sigmarule_connection_error_not_retried :
  fst (create_sigmarule (server_const HConnErr) "https://ts/api/v1"
         example_sigmarule_uri example_sigmarule_of "title: r" init_st)
    = Exc ConnectionError /\
  ncalls (snd (create_sigmarule (server_const HConnErr) "https://ts/api/v1"
         example_sigmarule_uri example_sigmarule_of "title: r" init_st))
    = 1%nat.
Proof. split; reflexivity. Qed.

(** ** C3: the backoff schedule *)

Lemma qprefix_nil l : qprefix [] l.
Proof. constructor. Qed.

Lemma qprefix_cons x y l1 l2 : x == y -> qprefix l1 l2 -> qprefix (x :: l1) (y :: l2).
Proof. intros Hxy H. unfold qprefix in *. simpl. constructor; assumption. Qed.

Lemma fetch_pre_delays a r ext :
  exists d, pre_delays (fetch_pre (S a) ++ ECall r :: ext) = d :: pre_delays ext
            /\ d == unified_delay a.
Proof.
  unfold fetch_pre. destruct a as [|a'].
  - exists 0%Q. split; reflexivity.
  - simpl. exists (0 + fetch_backoff (S (S a')))%Q. split; [reflexivity|].
    rewrite Qplus_0_l. unfold fetch_backoff.
    replace (Z.of_nat (S (S a')) - 2) with (Z.of_nat a') by lia. reflexivity.
Qed.

Lemma create_backoff_unified a : 0 + create_backoff a == unified_delay (S a).
Proof. rewrite Qplus_0_l. reflexivity. Qed.

Lemma fetch_loop_delays srv url params :
  forall fuel a s, exists ext,
    trace (snd (fetch_loop srv fuel url params a s)) = trace s ++ ext /\
    qprefix (pre_delays ext) (map unified_delay (seq a fuel)).
Proof.
  induction fuel as [|fuel IH]; intros a s.
  - exists []. split; [simpl; rewrite app_nil_r; reflexivity | apply qprefix_nil].
  - rewrite fetch_loop_unfold.
    destruct (fetch_verdict (S a) _) as [v|].
    + exists (fetch_pre (S a) ++ [ECall (mkreq GET url params)]). split; [reflexivity|].
      destruct (fetch_pre_delays a (mkreq GET url params) []) as [d [-> Hd]].
      apply qprefix_cons; [exact Hd | apply qprefix_nil].
    + destruct (IH (S a) (after_call s (fetch_pre (S a)) (mkreq GET url params)))
        as [ext' [Htr Hpre]].
      exists (fetch_pre (S a) ++ ECall (mkreq GET url params) :: ext'). split.
      * rewrite Htr. simpl. rewrite <- !app_assoc. reflexivity.
      * destruct (fetch_pre_delays a (mkreq GET url params) ext') as [d [-> Hd]].
        apply qprefix_cons; assumption.
Qed.

Lemma pre_delays_call_sleep acc r d ext :
  pre_delays_from acc (ECall r :: ESleep d :: ext) = acc :: pre_delays_from (0 + d) ext.
Proof. reflexivity. Qed.

Lemma create_sketch_loop_delays srv url fd :
  forall n a last s, exists ext,
    trace (snd (create_sketch_loop srv (seq a n) url fd last s)) = trace s ++ ext /\
    forall acc x, acc == x ->
      qprefix (pre_delays_from acc ext) (x :: map unified_delay (seq (S a) (pred n))).
Proof.
  induction n as [|n IH]; intros a last s.
  - exists []. split; [simpl; rewrite app_nil_r; reflexivity | intros; apply qprefix_nil].
  - cbn [seq]. rewrite create_sketch_loop_unfold.
    set (r := mkreq POST url fd).
    assert (Hone : forall p : res obj,
      exists ext, trace (snd (p, after_call s [] r)) = trace s ++ ext /\
        forall acc x, acc == x ->
          qprefix (pre_delays_from acc ext) (x :: map unified_delay (seq (S a) (pred (S n))))).
    { intros p. exists [ECall r]. split; [reflexivity|].
      intros acc x Hx. apply qprefix_cons; [exact Hx | apply qprefix_nil]. }
    destruct (sketch_verdict _) as [[o|last']|e]; try apply Hone.
    destruct (a <? DEFAULT_RETRY_COUNT - 1)%nat; [|apply Hone].
    destruct n as [|n'].
    + exists [ECall r; ESleep (create_backoff a)]. split.
      * simpl. rewrite <- !app_assoc. reflexivity.
      * intros acc x Hx. apply qprefix_cons; [exact Hx | apply qprefix_nil].
    + destruct (IH (S a) last' (after_sleep (after_call s [] r) (create_backoff a)))
        as [ext' [Htr Hpre]].
      exists (ECall r :: ESleep (create_backoff a) :: ext'). split.
      * rewrite Htr. simpl. rewrite <- !app_assoc. reflexivity.
      * intros acc x Hx. rewrite pre_delays_call_sleep.
        apply qprefix_cons; [exact Hx|].
        apply (Hpre _ _ (create_backoff_unified a)).
Qed.

Lemma create_searchindex_loop_delays srv url fd :
  forall n a last s, exists ext,
    trace (snd (create_searchindex_loop srv (seq a n) url fd last s)) = trace s ++ ext /\
    forall acc x, acc == x ->
      qprefix (pre_delays_from acc ext) (x :: map unified_delay (seq (S a) (pred n))).
Proof.
  induction n as [|n IH]; intros a last s.
  - exists []. split; [simpl; rewrite app_nil_r; reflexivity | intros; apply qprefix_nil].
  - cbn [seq]. rewrite create_searchindex_loop_unfold.
    set (r := mkreq POST url fd).
    assert (Hone : forall p : res obj,
      exists ext, trace (snd (p, after_call s [] r)) = trace s ++ ext /\
        forall acc x, acc == x ->
          qprefix (pre_delays_from acc ext) (x :: map unified_delay (seq (S a) (pred (S n))))).
    { intros p. exists [ECall r]. split; [reflexivity|].
      intros acc x Hx. apply qprefix_cons; [exact Hx | apply qprefix_nil]. }
    destruct (searchindex_verdict _) as [[o|last']|e]; try apply Hone.
    destruct (a <? DEFAULT_RETRY_COUNT - 1)%nat; [|destruct last'; apply Hone].
    destruct n as [|n'].
    + exists [ECall r; ESleep (create_backoff a)]. split.
      * simpl. rewrite <- !app_assoc. reflexivity.
      * intros acc x Hx. apply qprefix_cons; [exact Hx | apply qprefix_nil].
    + destruct (IH (S a) last' (after_sleep (after_call s [] r) (create_backoff a)))
        as [ext' [Htr Hpre]].
      exists (ECall r :: ESleep (create_backoff a) :: ext'). split.
      * rewrite Htr. simpl. rewrite <- !app_assoc. reflexivity.
      * intros acc x Hx. rewrite pre_delays_call_sleep.
        apply qprefix_cons; [exact Hx|].
        apply (Hpre _ _ (create_backoff_unified a)).
Qed.

(** C3. The unified schedule [delay(a) = 0.5 * 2^(a-1)] ([delay(0) = 0])
    gives 0, 0.5, 1, 2, 4 seconds for [a = 0..4]; and in every run of
    [fetch_resource_data] (sleep before attempt [a+1]) and of
    [create_sketch] and [create_searchindex] (sleep after attempt [a],
    before the next), the time slept before the [m]-th request is
    [delay(m-1)]: 0.5 * 2^(m-2) seconds for [m > 1]. *)
Theorem backoff_schedule srv api_root :
  Forall2 Qeq (map unified_delay (seq 0 5)) [0; 1#2; 1; 2; 4]%Q /\
  (forall uri params,
     qprefix (pre_delays (trace (snd (fetch_resource_data srv api_root uri params init_st))))
             (map unified_delay (seq 0 5))) /\
  (forall name description,
     qprefix (pre_delays (trace (snd (create_sketch srv api_root name description init_st))))
             (map unified_delay (seq 0 5))) /\
  (forall name index_name,
     qprefix (pre_delays (trace (snd (create_searchindex srv api_root name index_name init_st))))
             (map unified_delay (seq 0 5))).
Proof.
  split; [|split; [|split]].
  - repeat constructor.
  - intros uri params. unfold fetch_resource_data.
    destruct (fetch_loop_delays srv (api_root ++ "/" ++ uri)%string params DEFAULT_RETRY_COUNT 0 init_st)
      as [ext [Htr Hpre]].
    rewrite Htr. exact Hpre.
  - intros name description. unfold create_sketch.
    destruct (String.eqb name EmptyString); [apply qprefix_nil|].
    match goal with
    | |- context [create_sketch_loop srv _ ?url ?fd None init_st] =>
        destruct (create_sketch_loop_delays srv url fd DEFAULT_RETRY_COUNT 0 None init_st) as [ext [Htr Hpre]]
    end.
    rewrite Htr. exact (Hpre 0%Q 0%Q (Qeq_refl _)).
  - intros name index_name. unfold create_searchindex.
    match goal with
    | |- context [create_searchindex_loop srv _ ?url ?fd None init_st] =>
        destruct (create_searchindex_loop_delays srv url fd DEFAULT_RETRY_COUNT 0 None init_st)
          as [ext [Htr Hpre]]
    end.
    rewrite Htr. exact (Hpre 0%Q 0%Q (Qeq_refl _)).
Qed.

(** ** C4: create operations on a response carrying [objects[0].id] *)

Lemma calls_app l1 l2 : calls (l1 ++ l2) = calls l1 ++ calls l2.
Proof. induction l1 as [|[r|d] l1 IH]; simpl; rewrite ?IH; reflexivity. Qed.

(** A fetch appends to the trace only its GET requests and sleeps. *)
Lemma fetch_loop_trace srv url params :
  forall fuel a s, exists tr,
    trace (snd (fetch_loop srv fuel url params a s)) = trace s ++ tr /\
    ncalls (snd (fetch_loop srv fuel url params a s)) = (ncalls s + length (calls tr))%nat /\
    Forall (fun r => r = mkreq GET url params) (calls tr).
Proof.
  induction fuel as [|fuel IH]; intros a s.
  - exists []. rewrite app_nil_r. simpl. split; [reflexivity | split; [lia | constructor]].
  - rewrite fetch_loop_unfold.
    assert (Hpre : calls (fetch_pre (S a)) = [])
      by (unfold fetch_pre; destruct (1 <? S a)%nat; reflexivity).
    destruct (fetch_verdict _ _).
    + exists (fetch_pre (S a) ++ [ECall (mkreq GET url params)]).
      rewrite calls_app, Hpre. simpl.
      split; [reflexivity | split; [lia | repeat constructor]].
    + destruct (IH (S a) (after_call s (fetch_pre (S a)) (mkreq GET url params)))
        as [tr (H1 & H2 & H3)].
      exists ((fetch_pre (S a) ++ [ECall (mkreq GET url params)]) ++ tr).
      rewrite H1, H2, !calls_app, Hpre. simpl.
      split; [rewrite <- !app_assoc; reflexivity | split; [lia | constructor; auto]].
Qed.

Lemma bind_of_res_snd {A B} (m : M A) (f : A -> res B) s :
  snd (bind m (fun a => of_res (f a)) s) = snd (m s).
Proof. unfold bind, of_res. destruct (m s) as [[a|e] s']; reflexivity. Qed.

(** The lookup of [get_sigmarule] starts with the GET of the rule's
    resource and sends nothing else. *)
Lemma get_sigmarule_run srv api_root sigmarule_uri sigmarule_of u s :
  exists tr,
    trace (snd (get_sigmarule srv api_root sigmarule_uri sigmarule_of u s))
    = trace s ++ ECall (mkreq GET (api_root ++ "/" ++ sigmarule_uri u)%string JNull) :: tr /\
    ncalls (snd (get_sigmarule srv api_root sigmarule_uri sigmarule_of u s))
    = S (ncalls s + length (calls tr)) /\
    Forall (fun r => r = mkreq GET (api_root ++ "/" ++ sigmarule_uri u)%string JNull) (calls tr).
Proof.
  unfold get_sigmarule. rewrite bind_of_res_snd. unfold fetch_resource_data.
  change DEFAULT_RETRY_COUNT with (S 4). rewrite fetch_loop_unfold.
  destruct (fetch_verdict _ _).
  - exists []. simpl. split; [reflexivity | split; [lia | constructor]].
  - match goal with
    | |- context [fetch_loop srv 4 ?url JNull 1 ?s1] =>
        destruct (fetch_loop_trace srv url JNull 4 1 s1) as [tr (H1 & H2 & H3)]
    end.
    exists tr. rewrite H1, H2. simpl.
    split; [rewrite <- app_assoc; reflexivity | split; [lia | exact H3]].
Qed.

(** C4 (as amended). When the first POST gets a 20x JSON dict whose
    [objects[0]] is a dict with an [id] [v], [create_sketch] returns
    [get_sketch(v)], [create_searchindex] a [SearchIndex] and [create_user]
    a [User] for [v], each after that single request of client.py;
    [create_sigmarule] reads [objects[0]["rule_uuid"]] instead. Without
    that key it raises [KeyError] after the POST. With it, it runs
    [get_sigmarule] of the uuid from the state after the POST. That
    lookup sends a GET of the rule as the second request. *)
Theorem create_with_id srv api_root status kvs item rest v :
  (forall r, srv r 0%nat = HResp status (Some (JObj kvs))) ->
  is_20x status = true ->
  objects_of kvs = JList (JObj item :: rest) ->
  assoc "id" item = Some v ->
  (forall name description, name <> EmptyString ->
     fst (create_sketch srv api_root name description init_st) = fst (get_sketch v init_st) /\
     ncalls (snd (create_sketch srv api_root name description init_st)) = 1%nat) /\
  (forall name index_name,
     fst (create_searchindex srv api_root name index_name init_st) = Ok (OSearchIndex v JNull) /\
     ncalls (snd (create_searchindex srv api_root name index_name init_st)) = 1%nat) /\
  (forall username password,
     fst (create_user srv api_root username password init_st) = Ok (OUser v) /\
     ncalls (snd (create_user srv api_root username password init_st)) = 1%nat) /\
  (forall sigmarule_uri sigmarule_of rule_yaml,
     (assoc "rule_uuid" item = None ->
        create_sigmarule srv api_root sigmarule_uri sigmarule_of rule_yaml init_st
        = (Exc KeyError, after_call init_st []
                           (mkreq POST (api_root ++ "/sigmarules/")%string
                              (JObj [("rule_yaml", JStr rule_yaml)])))) /\
     (forall u, assoc "rule_uuid" item = Some u ->
        create_sigmarule srv api_root sigmarule_uri sigmarule_of rule_yaml init_st
        = get_sigmarule srv api_root sigmarule_uri sigmarule_of u
            (after_call init_st [] (mkreq POST (api_root ++ "/sigmarules/")%string
                                      (JObj [("rule_yaml", JStr rule_yaml)]))) /\
        exists tr,
          trace (snd (create_sigmarule srv api_root sigmarule_uri sigmarule_of rule_yaml init_st))
          = ECall (mkreq POST (api_root ++ "/sigmarules/")%string
                     (JObj [("rule_yaml", JStr rule_yaml)]))
            :: ECall (mkreq GET (api_root ++ "/" ++ sigmarule_uri u)%string JNull) :: tr)).
Proof.
  intros Hsrv H20 Hobj Hid.
  assert (Hvalid : objects_valid (objects_of kvs) = true).
  { rewrite Hobj. unfold objects_valid, has_key. simpl. rewrite Hid. reflexivity. }
  assert (Hvid : objects_id (objects_of kvs) = v).
  { rewrite Hobj. unfold objects_id. simpl. rewrite Hid. reflexivity. }
  assert (Hpost : forall url fd,
    post_objects_loop srv DEFAULT_RETRY_COUNT url fd 0 init_st
    = (Ok (objects_of kvs), after_call init_st [] (mkreq POST url fd))).
  { intros url fd. unfold DEFAULT_RETRY_COUNT at 1.
    rewrite post_objects_loop_unfold, Hsrv. simpl. rewrite H20.
    rewrite Hobj. reflexivity. }
  split; [|split; [|split]].
  - intros name description Hname. unfold create_sketch.
    destruct (String.eqb_spec name EmptyString) as [E|_]; [contradiction|].
    cbn [seq DEFAULT_RETRY_COUNT]. rewrite create_sketch_loop_unfold, Hsrv.
    unfold sketch_verdict. rewrite H20, Hvalid, Hvid. split; reflexivity.
  - intros name index_name. unfold create_searchindex.
    cbn [seq DEFAULT_RETRY_COUNT]. rewrite create_searchindex_loop_unfold, Hsrv.
    unfold searchindex_verdict. rewrite H20, Hvalid, Hvid. split; reflexivity.
  - intros username password. unfold create_user.
    erewrite bind_ok by apply Hpost. rewrite Hobj.
    unfold bind; simpl. rewrite Hid. split; reflexivity.
  - intros sigmarule_uri sigmarule_of rule_yaml.
    assert (Hrun : create_sigmarule srv api_root sigmarule_uri sigmarule_of rule_yaml init_st
      = (first <- getitem_0 (objects_of kvs) ;;
         rule_uuid <- getitem_str first "rule_uuid" ;;
         get_sigmarule srv api_root sigmarule_uri sigmarule_of rule_uuid)
          (after_call init_st [] (mkreq POST (api_root ++ "/sigmarules/")%string
                                    (JObj [("rule_yaml", JStr rule_yaml)])))).
    { unfold create_sigmarule. rewrite (bind_ok _ _ _ _ _ (Hpost _ _)). reflexivity. }
    rewrite Hobj in Hrun. split.
    + intros Hu. rewrite Hrun. unfold bind, getitem_0, getitem_str, ret, raise.
      rewrite Hu. reflexivity.
    + intros u Hu.
      assert (Hrun' : create_sigmarule srv api_root sigmarule_uri sigmarule_of rule_yaml init_st
        = get_sigmarule srv api_root sigmarule_uri sigmarule_of u
            (after_call init_st [] (mkreq POST (api_root ++ "/sigmarules/")%string
                                      (JObj [("rule_yaml", JStr rule_yaml)])))).
      { rewrite Hrun. unfold bind at 1 2, getitem_0, getitem_str, ret. rewrite Hu. reflexivity. }
      split; [exact Hrun'|]. rewrite Hrun'.
      match goal with
      | |- context [get_sigmarule srv api_root sigmarule_uri sigmarule_of u ?s1] =>
          destruct (get_sigmarule_run srv api_root sigmarule_uri sigmarule_of u s1)
            as [tr (H1 & _ & _)]
      end.
      exists tr. rewrite H1. reflexivity.
Qed.

Lemma create_with_id_witness :
  fst (create_sketch (server_const (HResp 201 (Some objects_id42))) "https://ts/api/v1"
         "incident" None init_st)
  = fst (get_sketch (JNum 42) init_st).
Proof.
  destruct (create_with_id (server_const (HResp 201 (Some objects_id42))) "https://ts/api/v1"
              201 [("objects", JList [JObj [("id", JNum 42)]])] [("id", JNum 42)] [] (JNum 42)
              (fun r => eq_refl) eq_refl eq_refl eq_refl) as [Hsketch _].
  refine (proj1 (Hsketch "incident" None _)). discriminate.
Defined.

(** C4 fails as stated: given [{"objects": [{"id": 42}]}],
    [create_sigmarule] raises [KeyError] on [objects[0]["rule_uuid"]]
    after its one request. It makes no fetch by id. *)
Lemma create_sigmarule_id42_key_error :
  fst (create_sigmarule (server_const (HResp 201 (Some objects_id42))) "https://ts/api/v1"
         example_sigmarule_uri example_sigmarule_of "title: r" init_st) = Exc KeyError /\
  ncalls (snd (create_sigmarule (server_const (HResp 201 (Some objects_id42)))
                 "https://ts/api/v1" example_sigmarule_uri example_sigmarule_of
                 "title: r" init_st)) = 1%nat.
Proof. split; reflexivity. Qed.

Lemma pure_getitem_0 x : pure_m (getitem_0 x).
Proof.
  intros s. unfold getitem_0, ret, raise.
  destruct x as [| | |[|c str]|[|v l]|kvs]; reflexivity.
Qed.

Lemma pure_getitem_str x k : pure_m (getitem_str x k).
Proof.
  intros s. unfold getitem_str, ret, raise.
  destruct x as [| | | | |kvs]; try reflexivity. destruct (assoc k kvs); reflexivity.
Qed.

Lemma calls_length tr : no_sleep tr -> length (calls tr) = length tr.
Proof. induction 1 as [|[r|d] tr Hx _ IH]; simpl; [reflexivity | lia | contradiction]. Qed.

(** The POST loop of [create_user] and [create_sigmarule] only adds its
    POST requests, with no sleep. *)
Lemma post_objects_loop_run srv url fd :
  forall fuel rc s, exists tr,
    snd (post_objects_loop srv fuel url fd rc s)
    = mkst (ncalls s + length tr) (trace s ++ tr) (out s) /\
    only_calls (mkreq POST url fd) tr /\ no_sleep tr /\ (length tr <= fuel)%nat.
Proof.
  unfold only_calls, no_sleep.
  induction fuel as [|fuel IH]; intros rc s.
  - exists []. rewrite app_nil_r. simpl. rewrite Nat.add_0_r.
    destruct s; repeat split; constructor.
  - rewrite post_objects_loop_unfold.
    destruct (post_objects_verdict _) as [[o|]|e];
      try (exists [ECall (mkreq POST url fd)]; unfold after_call; simpl;
           split; [f_equal; lia | repeat split; simpl; try lia; repeat constructor]).
    destruct (DEFAULT_RETRY_COUNT <=? S rc)%nat;
      [exists [ECall (mkreq POST url fd)]; unfold after_call; simpl;
       split; [f_equal; lia | repeat split; simpl; try lia; repeat constructor]|].
    destruct (IH (S rc) (after_call s [] (mkreq POST url fd)))
      as [tr (Hs & Hall & Hns & Hlen)].
    exists (ECall (mkreq POST url fd) :: tr). rewrite Hs. unfold after_call. simpl.
    repeat split.
    + f_equal; [lia | rewrite <- app_assoc; reflexivity].
    + constructor; [reflexivity | exact Hall].
    + constructor; [exact I | exact Hns].
    + lia.
Qed.

(** ** C5: a successful attempt ends the operation *)

Lemma fetch_verdict_ok a o j : get_ok o = Some j -> fetch_verdict a o = Some (Ok j).
Proof.
  unfold fetch_verdict. destruct o as [|status [b|]]; simpl; try discriminate.
  destruct (is_20x status), (truthy b); simpl; try discriminate.
  intros H; injection H as <-. reflexivity.
Qed.

Section Success.

Variable srv : request -> nat -> http_outcome.

Lemma fetch_loop_success url params j :
  forall k fuel a s, (a + fuel = DEFAULT_RETRY_COUNT)%nat -> (k < fuel)%nat ->
  (forall i, (i < k)%nat -> transient_get (srv (mkreq GET url params) (ncalls s + i)) = true) ->
  get_ok (srv (mkreq GET url params) (ncalls s + k)) = Some j ->
  fst (fetch_loop srv fuel url params a s) = Ok j /\
  ncalls (snd (fetch_loop srv fuel url params a s)) = (ncalls s + S k)%nat /\
  ends_with_call (trace (snd (fetch_loop srv fuel url params a s))) (mkreq GET url params).
Proof.
  induction k as [|k IH]; intros fuel a s Hf Hk Hfail Hok;
    (destruct fuel as [|fuel]; [lia|]); rewrite fetch_loop_unfold.
  - rewrite Nat.add_0_r in Hok. rewrite (fetch_verdict_ok _ _ _ Hok). simpl.
    split; [reflexivity | split; [lia | eexists; rewrite app_assoc; reflexivity]].
  - pose proof (Hfail 0%nat ltac:(lia)) as H0. rewrite Nat.add_0_r in H0.
    rewrite fetch_verdict_retry by (auto; unfold DEFAULT_RETRY_COUNT in *; lia).
    destruct (IH fuel (S a) (after_call s (fetch_pre (S a)) (mkreq GET url params)))
      as (H1 & H2 & H3); simpl; try lia.
    + intros i Hi. rewrite <- Nat.add_succ_r. apply Hfail. lia.
    + rewrite <- Nat.add_succ_r. exact Hok.
    + simpl in H2. split; [exact H1 | split; [lia | exact H3]].
Qed.

Lemma create_sketch_loop_success url fd o :
  forall k n a last s, (a + n = DEFAULT_RETRY_COUNT)%nat -> (k < n)%nat ->
  (forall i, (i < k)%nat ->
     response_failure_create (srv (mkreq POST url fd) (ncalls s + i)) = true) ->
  sketch_verdict (srv (mkreq POST url fd) (ncalls s + k)) = Ok (Return o) ->
  fst (create_sketch_loop srv (seq a n) url fd last s) = Ok o /\
  ncalls (snd (create_sketch_loop srv (seq a n) url fd last s)) = (ncalls s + S k)%nat /\
  ends_with_call (trace (snd (create_sketch_loop srv (seq a n) url fd last s)))
    (mkreq POST url fd).
Proof.
  induction k as [|k IH]; intros n a last s Hn Hk Hfail Hok;
    (destruct n as [|n]; [lia|]); cbn [seq]; rewrite create_sketch_loop_unfold.
  - rewrite Nat.add_0_r in Hok. rewrite Hok. simpl.
    split; [reflexivity | split; [lia | eexists; reflexivity]].
  - pose proof (Hfail 0%nat ltac:(lia)) as H0. rewrite Nat.add_0_r in H0.
    destruct (sketch_verdict_retry _ H0) as [e ->].
    assert (E : (a <? DEFAULT_RETRY_COUNT - 1)%nat = true)
      by (apply Nat.ltb_lt; unfold DEFAULT_RETRY_COUNT in *; lia).
    rewrite E.
    destruct (IH n (S a) (Some e)
                (after_sleep (after_call s [] (mkreq POST url fd)) (create_backoff a)))
      as (H1 & H2 & H3); simpl; try lia.
    + intros i Hi. rewrite <- Nat.add_succ_r. apply Hfail. lia.
    + rewrite <- Nat.add_succ_r. exact Hok.
    + simpl in H2. split; [exact H1 | split; [lia | exact H3]].
Qed.

Lemma create_searchindex_loop_success url fd o :
  forall k n a last s, (a + n = DEFAULT_RETRY_COUNT)%nat -> (k < n)%nat ->
  (forall i, (i < k)%nat ->
     transient_create (srv (mkreq POST url fd) (ncalls s + i)) = true) ->
  searchindex_verdict (srv (mkreq POST url fd) (ncalls s + k)) = Ok (Return o) ->
  fst (create_searchindex_loop srv (seq a n) url fd last s) = Ok o /\
  ncalls (snd (create_searchindex_loop srv (seq a n) url fd last s)) = (ncalls s + S k)%nat /\
  ends_with_call (trace (snd (create_searchindex_loop srv (seq a n) url fd last s)))
    (mkreq POST url fd).
Proof.
  induction k as [|k IH]; intros n a last s Hn Hk Hfail Hok;
    (destruct n as [|n]; [lia|]); cbn [seq]; rewrite create_searchindex_loop_unfold.
  - rewrite Nat.add_0_r in Hok. rewrite Hok. simpl.
    split; [reflexivity | split; [lia | eexists; reflexivity]].
  - pose proof (Hfail 0%nat ltac:(lia)) as H0. rewrite Nat.add_0_r in H0.
    destruct (searchindex_verdict_retry _ H0) as [e ->].
    assert (E : (a <? DEFAULT_RETRY_COUNT - 1)%nat = true)
      by (apply Nat.ltb_lt; unfold DEFAULT_RETRY_COUNT in *; lia).
    rewrite E.
    destruct (IH n (S a) (Some e)
                (after_sleep (after_call s [] (mkreq POST url fd)) (create_backoff a)))
      as (H1 & H2 & H3); simpl; try lia.
    + intros i Hi. rewrite <- Nat.add_succ_r. apply Hfail. lia.
    + rewrite <- Nat.add_succ_r. exact Hok.
    + simpl in H2. split; [exact H1 | split; [lia | exact H3]].
Qed.

Lemma post_objects_loop_success url fd objects :
  forall k fuel rc s, (rc + fuel = DEFAULT_RETRY_COUNT)%nat -> (k < fuel)%nat ->
  (forall i, (i < k)%nat -> objects_falsy (srv (mkreq POST url fd) (ncalls s + i)) = true) ->
  post_objects_verdict (srv (mkreq POST url fd) (ncalls s + k)) = Ok (Some objects) ->
  post_objects_loop srv fuel url fd rc s
  = (Ok objects, mkst (ncalls s + S k)
                      (trace (snd (post_objects_loop srv fuel url fd rc s))) (out s)) /\
  ends_with_call (trace (snd (post_objects_loop srv fuel url fd rc s))) (mkreq POST url fd).
Proof.
  induction k as [|k IH]; intros fuel rc s Hf Hk Hfail Hok;
    (destruct fuel as [|fuel]; [lia|]); rewrite post_objects_loop_unfold.
  - rewrite Nat.add_0_r in Hok. rewrite Hok. simpl.
    split; [f_equal; unfold after_call; f_equal; lia | eexists; reflexivity].
  - pose proof (Hfail 0%nat ltac:(lia)) as H0. rewrite Nat.add_0_r in H0.
    rewrite post_objects_verdict_retry by exact H0.
    assert (E : (DEFAULT_RETRY_COUNT <=? S rc)%nat = false)
      by (apply Nat.leb_gt; unfold DEFAULT_RETRY_COUNT in *; lia).
    rewrite E.
    destruct (IH fuel (S rc) (after_call s [] (mkreq POST url fd)))
      as (H1 & H3); simpl; try lia.
    + intros i Hi. rewrite <- Nat.add_succ_r. apply Hfail. lia.
    + rewrite <- Nat.add_succ_r. exact Hok.
    + split; [rewrite H1 at 1; simpl; f_equal; f_equal; lia | exact H3].
Qed.

End Success.

Lemma extract_first_pure objects key f s :
  extract_first objects key f s = (fst (extract_first objects key f init_st), s).
Proof.
  unfold extract_first, bind, getitem_0, getitem_str, ret, raise.
  destruct objects as [| | | s0 | [|x l] | kvs]; try reflexivity.
  - destruct s0; reflexivity.
  - destruct x as [| | | | | kvs]; try reflexivity.
    destruct (assoc key kvs); reflexivity.
Qed.

Lemma post_then_extract srv url fd objects k fuel key f :
  (DEFAULT_RETRY_COUNT = fuel)%nat -> (k < fuel)%nat ->
  (forall i, (i < k)%nat -> objects_falsy (srv (mkreq POST url fd) i) = true) ->
  post_objects_verdict (srv (mkreq POST url fd) k) = Ok (Some objects) ->
  let p := bind (post_objects_loop srv fuel url fd 0) (fun o => extract_first o key f) init_st in
  fst p = fst (extract_first objects key f init_st) /\ ncalls (snd p) = S k /\
  ends_with_call (trace (snd p)) (mkreq POST url fd).
Proof.
  intros Hf Hk Hfail Hok p. subst p.
  destruct (post_objects_loop_success srv url fd objects k fuel 0 init_st)
    as (H1 & H3); try exact Hfail; try exact Hok; [lia | exact Hk |].
  revert H3. rewrite (bind_ok _ _ _ _ _ H1), extract_first_pure. simpl. intros H3.
  split; [reflexivity | split; [reflexivity | exact H3]].
Qed.

(** C5 (as amended). Let the first [k] attempts (with [k] below the
    budget) fail in a way the operation retries, and let attempt [k]
    succeed. Then [fetch_resource_data], [create_searchindex],
    [create_sketch] and [create_user] end with that attempt. The run
    makes [k + 1] requests, and that request is the last event of the
    trace, so no sleep and no request follows it. The result is the
    truthy payload for [fetch_resource_data], the object built from
    [objects[0]["id"]] for [create_searchindex] and [create_sketch], and
    what [create_user] reads from [objects[0]]. [create_sigmarule] also
    leaves its loop at that POST, with no sleep before it. But the run
    then goes on from that state with the code after the loop: it reads
    [objects[0]["rule_uuid"]] and calls [get_sigmarule], whose lookup
    sends further requests. *)
Theorem success_returns_at_once srv api_root k :
  (k < DEFAULT_RETRY_COUNT)%nat ->
  ((forall r i, (i < k)%nat -> transient_get (srv r i) = true) ->
   forall j, (forall r, get_ok (srv r k) = Some j) ->
   forall uri params,
     fst (fetch_resource_data srv api_root uri params init_st) = Ok j /\
     ncalls (snd (fetch_resource_data srv api_root uri params init_st)) = S k /\
     ends_with_call (trace (snd (fetch_resource_data srv api_root uri params init_st)))
       (mkreq GET (api_root ++ "/" ++ uri)%string params)) /\
  ((forall r i, (i < k)%nat -> transient_create (srv r i) = true) ->
   forall o, (forall r, searchindex_verdict (srv r k) = Ok (Return o)) ->
   forall name index_name,
     fst (create_searchindex srv api_root name index_name init_st) = Ok o /\
     ncalls (snd (create_searchindex srv api_root name index_name init_st)) = S k /\
     exists r, ends_with_call
                 (trace (snd (create_searchindex srv api_root name index_name init_st))) r) /\
  ((forall r i, (i < k)%nat -> response_failure_create (srv r i) = true) ->
   forall o, (forall r, sketch_verdict (srv r k) = Ok (Return o)) ->
   forall name description, name <> EmptyString ->
     fst (create_sketch srv api_root name description init_st) = Ok o /\
     ncalls (snd (create_sketch srv api_root name description init_st)) = S k /\
     exists r, ends_with_call
                 (trace (snd (create_sketch srv api_root name description init_st))) r) /\
  ((forall r i, (i < k)%nat -> objects_falsy (srv r i) = true) ->
   forall objects, (forall r, post_objects_verdict (srv r k) = Ok (Some objects)) ->
   (forall username password,
      fst (create_user srv api_root username password init_st)
        = fst (extract_first objects "id" OUser init_st) /\
      ncalls (snd (create_user srv api_root username password init_st)) = S k /\
      exists r, ends_with_call (trace (snd (create_user srv api_root username password init_st))) r) /\
   (forall sigmarule_uri sigmarule_of rule_yaml, exists sk,
      ncalls sk = S k /\ out sk = [] /\ no_sleep (trace sk) /\
      ends_with_call (trace sk) (mkreq POST (api_root ++ "/sigmarules/")%string
                                  (JObj [("rule_yaml", JStr rule_yaml)])) /\
      create_sigmarule srv api_root sigmarule_uri sigmarule_of rule_yaml init_st
      = (first <- getitem_0 objects ;;
         rule_uuid <- getitem_str first "rule_uuid" ;;
         get_sigmarule srv api_root sigmarule_uri sigmarule_of rule_uuid) sk)).
Proof.
  intros Hk. split; [|split; [|split]].
  - intros Hfail j Hok uri params. unfold fetch_resource_data.
    exact (fetch_loop_success srv _ params j k DEFAULT_RETRY_COUNT 0 init_st
             eq_refl Hk (fun i Hi => Hfail _ i Hi) (Hok _)).
  - intros Hfail o Hok name index_name. unfold create_searchindex.
    destruct (create_searchindex_loop_success srv
                (api_root ++ "/searchindices/")%string
                (JObj [("searchindex_name", JStr name); ("es_index_name", JStr index_name)])
                o k DEFAULT_RETRY_COUNT 0 None init_st
                eq_refl Hk (fun i Hi => Hfail _ i Hi) (Hok _)) as (H1 & H2 & H3).
    split; [exact H1 | split; [exact H2 | eexists; exact H3]].
  - intros Hfail o Hok name description Hname. unfold create_sketch.
    destruct (String.eqb_spec name EmptyString) as [E|_]; [contradiction|].
    match goal with
    | |- context [create_sketch_loop srv _ ?url ?fd None init_st] =>
        destruct (create_sketch_loop_success srv url fd o k DEFAULT_RETRY_COUNT 0 None init_st
                    eq_refl Hk (fun i Hi => Hfail _ i Hi) (Hok _)) as (H1 & H2 & H3)
    end.
    split; [exact H1 | split; [exact H2 | eexists; exact H3]].
  - intros Hfail objects Hok. split.
    + intros username password.
      destruct (post_then_extract srv (api_root ++ "/users/")%string
                  (JObj [("username", JStr username); ("password", JStr password)])
                  objects k DEFAULT_RETRY_COUNT "id" OUser
                  eq_refl Hk (fun i Hi => Hfail _ i Hi) (Hok _)) as (H1 & H2 & H3).
      split; [exact H1 | split; [exact H2 | eexists; exact H3]].
    + intros sigmarule_uri sigmarule_of rule_yaml.
      destruct (post_objects_loop_success srv (api_root ++ "/sigmarules/")%string
                  (JObj [("rule_yaml", JStr rule_yaml)]) objects k DEFAULT_RETRY_COUNT 0 init_st
                  eq_refl Hk (fun i Hi => Hfail _ i Hi) (Hok _)) as (H1 & H3).
      destruct (post_objects_loop_run srv (api_root ++ "/sigmarules/")%string
                  (JObj [("rule_yaml", JStr rule_yaml)]) DEFAULT_RETRY_COUNT 0 init_st)
        as [tr (Htr & _ & Hns & _)].
      unfold create_sigmarule.
      revert H1 H3 Htr.
      destruct (post_objects_loop srv DEFAULT_RETRY_COUNT (api_root ++ "/sigmarules/")%string
                  (JObj [("rule_yaml", JStr rule_yaml)]) 0 init_st) as [r s1] eqn:EL.
      simpl. intros H1 H3 Htr. injection H1 as -> Hn.
      exists s1. rewrite Htr in Hn |- *. simpl in Hn |- *. injection Hn as Hn.
      split; [exact Hn | split; [reflexivity | split; [exact Hns | split]]].
      * rewrite Htr in H3. exact H3.
      * rewrite (bind_ok _ _ _ _ _ EL). rewrite Htr. reflexivity.
Qed.

Lemma success_returns_at_once_witness :
  fst (fetch_resource_data (server_after 2 objects_id42) "https://ts/api/v1"
         "sketches/" JNull init_st) = Ok objects_id42 /\
  ncalls (snd (fetch_resource_data (server_after 2 objects_id42) "https://ts/api/v1"
                 "sketches/" JNull init_st)) = 3%nat.
Proof.
  assert (Hfail : forall r i, (i < 2)%nat ->
                    transient_get (server_after 2 objects_id42 r i) = true).
  { intros r i Hi. unfold server_after.
    destruct i as [|[|i]]; [reflexivity | reflexivity | lia]. }
  destruct (success_returns_at_once (server_after 2 objects_id42) "https://ts/api/v1" 2
              ltac:(unfold DEFAULT_RETRY_COUNT; lia)) as [Hfetch _].
  destruct (Hfetch Hfail objects_id42 (fun r => eq_refl) "sketches/" JNull)
    as (H1 & H2 & _).
  exact (conj H1 H2).
Defined.

(** C5 fails as stated for [create_sigmarule]: its first POST succeeds,
    and yet a GET of the rule follows it. That GET is [get_sigmarule]'s
    lookup of the rule by its [rule_uuid]. *)
Lemma create_sigmarule_lookup_after_success :
  post_objects_verdict
    (HResp 201 (Some (JObj [("objects", JList [JObj [("rule_uuid", JStr "u1")]])])))
  = Ok (Some (JList [JObj [("rule_uuid", JStr "u1")]])) /\
  create_sigmarule
    (server_const (HResp 201 (Some (JObj [("objects", JList [JObj [("rule_uuid", JStr "u1")]])]))))
    "https://ts/api/v1" example_sigmarule_uri example_sigmarule_of "title: r" init_st
  = (Ok (OSigmaRule (JStr "u1")),
     mkst 2 [ECall (mkreq POST "https://ts/api/v1/sigmarules/" (JObj [("rule_yaml", JStr "title: r")]));
             ECall (mkreq GET "https://ts/api/v1/sigmarules/u1/" JNull)] []).
Proof. split; reflexivity. Qed.

(** ** C6: checks of empty input *)

(** C6 (as amended). [create_sketch] with an empty name and
    [parse_sigmarule_by_text] with an empty rule text raise [ValueError]
    in any state, leaving it unchanged: no request is sent and no retry
    loop is entered. *)
Theorem empty_input_rejected_early srv api_root description sigma_Sigma from_text s :
  create_sketch srv api_root EmptyString description s = (Exc ValueError, s) /\
  parse_sigmarule_by_text sigma_Sigma from_text EmptyString s = (Exc ValueError, s).
Proof. split; reflexivity. Qed.

(** C6 fails as stated for [create_sigmarule]: it has no emptiness
    check. With [rule_yaml = ""] it posts [{"rule_yaml": ""}]. Here the
    server answers that request with a 500, and the run raises after
    it. *)
Lemma create_sigmarule_empty_text_posts :
  create_sigmarule (server_const (HResp 500 None)) "https://ts/api/v1"
    example_sigmarule_uri example_sigmarule_of EmptyString init_st
  = (Exc RuntimeError,
     mkst 1 [ECall (mkreq POST "https://ts/api/v1/sigmarules/" (JObj [("rule_yaml", JStr EmptyString)]))] []).
Proof. reflexivity. Qed.

(** ** C7: rejected payloads are retried *)

Lemma objects_rejected_failure o :
  objects_rejected o = true ->
  response_failure_create o = true /\ transient_create o = true.
Proof.
  unfold response_failure_create.
  destruct o as [|status [[| | | | |kvs]|]]; simpl; try discriminate.
  destruct (is_20x status), (objects_valid (objects_of kvs)); simpl; try discriminate; auto.
Qed.

Section Rejected.

Variable srv : request -> nat -> http_outcome.

Lemma create_sketch_loop_ncalls url fd :
  forall n a last s,
  (ncalls s <= ncalls (snd (create_sketch_loop srv (seq a n) url fd last s)))%nat /\
  ((0 < n)%nat -> (S (ncalls s) <= ncalls (snd (create_sketch_loop srv (seq a n) url fd last s)))%nat).
Proof.
  induction n as [|n IH]; intros a last s; [simpl; split; lia|].
  cbn [seq]. rewrite create_sketch_loop_unfold.
  destruct (sketch_verdict _) as [[o|last']|e]; simpl; try (split; lia).
  destruct (a <? _)%nat; simpl; [|split; lia].
  destruct (IH (S a) last' (after_sleep (after_call s [] (mkreq POST url fd)) (create_backoff a)))
    as [H1 _]. simpl in H1. split; lia.
Qed.

Lemma create_searchindex_loop_ncalls url fd :
  forall n a last s,
  (ncalls s <= ncalls (snd (create_searchindex_loop srv (seq a n) url fd last s)))%nat /\
  ((0 < n)%nat ->
   (S (ncalls s) <= ncalls (snd (create_searchindex_loop srv (seq a n) url fd last s)))%nat).
Proof.
  induction n as [|n IH]; intros a last s; [simpl; split; lia|].
  cbn [seq]. rewrite create_searchindex_loop_unfold.
  destruct (searchindex_verdict _) as [[o|last']|e]; simpl; try (split; lia).
  destruct (a <? _)%nat; simpl; [|destruct last'; simpl; split; lia].
  destruct (IH (S a) last' (after_sleep (after_call s [] (mkreq POST url fd)) (create_backoff a)))
    as [H1 _]. simpl in H1. split; lia.
Qed.

Lemma post_objects_loop_ncalls url fd :
  forall fuel rc s,
  (ncalls s <= ncalls (snd (post_objects_loop srv fuel url fd rc s)))%nat /\
  ((0 < fuel)%nat -> (S (ncalls s) <= ncalls (snd (post_objects_loop srv fuel url fd rc s)))%nat).
Proof.
  induction fuel as [|fuel IH]; intros rc s; [simpl; split; lia|].
  rewrite post_objects_loop_unfold.
  destruct (post_objects_verdict _) as [[o|]|e]; try (simpl; split; lia).
  destruct (DEFAULT_RETRY_COUNT <=? S rc)%nat; simpl; [split; lia|].
  destruct (IH (S rc) (after_call s [] (mkreq POST url fd))) as [H1 _]. simpl in H1. split; lia.
Qed.

Lemma create_sketch_loop_rejected url fd i :
  response_failure_create (srv (mkreq POST url fd) i) = true ->
  forall n a last s, (a + n = DEFAULT_RETRY_COUNT)%nat -> ncalls s = a -> (ncalls s <= i)%nat ->
  (i < ncalls (snd (create_sketch_loop srv (seq a n) url fd last s)))%nat ->
  (S i < ncalls (snd (create_sketch_loop srv (seq a n) url fd last s)))%nat \/
  (S i = DEFAULT_RETRY_COUNT /\
   exists e, fst (create_sketch_loop srv (seq a n) url fd last s) = Exc e).
Proof.
  intros Hr. induction n as [|n IH]; intros a last s Hn Ha Hs Hi; [simpl in Hi; lia|].
  revert Hi. cbn [seq]. rewrite create_sketch_loop_unfold. intros Hi.
  destruct (Nat.eq_dec i (ncalls s)) as [E|E].
  - subst i. destruct (sketch_verdict_retry _ Hr) as [e ->].
    destruct (a <? DEFAULT_RETRY_COUNT - 1)%nat eqn:Ea.
    + apply Nat.ltb_lt in Ea. left.
      destruct (create_sketch_loop_ncalls url fd n (S a) (Some e)
                  (after_sleep (after_call s [] (mkreq POST url fd)) (create_backoff a)))
        as [_ H2].
      simpl in H2. unfold DEFAULT_RETRY_COUNT in *. specialize (H2 ltac:(lia)). lia.
    + apply Nat.ltb_ge in Ea. right. unfold DEFAULT_RETRY_COUNT in *.
      split; [lia | eexists; reflexivity].
  - destruct (sketch_verdict _) as [[o|last']|e]; try (simpl in Hi |- *; lia).
    destruct (a <? DEFAULT_RETRY_COUNT - 1)%nat; simpl in Hi |- *; [|lia].
    apply IH; simpl; lia.
Qed.

Lemma create_searchindex_loop_rejected url fd i :
  transient_create (srv (mkreq POST url fd) i) = true ->
  forall n a last s, (a + n = DEFAULT_RETRY_COUNT)%nat -> ncalls s = a -> (ncalls s <= i)%nat ->
  (i < ncalls (snd (create_searchindex_loop srv (seq a n) url fd last s)))%nat ->
  (S i < ncalls (snd (create_searchindex_loop srv (seq a n) url fd last s)))%nat \/
  (S i = DEFAULT_RETRY_COUNT /\
   exists e, fst (create_searchindex_loop srv (seq a n) url fd last s) = Exc e).
Proof.
  intros Hr. induction n as [|n IH]; intros a last s Hn Ha Hs Hi; [simpl in Hi; lia|].
  revert Hi. cbn [seq]. rewrite create_searchindex_loop_unfold. intros Hi.
  destruct (Nat.eq_dec i (ncalls s)) as [E|E].
  - subst i. destruct (searchindex_verdict_retry _ Hr) as [e ->].
    destruct (a <? DEFAULT_RETRY_COUNT - 1)%nat eqn:Ea.
    + apply Nat.ltb_lt in Ea. left.
      destruct (create_searchindex_loop_ncalls url fd n (S a) (Some e)
                  (after_sleep (after_call s [] (mkreq POST url fd)) (create_backoff a)))
        as [_ H2].
      simpl in H2. unfold DEFAULT_RETRY_COUNT in *. specialize (H2 ltac:(lia)). lia.
    + apply Nat.ltb_ge in Ea. right. unfold DEFAULT_RETRY_COUNT in *.
      split; [lia | eexists; reflexivity].
  - destruct (searchindex_verdict _) as [[o|last']|e]; try (simpl in Hi |- *; lia).
    destruct (a <? DEFAULT_RETRY_COUNT - 1)%nat; simpl in Hi |- *;
      [|destruct last'; simpl in Hi; lia].
    apply IH; simpl; lia.
Qed.

Lemma post_objects_loop_rejected url fd i :
  objects_falsy (srv (mkreq POST url fd) i) = true ->
  forall fuel rc s, (rc + fuel = DEFAULT_RETRY_COUNT)%nat -> ncalls s = rc -> (ncalls s <= i)%nat ->
  (i < ncalls (snd (post_objects_loop srv fuel url fd rc s)))%nat ->
  (S i < ncalls (snd (post_objects_loop srv fuel url fd rc s)))%nat \/
  (S i = DEFAULT_RETRY_COUNT /\
   exists e, fst (post_objects_loop srv fuel url fd rc s) = Exc e).
Proof.
  intros Hr. induction fuel as [|fuel IH]; intros rc s Hn Ha Hs Hi; [simpl in Hi; lia|].
  revert Hi. rewrite post_objects_loop_unfold. intros Hi.
  destruct (Nat.eq_dec i (ncalls s)) as [E|E].
  - subst i. rewrite post_objects_verdict_retry by exact Hr.
    destruct (DEFAULT_RETRY_COUNT <=? S rc)%nat eqn:Ea.
    + apply Nat.leb_le in Ea. right. unfold DEFAULT_RETRY_COUNT in *.
      split; [lia | eexists; reflexivity].
    + apply Nat.leb_gt in Ea. left.
      destruct (post_objects_loop_ncalls url fd fuel (S rc) (after_call s [] (mkreq POST url fd)))
        as [_ H2].
      simpl in H2. unfold DEFAULT_RETRY_COUNT in *. specialize (H2 ltac:(lia)). lia.
  - destruct (post_objects_verdict _) as [[o|]|e]; try (simpl in Hi |- *; lia).
    destruct (DEFAULT_RETRY_COUNT <=? S rc)%nat; simpl in Hi |- *; [lia|].
    apply IH; simpl; lia.
Qed.

Lemma post_then_extract_rejected url fd i key f :
  objects_falsy (srv (mkreq POST url fd) i) = true ->
  let p := bind (post_objects_loop srv DEFAULT_RETRY_COUNT url fd 0)
                (fun o => extract_first o key f) init_st in
  (i < ncalls (snd p))%nat ->
  (S i < ncalls (snd p))%nat \/ (S i = DEFAULT_RETRY_COUNT /\ exists e, fst p = Exc e).
Proof.
  intros Hr p. subst p. unfold bind at 1 2 3.
  destruct (post_objects_loop srv DEFAULT_RETRY_COUNT url fd 0 init_st) as [[o|e] s'] eqn:E.
  - rewrite extract_first_pure. simpl. intros Hi.
    destruct (post_objects_loop_rejected url fd i Hr DEFAULT_RETRY_COUNT 0 init_st)
      as [H|[H [e He]]]; rewrite ?E in *; simpl in *; try lia; auto; discriminate.
  - simpl. intros Hi.
    destruct (post_objects_loop_rejected url fd i Hr DEFAULT_RETRY_COUNT 0 init_st)
      as [H|[H [e' He]]]; rewrite ?E in *; simpl in *; try lia; auto.
    right. split; [exact H | eexists; reflexivity].
Qed.

End Rejected.

(** If the request at index [i] of a [create_sigmarule] run is one of its
    POSTs and gets a falsy [objects], a further request follows or [i] was
    the last attempt and the run raises. *)
Lemma create_sigmarule_rejected srv api_root sigmarule_uri sigmarule_of rule_yaml i :
  objects_falsy (srv (mkreq POST (api_root ++ "/sigmarules/")%string
                        (JObj [("rule_yaml", JStr rule_yaml)])) i) = true ->
  nth_error (calls (trace (snd (create_sigmarule srv api_root sigmarule_uri sigmarule_of
                                   rule_yaml init_st)))) i
  = Some (mkreq POST (api_root ++ "/sigmarules/")%string (JObj [("rule_yaml", JStr rule_yaml)])) ->
  (S i < ncalls (snd (create_sigmarule srv api_root sigmarule_uri sigmarule_of rule_yaml init_st)))%nat
  \/ (S i = DEFAULT_RETRY_COUNT /\
      exists e, fst (create_sigmarule srv api_root sigmarule_uri sigmarule_of rule_yaml init_st)
                = Exc e).
Proof.
  intros Hr.
  pose proof (post_objects_loop_rejected srv _ _ i Hr DEFAULT_RETRY_COUNT 0 init_st
                eq_refl eq_refl (Nat.le_0_l i)) as HR.
  destruct (post_objects_loop_run srv (api_root ++ "/sigmarules/")%string
              (JObj [("rule_yaml", JStr rule_yaml)]) DEFAULT_RETRY_COUNT 0 init_st)
    as [tr (Hs & _ & Hns & _)].
  unfold create_sigmarule.
  destruct (post_objects_loop srv DEFAULT_RETRY_COUNT (api_root ++ "/sigmarules/")%string
              (JObj [("rule_yaml", JStr rule_yaml)]) 0 init_st) as [[o|e] s1] eqn:EL;
    simpl in Hs, HR; subst s1.
  - (* The loop returned: every earlier index is a request of the loop. *)
    rewrite (bind_ok _ _ _ _ _ EL).
    assert (Hlt : (i < length tr)%nat -> (S i < length tr)%nat).
    { intros H. destruct (HR H) as [H'|[_ [e He]]]; [exact H' | discriminate He]. }
    assert (Hpre : nth_error (calls tr) i <> None -> (S i < length tr)%nat).
    { intros H. apply Hlt. rewrite <- (calls_length tr Hns). apply nth_error_Some, H. }
    pose proof (pure_getitem_0 o (mkst (length tr) tr [])) as P0.
    destruct (getitem_0 o (mkst (length tr) tr [])) as [[f|e] s2] eqn:E0;
      simpl in P0; subst s2;
      [rewrite (bind_ok _ _ _ _ _ E0)
      |rewrite (bind_exc _ _ _ _ _ E0); simpl; intros Hi; left; apply Hpre; congruence].
    pose proof (pure_getitem_str f "rule_uuid" (mkst (length tr) tr [])) as P1.
    destruct (getitem_str f "rule_uuid" (mkst (length tr) tr [])) as [[u|e] s2] eqn:E1;
      simpl in P1; subst s2;
      [rewrite (bind_ok _ _ _ _ _ E1)
      |rewrite (bind_exc _ _ _ _ _ E1); simpl; intros Hi; left; apply Hpre; congruence].
    destruct (get_sigmarule_run srv api_root sigmarule_uri sigmarule_of u (mkst (length tr) tr []))
      as [tr2 (H1 & H2 & H3)].
    rewrite H1, H2. simpl. rewrite calls_app. intros Hi. left.
    destruct (Nat.lt_ge_cases i (length (calls tr))) as [Hi'|Hi'].
    + rewrite calls_length in Hi' by exact Hns. specialize (Hlt Hi'). lia.
    + rewrite nth_error_app2 in Hi by exact Hi'.
      apply nth_error_In in Hi. simpl in Hi. exfalso.
      destruct Hi as [Hi|Hi]; [discriminate Hi|].
      rewrite Forall_forall in H3. specialize (H3 _ Hi). discriminate H3.
  - rewrite (bind_exc _ _ _ _ _ EL). simpl. intros Hi.
    assert (Hi' : (i < length tr)%nat).
    { rewrite <- (calls_length tr Hns). apply nth_error_Some. congruence. }
    destruct (HR Hi') as [H|[H [e' He]]]; [left; exact H | right; split; [exact H | eauto]].
Qed.

(** C7. Take the create operations whose check requires a non-empty
    [objects]: [create_sketch] and [create_searchindex] (a list whose first
    item is a dict with an [id]), [create_user] and [create_sigmarule] (a
    truthy [objects]). Let request [i] of a run be one of the operation's
    POST attempts, and let it get a 20x payload that the operation's check
    rejects, such as [{"objects": []}]. Then the payload is never returned:
    either a further request follows, or [i] was the last attempt of the
    budget and the operation raises. [create_sketch], [create_searchindex]
    and [create_user] send nothing but those POSTs. [create_sigmarule]
    also sends the GET of [get_sigmarule]'s lookup, so for it request [i]
    is required to be the POST. *)
Theorem rejected_payload_retried srv api_root i :
  ((forall r, objects_rejected (srv r i) = true) ->
   (forall name index_name,
      (i < ncalls (snd (create_searchindex srv api_root name index_name init_st)))%nat ->
      (S i < ncalls (snd (create_searchindex srv api_root name index_name init_st)))%nat \/
      (S i = DEFAULT_RETRY_COUNT /\
       exists e, fst (create_searchindex srv api_root name index_name init_st) = Exc e)) /\
   (forall name description,
      (i < ncalls (snd (create_sketch srv api_root name description init_st)))%nat ->
      (S i < ncalls (snd (create_sketch srv api_root name description init_st)))%nat \/
      (S i = DEFAULT_RETRY_COUNT /\
       exists e, fst (create_sketch srv api_root name description init_st) = Exc e))) /\
  ((forall r, objects_falsy (srv r i) = true) ->
   (forall username password,
      (i < ncalls (snd (create_user srv api_root username password init_st)))%nat ->
      (S i < ncalls (snd (create_user srv api_root username password init_st)))%nat \/
      (S i = DEFAULT_RETRY_COUNT /\
       exists e, fst (create_user srv api_root username password init_st) = Exc e)) /\
   (forall sigmarule_uri sigmarule_of rule_yaml,
      nth_error (calls (trace (snd (create_sigmarule srv api_root sigmarule_uri sigmarule_of
                                       rule_yaml init_st)))) i
      = Some (mkreq POST (api_root ++ "/sigmarules/")%string
                (JObj [("rule_yaml", JStr rule_yaml)])) ->
      (S i < ncalls (snd (create_sigmarule srv api_root sigmarule_uri sigmarule_of rule_yaml init_st)))%nat \/
      (S i = DEFAULT_RETRY_COUNT /\
       exists e, fst (create_sigmarule srv api_root sigmarule_uri sigmarule_of rule_yaml init_st) = Exc e))).
Proof.
  split.
  - intros Hr. split.
    + intros name index_name. unfold create_searchindex.
      apply create_searchindex_loop_rejected;
        [apply (objects_rejected_failure _ (Hr _)) | reflexivity | reflexivity | simpl; lia].
    + intros name description. unfold create_sketch.
      destruct (String.eqb name EmptyString); [simpl; lia|].
      apply create_sketch_loop_rejected;
        [apply (objects_rejected_failure _ (Hr _)) | reflexivity | reflexivity | simpl; lia].
  - intros Hr. split.
    + intros username password.
      exact (post_then_extract_rejected srv _ _ i "id" OUser (Hr _)).
    + intros sigmarule_uri sigmarule_of rule_yaml.
      exact (create_sigmarule_rejected srv api_root sigmarule_uri sigmarule_of rule_yaml i (Hr _)).
Qed.

Lemma rejected_payload_retried_witness :
  (2 < ncalls (snd (create_searchindex (server_const (HResp 200 (Some (JObj [("objects", JList [])]))))
                      "https://ts/api/v1" "case" "idx" init_st)))%nat.
Proof.
  destruct (rejected_payload_retried (server_const (HResp 200 (Some (JObj [("objects", JList [])]))))
              "https://ts/api/v1" 1) as [Hsi _].
  assert (Hlt : (1 < ncalls (snd (create_searchindex
                  (server_const (HResp 200 (Some (JObj [("objects", JList [])]))))
                  "https://ts/api/v1" "case" "idx" init_st)))%nat).
  { apply Nat.ltb_lt. vm_compute. reflexivity. }
  destruct (proj1 (Hsi (fun r => eq_refl)) "case" "idx" Hlt) as [H|[H _]].
  - exact H.
  - discriminate H.
Defined.

(** ** C8: paginated listing of sketches *)

Lemma fetch_resource_data_first srv api_root uri params j s :
  get_ok (srv (mkreq GET (api_root ++ "/" ++ uri)%string params) (ncalls s)) = Some j ->
  fetch_resource_data srv api_root uri params s
  = (Ok j, mkst (S (ncalls s)) (trace s ++ [ECall (mkreq GET (api_root ++ "/" ++ uri)%string params)])
               (out s)).
Proof.
  intros H. unfold fetch_resource_data, DEFAULT_RETRY_COUNT.
  rewrite fetch_loop_unfold, (fetch_verdict_ok _ _ _ H). reflexivity.
Qed.

Lemma for_each_sketches es s :
  for_each (map sketch_entry es)
    (fun sketch_dict =>
       sketch_id <- getitem_str sketch_dict "id" ;;
       sketch_name <- getitem_str sketch_dict "name" ;;
       yield (OSketch sketch_id sketch_name)) s
  = (Ok tt, mkst (ncalls s) (trace s) (out s ++ map sketch_of_entry es)).
Proof.
  revert s. induction es as [|[i n] es IH]; intros s.
  - simpl. rewrite app_nil_r. destruct s; reflexivity.
  - cbn [map for_each]. unfold bind at 1. simpl. rewrite IH. simpl.
    rewrite <- app_assoc. reflexivity.
Qed.

Lemma assoc_app_none k l1 l2 : assoc k l1 = None -> assoc k (l1 ++ l2) = assoc k l2.
Proof.
  induction l1 as [|[k' v] l1 IH]; simpl; auto.
  destruct (String.eqb k k'); [discriminate | exact IH].
Qed.

Lemma skipn_nth_cons {A} (l : list A) n d :
  (n < length l)%nat -> skipn n l = nth n l d :: skipn (S n) l.
Proof.
  revert n. induction l as [|x l IH]; intros n Hn; simpl in Hn; [lia|].
  destruct n as [|n]; [reflexivity|]. simpl. apply IH. lia.
Qed.

Lemma dataset_page_truthy pages last_meta q : truthy (dataset_page pages last_meta q) = true.
Proof. unfold dataset_page. destruct (_ <? _)%nat; [|destruct last_meta]; reflexivity. Qed.

Section Listing.

Variables (pages : list (list (json * json))) (last_meta : option json).
Variable api_root : string.
Variable url_params : list (string * json).
Hypothesis Hparams : assoc "page" url_params = None.
Hypothesis Hstops : meta_stops last_meta = true.

Lemma page_param_of q :
  page_param (JObj (url_params ++ [("page", JNum (Z.of_nat q))])) = Some (Z.of_nat q).
Proof. simpl. rewrite assoc_app_none by exact Hparams. reflexivity. Qed.

Lemma list_sketches_loop_dataset :
  forall m fuel q s, (q + m = length pages)%nat -> (1 <= q)%nat -> (m < fuel)%nat ->
  list_sketches_loop (dataset_server pages last_meta) api_root fuel url_params
    (JNum (Z.of_nat q)) s
  = (Ok tt, mkst (ncalls s + S m)
                 (trace s ++ map (page_call api_root url_params) (seq q (S m)))
                 (out s ++ map sketch_of_entry (concat (skipn (pred q) pages)))).
Proof.
  induction m as [|m IH]; intros fuel q s Hq H1 Hf;
    (destruct fuel as [|fuel]; [lia|]); cbn [list_sketches_loop];
    unfold bind at 1;
    rewrite fetch_resource_data_first with (j := dataset_page pages last_meta q)
      by (unfold dataset_server; cbn [rarg]; rewrite page_param_of, Nat2Z.id;
        unfold get_ok; rewrite dataset_page_truthy; reflexivity);
    unfold dataset_page.
  - assert (E : (q <? length pages)%nat = false) by (apply Nat.ltb_ge; lia). rewrite E.
    assert (Hlast : skipn (pred q) pages = [nth (pred q) pages []]).
    { destruct q as [|q]; [lia|]. simpl.
      rewrite (skipn_nth_cons pages q []) by lia.
      rewrite (skipn_all2 pages) by lia. reflexivity. }
    rewrite Hlast.
    destruct last_meta as [[| | | | |kvs]|]; simpl in Hstops; try discriminate;
      unfold bind; simpl; rewrite ?for_each_sketches; simpl.
    + destruct (assoc "next_page" kvs) as [v|]; simpl in Hstops |- *;
        [rewrite (proj1 (negb_true_iff _) Hstops)|];
        unfold ret; rewrite ?app_nil_r; f_equal; f_equal; lia.
    + unfold ret; rewrite ?app_nil_r; f_equal; f_equal; lia.
  - assert (E : (q <? length pages)%nat = true) by (apply Nat.ltb_lt; lia). rewrite E.
    simpl. unfold bind. simpl. rewrite for_each_sketches. simpl.
    replace (Z.pos (Pos.of_succ_nat q)) with (Z.of_nat (S q)) by reflexivity.
    rewrite (IH fuel (S q)) by (simpl; lia). simpl.
    assert (Hsk : skipn (pred q) pages = nth (pred q) pages [] :: skipn q pages).
    { destruct q as [|q]; [lia|]. simpl. apply skipn_nth_cons. lia. }
    rewrite Hsk. simpl. rewrite !map_app, <- !app_assoc.
    f_equal; f_equal; first [lia | reflexivity].
Qed.

End Listing.

(** C8. Over a dataset of [n >= 1] pages whose last [meta] has no
    truthy [next_page], [list_sketches] (with fuel for [n] passes) sends
    [n] GETs for pages [1, 2, ..., n] in that order, yields one [Sketch]
    per entry of each page's [objects], in order, and stops after page
    [n]. The run adds the same requests and the same yields whatever the
    state it starts in, so a second listing over the unchanged dataset
    yields the same sketches in the same order. *)
Theorem list_sketches_pages pages last_meta api_root fuel per_page scope include_archived :
  pages <> [] -> meta_stops last_meta = true -> (length pages <= fuel)%nat ->
  (forall s,
     list_sketches (dataset_server pages last_meta) api_root fuel per_page scope
       include_archived s
     = (Ok tt,
        mkst (ncalls s + length pages)
          (trace s ++ map (page_call api_root (list_sketches_params per_page scope include_archived))
                          (seq 1 (length pages)))
          (out s ++ map sketch_of_entry (concat pages)))) /\
  (let first := snd (list_sketches (dataset_server pages last_meta) api_root fuel per_page
                       scope include_archived init_st) in
   let second := snd (list_sketches (dataset_server pages last_meta) api_root fuel per_page
                        scope include_archived first) in
   out second = out first ++ out first).
Proof.
  intros Hne Hstops Hf.
  assert (Hrun : forall s,
     list_sketches (dataset_server pages last_meta) api_root fuel per_page scope
       include_archived s
     = (Ok tt,
        mkst (ncalls s + length pages)
          (trace s ++ map (page_call api_root (list_sketches_params per_page scope include_archived))
                          (seq 1 (length pages)))
          (out s ++ map sketch_of_entry (concat pages)))).
  { intros s. unfold list_sketches.
    assert (Hlen : (1 <= length pages)%nat) by (destruct pages; [contradiction | simpl; lia]).
    change (JNum 1) with (JNum (Z.of_nat 1)).
    rewrite (list_sketches_loop_dataset pages last_meta api_root
               (list_sketches_params per_page scope include_archived) eq_refl Hstops
               (pred (length pages)) fuel 1 s) by lia.
    replace (S (pred (length pages))) with (length pages) by lia. reflexivity. }
  split; [exact Hrun|].
  simpl. rewrite !Hrun. simpl. reflexivity.
Qed.

Lemma list_sketches_pages_witness :
  out (snd (list_sketches
              (dataset_server [[(JNum 1, JStr "a"); (JNum 2, JStr "b")]; [(JNum 3, JStr "c")]]
                 (Some (JObj [("next_page", JNull)])))
              "https://ts/api/v1" 2 50 "user" true init_st))
  = [OSketch (JNum 1) (JStr "a"); OSketch (JNum 2) (JStr "b"); OSketch (JNum 3) (JStr "c")].
Proof.
  destruct (list_sketches_pages [[(JNum 1, JStr "a"); (JNum 2, JStr "b")]; [(JNum 3, JStr "c")]]
              (Some (JObj [("next_page", JNull)])) "https://ts/api/v1" 2 50 "user" true
              ltac:(discriminate) eq_refl ltac:(simpl; lia)) as [Hrun _].
  rewrite Hrun. reflexivity.
Defined.

(** ** C9: the unguarded index of [list_users] *)

Lemma fetch_loop_out srv fuel url params a s :
  out (snd (fetch_loop srv fuel url params a s)) = out s.
Proof.
  revert a s. induction fuel as [|fuel IH]; intros a s; [reflexivity|].
  rewrite fetch_loop_unfold.
  destruct (fetch_verdict _ _); [reflexivity|]. rewrite IH. reflexivity.
Qed.

Section Users.

(** The loop body of [list_users], up to unfolding. *)
Variable body : json -> M unit.
Hypothesis Hbody : forall d s,
  body d s = (user_id <- getitem_str d "id" ;; yield (OUser user_id)) s.





End Users.




(** ** C10: [list_searchindices] on an empty listing *)

(** C10. Let the fetch of [searchindices/] return a dict whose [objects]
    is absent or falsy. Consuming [list_searchindices] then yields exactly
    one value, [None], and completes without a further request. *)
Theorem list_searchindices_yields_none srv api_root s kvs s' :
  fetch_resource_data srv api_root "searchindices/" JNull s = (Ok (JObj kvs), s') ->
  truthy (objects_of kvs) = false ->
  list_searchindices srv api_root s = (Ok tt, mkst (ncalls s') (trace s') (out s ++ [ONone])).
Proof.
  intros Hf Ho.
  assert (Hout : out s' = out s).
  { pose proof (fetch_loop_out srv DEFAULT_RETRY_COUNT (api_root ++ "/" ++ "searchindices/")%string
                  JNull 0 s) as H.
    unfold fetch_resource_data in Hf. rewrite Hf in H. exact H. }
  unfold list_searchindices. rewrite (bind_ok _ _ _ _ _ Hf).
  unfold bind at 1, dict_get, ret at 1. unfold objects_of in Ho. rewrite Ho. simpl.
  unfold yield. rewrite Hout. reflexivity.
Qed.

Lemma list_searchindices_yields_none_witness :
  list_searchindices (server_const (HResp 200 (Some (JObj [("objects", JList [])]))))
    "https://ts/api/v1" init_st
  = (Ok tt, mkst 1 [ECall (mkreq GET "https://ts/api/v1/searchindices/" JNull)] [ONone]).
Proof.
  exact (list_searchindices_yields_none
           (server_const (HResp 200 (Some (JObj [("objects", JList [])]))))
           "https://ts/api/v1" init_st [("objects", JList [])]
           (mkst 1 [ECall (mkreq GET "https://ts/api/v1/searchindices/" JNull)] [])
           ltac:(vm_compute; reflexivity) eq_refl).
Defined.

(** ** Further properties of the client *)

Lemma fetch_verdict_last_exc a o :
  transient_get o = true -> (DEFAULT_RETRY_COUNT <= a)%nat ->
  fetch_verdict a o = Some (Exc (get_failure_exc o)).
Proof.
  intros Ht Ha. assert (E : (DEFAULT_RETRY_COUNT <=? a)%nat = true)
    by (apply Nat.leb_le; exact Ha).
  unfold fetch_verdict. rewrite E.
  destruct o as [|status [j|]]; simpl in Ht |- *; auto;
    destruct (is_20x status); simpl in Ht |- *; auto.
  destruct (truthy j); simpl in Ht; [discriminate|reflexivity].
Qed.

Lemma fetch_loop_last_failure (srv : request -> nat -> http_outcome) url params :
  (forall n, transient_get (srv (mkreq GET url params) n) = true) ->
  forall fuel a s, (a + fuel = DEFAULT_RETRY_COUNT)%nat -> (0 < fuel)%nat ->
  fst (fetch_loop srv fuel url params a s)
  = Exc (get_failure_exc (srv (mkreq GET url params) (ncalls s + pred fuel)%nat)).
Proof.
  intros Ht. induction fuel as [|fuel IH]; intros a s Hf Hpos; [lia|].
  rewrite fetch_loop_unfold.
  destruct (Nat.lt_ge_cases (S a) DEFAULT_RETRY_COUNT) as [Hlt|Hge].
  - rewrite fetch_verdict_retry by auto.
    rewrite IH by (unfold DEFAULT_RETRY_COUNT in *; lia).
    simpl. do 3 f_equal. unfold DEFAULT_RETRY_COUNT in *. lia.
  - rewrite fetch_verdict_last_exc by auto. simpl.
    do 3 f_equal. unfold DEFAULT_RETRY_COUNT in *. lia.
Qed.

Lemma create_searchindex_loop_exhausted (srv : request -> nat -> http_outcome) url fd :
  (forall n, transient_create (srv (mkreq POST url fd) n) = true) ->
  forall k a last s, (a + k = DEFAULT_RETRY_COUNT)%nat -> (0 < k)%nat ->
  fst (create_searchindex_loop srv (seq a k) url fd last s) = Exc ValueError.
Proof.
  intros Ht. induction k as [|k IH]; intros a last s Hk Hpos; [lia|].
  cbn [seq]. rewrite create_searchindex_loop_unfold.
  destruct (searchindex_verdict_retry _ (Ht (ncalls s))) as [e ->].
  destruct (a <? DEFAULT_RETRY_COUNT - 1)%nat eqn:E.
  - apply Nat.ltb_lt in E. apply IH; unfold DEFAULT_RETRY_COUNT in *; lia.
  - reflexivity.
Qed.

Lemma create_sketch_loop_conn (srv : request -> nat -> http_outcome) url fd :
  forall k n a last s, (a + n = DEFAULT_RETRY_COUNT)%nat -> (k < n)%nat ->
  (forall i, (i < k)%nat ->
     response_failure_create (srv (mkreq POST url fd) (ncalls s + i)%nat) = true) ->
  srv (mkreq POST url fd) (ncalls s + k)%nat = HConnErr ->
  fst (create_sketch_loop srv (seq a n) url fd last s) = Exc ConnectionError /\
  ncalls (snd (create_sketch_loop srv (seq a n) url fd last s)) = (ncalls s + S k)%nat /\
  ends_with_call (trace (snd (create_sketch_loop srv (seq a n) url fd last s)))
    (mkreq POST url fd).
Proof.
  induction k as [|k IH]; intros n a last s Hn Hk Hfail Hc;
    (destruct n as [|n]; [lia|]); cbn [seq]; rewrite create_sketch_loop_unfold.
  - rewrite Nat.add_0_r in Hc. rewrite Hc. simpl.
    split; [reflexivity | split; [lia | eexists; reflexivity]].
  - pose proof (Hfail 0%nat ltac:(lia)) as H0. rewrite Nat.add_0_r in H0.
    destruct (sketch_verdict_retry _ H0) as [e ->].
    assert (E : (a <? DEFAULT_RETRY_COUNT - 1)%nat = true)
      by (apply Nat.ltb_lt; unfold DEFAULT_RETRY_COUNT in *; lia).
    rewrite E.
    destruct (IH n (S a) (Some e)
                (after_sleep (after_call s [] (mkreq POST url fd)) (create_backoff a)))
      as (H1 & H2 & H3); simpl; try lia.
    + intros i Hi. rewrite <- Nat.add_succ_r. apply Hfail. lia.
    + rewrite <- Nat.add_succ_r. exact Hc.
    + simpl in H2. split; [exact H1 | split; [lia | exact H3]].
Qed.

Lemma only_calls_app r l1 l2 : only_calls r l1 -> only_calls r l2 -> only_calls r (l1 ++ l2).
Proof. intros H1 H2. apply Forall_app; split; assumption. Qed.

Lemma create_sketch_loop_calls (srv : request -> nat -> http_outcome) url fd :
  forall attempts last s, exists tr,
    appended s (create_sketch_loop srv attempts url fd last s) tr /\
    only_calls (mkreq POST url fd) tr.
Proof.
  unfold appended, only_calls.
  induction attempts as [|a rest IH]; intros last s.
  - exists []. rewrite app_nil_r. split; [reflexivity | constructor].
  - rewrite create_sketch_loop_unfold.
    destruct (sketch_verdict _) as [[o|last']|e];
      [| |exists [ECall (mkreq POST url fd)]; split; [reflexivity | repeat constructor]].
    + exists [ECall (mkreq POST url fd)]. split; [reflexivity | repeat constructor].
    + destruct (a <? DEFAULT_RETRY_COUNT - 1)%nat;
        [|exists [ECall (mkreq POST url fd)]; split; [reflexivity | repeat constructor]].
      destruct (IH last' (after_sleep (after_call s [] (mkreq POST url fd)) (create_backoff a)))
        as [tr [Htr Hall]].
      exists ([ECall (mkreq POST url fd); ESleep (create_backoff a)] ++ tr).
      split.
      * rewrite Htr. simpl. rewrite <- !app_assoc. reflexivity.
      * apply Forall_app; split; [repeat constructor | exact Hall].
Qed.

Lemma post_objects_loop_calls (srv : request -> nat -> http_outcome) url fd :
  forall fuel rc s, exists tr,
    appended s (post_objects_loop srv fuel url fd rc s) tr /\
    only_calls (mkreq POST url fd) tr /\ no_sleep tr /\ (length tr <= fuel)%nat.
Proof.
  unfold appended, only_calls, no_sleep.
  induction fuel as [|fuel IH]; intros rc s.
  - exists []. rewrite app_nil_r. repeat split; constructor.
  - rewrite post_objects_loop_unfold.
    destruct (post_objects_verdict _) as [[o|]|e];
      try (exists [ECall (mkreq POST url fd)];
           split; [reflexivity | repeat split; simpl; try lia; repeat constructor]).
    destruct (DEFAULT_RETRY_COUNT <=? S rc)%nat;
      [exists [ECall (mkreq POST url fd)];
       split; [reflexivity | repeat split; simpl; try lia; repeat constructor]|].
    destruct (IH (S rc) (after_call s [] (mkreq POST url fd)))
      as [tr (Htr & Hall & Hns & Hlen)].
    exists (ECall (mkreq POST url fd) :: tr). repeat split.
    + rewrite Htr. simpl. rewrite <- app_assoc. reflexivity.
    + constructor; [reflexivity | exact Hall].
    + constructor; [exact I | exact Hns].
    + simpl. lia.
Qed.

(** X1. When every attempt of [fetch_resource_data] fails, the exception
    it raises is the one of its last (fifth) attempt: [ConnectionError]
    for a connection failure, [ValueError] for a body that is not JSON,
    [RuntimeError] for a status outside 20x or a falsy payload. *)
Theorem fetch_resource_data_last_failure (srv : request -> nat -> http_outcome)
    api_root uri params s :
  (forall n, transient_get (srv (mkreq GET (api_root ++ "/" ++ uri)%string params) n) = true) ->
  fst (fetch_resource_data srv api_root uri params s)
  = Exc (get_failure_exc (srv (mkreq GET (api_root ++ "/" ++ uri)%string params)
                           (ncalls s + 4)%nat)).
Proof.
  intros H. unfold fetch_resource_data.
  rewrite (fetch_loop_last_failure srv _ _ H DEFAULT_RETRY_COUNT 0 s);
    reflexivity || (unfold DEFAULT_RETRY_COUNT; lia).
Qed.

Lemma fetch_resource_data_last_failure_witness :
  (forall n, transient_get
     ((fun _ n => if (n <? 4)%nat then HResp 503 None else HResp 200 None)
        (mkreq GET ("https://ts" ++ "/" ++ "version/")%string JNull) n) = true) /\
  fst (fetch_resource_data (fun _ n => if (n <? 4)%nat then HResp 503 None else HResp 200 None)
         "https://ts" "version/" JNull init_st) = Exc ValueError.
Proof.
  assert (H : forall n, transient_get
     ((fun _ n => if (n <? 4)%nat then HResp 503 None else HResp 200 None)
        (mkreq GET ("https://ts" ++ "/" ++ "version/")%string JNull) n) = true)
    by (intros n; simpl; destruct (n <? 4)%nat; reflexivity).
  split; [exact H|].
  exact (fetch_resource_data_last_failure
           (fun _ n => if (n <? 4)%nat then HResp 503 None else HResp 200 None)
           "https://ts" "version/" JNull init_st H).
Defined.

(** X2. Every request [create_sketch name description] sends is the POST
    to [<api_root>/sketches/] of [{"name": name, "description": ...}],
    where the description is [name] when [description] is [None] or
    empty, and [description] otherwise; it sends nothing else. *)
Theorem create_sketch_form (srv : request -> nat -> http_outcome) api_root name s :
  (forall description, description = None \/ description = Some EmptyString ->
   exists tr, appended s (create_sketch srv api_root name description s) tr /\
   only_calls (mkreq POST (api_root ++ "/sketches/")%string
                 (JObj [("name", JStr name); ("description", JStr name)])) tr) /\
  (forall d, d <> EmptyString ->
   exists tr, appended s (create_sketch srv api_root name (Some d) s) tr /\
   only_calls (mkreq POST (api_root ++ "/sketches/")%string
                 (JObj [("name", JStr name); ("description", JStr d)])) tr).
Proof.
  split.
  - intros description Hd. unfold create_sketch.
    destruct (String.eqb name EmptyString).
    + exists []. split; [unfold appended; rewrite app_nil_r; reflexivity | constructor].
    + destruct Hd as [-> | ->]; apply create_sketch_loop_calls.
  - intros d Hd. unfold create_sketch.
    apply String.eqb_neq in Hd. rewrite Hd.
    destruct (String.eqb name EmptyString).
    + exists []. split; [unfold appended; rewrite app_nil_r; reflexivity | constructor].
    + apply create_sketch_loop_calls.
Qed.

Lemma create_sketch_form_witness :
  ((None : option string) = None \/ (None : option string) = Some EmptyString) /\
  (exists tr, appended init_st (create_sketch (server_const HConnErr) "https://ts/api/v1" "case"
                                   None init_st) tr /\
   only_calls (mkreq POST ("https://ts/api/v1" ++ "/sketches/")%string
                 (JObj [("name", JStr "case"); ("description", JStr "case")])) tr) /\
  "notes" <> EmptyString /\
  (exists tr, appended init_st (create_sketch (server_const HConnErr) "https://ts/api/v1" "case"
                                   (Some "notes") init_st) tr /\
   only_calls (mkreq POST ("https://ts/api/v1" ++ "/sketches/")%string
                 (JObj [("name", JStr "case"); ("description", JStr "notes")])) tr).
Proof.
  assert (Hn : (None : option string) = None \/ (None : option string) = Some EmptyString)
    by (left; reflexivity).
  assert (Hd : "notes" <> EmptyString) by discriminate.
  split; [exact Hn|]. split;
    [exact (proj1 (create_sketch_form (server_const HConnErr) "https://ts/api/v1" "case"
                     init_st) None Hn)|].
  split; [exact Hd|].
  exact (proj2 (create_sketch_form (server_const HConnErr) "https://ts/api/v1" "case"
                  init_st) "notes" Hd).
Defined.

(** X3. A connection error is not retried by [create_sketch]: if attempt
    [k] (counted from 0, below the budget of 5) fails to connect after [k]
    retried failures, [create_sketch] raises [ConnectionError] after [k + 1]
    requests, with that request as the last event (no sleep after it). *)
Theorem create_sketch_connection_error (srv : request -> nat -> http_outcome)
    api_root name description k s :
  name <> EmptyString -> (k < DEFAULT_RETRY_COUNT)%nat ->
  (forall r i, (i < k)%nat -> response_failure_create (srv r (ncalls s + i)%nat) = true) ->
  (forall r, srv r (ncalls s + k)%nat = HConnErr) ->
  fst (create_sketch srv api_root name description s) = Exc ConnectionError /\
  ncalls (snd (create_sketch srv api_root name description s)) = (ncalls s + S k)%nat /\
  exists r, ends_with_call (trace (snd (create_sketch srv api_root name description s))) r.
Proof.
  intros Hname Hk Hfail Hc. unfold create_sketch.
  apply String.eqb_neq in Hname. rewrite Hname.
  match goal with
  | |- context [create_sketch_loop srv (seq 0 DEFAULT_RETRY_COUNT) ?u ?f None s] =>
      destruct (create_sketch_loop_conn srv u f k DEFAULT_RETRY_COUNT 0 None s)
        as (H1 & H2 & H3); auto
  end.
  split; [exact H1 | split; [exact H2 | eexists; exact H3]].
Qed.

Lemma create_sketch_connection_error_witness :
  "case" <> EmptyString /\ (2 < DEFAULT_RETRY_COUNT)%nat /\
  fst (create_sketch (fun _ n => if (n <? 2)%nat then HResp 500 None else HConnErr)
         "https://ts/api/v1" "case" None init_st) = Exc ConnectionError /\
  ncalls (snd (create_sketch (fun _ n => if (n <? 2)%nat then HResp 500 None else HConnErr)
                 "https://ts/api/v1" "case" None init_st)) = 3%nat.
Proof.
  assert (Hn : "case" <> EmptyString) by discriminate.
  assert (Hk : (2 < DEFAULT_RETRY_COUNT)%nat) by (unfold DEFAULT_RETRY_COUNT; lia).
  destruct (create_sketch_connection_error
              (fun _ n => if (n <? 2)%nat then HResp 500 None else HConnErr)
              "https://ts/api/v1" "case" None 2 init_st Hn Hk) as (H1 & H2 & _).
  - intros r i Hi. simpl. destruct i as [|[|i]]; [reflexivity | reflexivity | lia].
  - intros r. reflexivity.
  - split; [exact Hn | split; [exact Hk | split; [exact H1 | exact H2]]].
Defined.

(** X4. When every attempt of [create_searchindex] fails in a way it
    retries, the error raised is always [ValueError]: the final
    [RuntimeError] message is built with the format field [{0:s}] on the
    integer [0], which raises first. *)
Theorem create_searchindex_exhausted_value_error (srv : request -> nat -> http_outcome)
    api_root searchindex_name opensearch_index_name s :
  (forall n, transient_create
     (srv (mkreq POST (api_root ++ "/searchindices/")%string
             (JObj [("searchindex_name", JStr searchindex_name);
                    ("es_index_name", JStr opensearch_index_name)])) n) = true) ->
  fst (create_searchindex srv api_root searchindex_name opensearch_index_name s) = Exc ValueError.
Proof.
  intros H. unfold create_searchindex.
  apply (create_searchindex_loop_exhausted srv _ _ H); unfold DEFAULT_RETRY_COUNT; lia.
Qed.

Lemma create_searchindex_exhausted_value_error_witness :
  (forall n, transient_create
     (server_const (HResp 200 (Some (JObj [("objects", JList [])])))
        (mkreq POST ("https://ts/api/v1" ++ "/searchindices/")%string
           (JObj [("searchindex_name", JStr "idx"); ("es_index_name", JStr "os_idx")])) n)
   = true) /\
  fst (create_searchindex (server_const (HResp 200 (Some (JObj [("objects", JList [])]))))
         "https://ts/api/v1" "idx" "os_idx" init_st) = Exc ValueError.
Proof.
  assert (H : forall n, transient_create
     (server_const (HResp 200 (Some (JObj [("objects", JList [])])))
        (mkreq POST ("https://ts/api/v1" ++ "/searchindices/")%string
           (JObj [("searchindex_name", JStr "idx"); ("es_index_name", JStr "os_idx")])) n)
   = true) by (intros n; reflexivity).
  split; [exact H|].
  exact (create_searchindex_exhausted_value_error
           (server_const (HResp 200 (Some (JObj [("objects", JList [])]))))
           "https://ts/api/v1" "idx" "os_idx" init_st H).
Defined.

Lemma post_then_extract_calls (srv : request -> nat -> http_outcome) url fd key f s :
  exists tr,
    appended s (bind (post_objects_loop srv DEFAULT_RETRY_COUNT url fd 0)
                  (fun o => extract_first o key f) s) tr /\
    only_calls (mkreq POST url fd) tr /\ no_sleep tr /\ (length tr <= DEFAULT_RETRY_COUNT)%nat.
Proof.
  destruct (post_objects_loop_calls srv url fd DEFAULT_RETRY_COUNT 0 s)
    as [tr (Htr & H1 & H2 & H3)].
  exists tr. split; [|auto]. unfold appended in *. unfold bind.
  destruct (post_objects_loop srv DEFAULT_RETRY_COUNT url fd 0 s) as [[o|e] s'].
  - rewrite extract_first_pure. exact Htr.
  - exact Htr.
Qed.

(** X5. [create_user] and [create_sigmarule] never sleep between their
    attempts. Every event [create_user] adds to the trace is the POST of
    the credentials to [<api_root>/users/], at most
    [DEFAULT_RETRY_COUNT] = 5 times. [create_sigmarule] first adds only
    the POST of [rule_yaml] to [<api_root>/sigmarules/], at most 5 times
    and with no sleep. Then either it has raised, or the rest of its run
    is [get_sigmarule]'s lookup of a uuid from that state. *)
Theorem create_user_sigmarule_no_backoff (srv : request -> nat -> http_outcome) api_root s :
  (forall username password, exists tr,
     appended s (create_user srv api_root username password s) tr /\
     only_calls (mkreq POST (api_root ++ "/users/")%string
                   (JObj [("username", JStr username); ("password", JStr password)])) tr /\
     no_sleep tr /\ (length tr <= DEFAULT_RETRY_COUNT)%nat) /\
  (forall sigmarule_uri sigmarule_of rule_yaml, exists tr,
     only_calls (mkreq POST (api_root ++ "/sigmarules/")%string
                   (JObj [("rule_yaml", JStr rule_yaml)])) tr /\
     no_sleep tr /\ (length tr <= DEFAULT_RETRY_COUNT)%nat /\
     let s1 := mkst (ncalls s + length tr) (trace s ++ tr) (out s) in
     ((exists e, create_sigmarule srv api_root sigmarule_uri sigmarule_of rule_yaml s = (Exc e, s1))
      \/ exists u, create_sigmarule srv api_root sigmarule_uri sigmarule_of rule_yaml s
                   = get_sigmarule srv api_root sigmarule_uri sigmarule_of u s1)).
Proof.
  split.
  - intros username password. apply post_then_extract_calls with (key := "id") (f := OUser).
  - intros sigmarule_uri sigmarule_of rule_yaml.
    destruct (post_objects_loop_run srv (api_root ++ "/sigmarules/")%string
                (JObj [("rule_yaml", JStr rule_yaml)]) DEFAULT_RETRY_COUNT 0 s)
      as [tr (Hs & Hall & Hns & Hlen)].
    exists tr. split; [exact Hall | split; [exact Hns | split; [exact Hlen|]]].
    cbv zeta. unfold create_sigmarule.
    destruct (post_objects_loop srv DEFAULT_RETRY_COUNT (api_root ++ "/sigmarules/")%string
                (JObj [("rule_yaml", JStr rule_yaml)]) 0 s) as [[o|e] s'] eqn:EL;
      simpl in Hs; subst s'.
    + rewrite (bind_ok _ _ _ _ _ EL).
      set (s1 := mkst (ncalls s + length tr) (trace s ++ tr) (out s)).
      pose proof (pure_getitem_0 o s1) as P0.
      destruct (getitem_0 o s1) as [[f|e] s2] eqn:E0; simpl in P0; subst s2;
        [rewrite (bind_ok _ _ _ _ _ E0) | rewrite (bind_exc _ _ _ _ _ E0); left; eauto].
      pose proof (pure_getitem_str f "rule_uuid" s1) as P1.
      destruct (getitem_str f "rule_uuid" s1) as [[u|e] s2] eqn:E1; simpl in P1; subst s2;
        [rewrite (bind_ok _ _ _ _ _ E1); right; eauto
        | rewrite (bind_exc _ _ _ _ _ E1); left; eauto].
    + rewrite (bind_exc _ _ _ _ _ EL). left. eauto.
Qed.

Lemma pure_ret {A} (a : A) : pure_m (ret a).
Proof. intros s. reflexivity. Qed.

Lemma pure_bind {A B} (m : M A) (k : A -> M B) :
  pure_m m -> (forall a, pure_m (k a)) -> pure_m (bind m k).
Proof.
  intros Hm Hk s. unfold bind. specialize (Hm s).
  destruct (m s) as [[a|e] s']; simpl in *; subst; [apply Hk | reflexivity].
Qed.

Lemma pure_dict_get d k default : pure_m (dict_get d k default).
Proof. intros s. destruct d; reflexivity. Qed.

Lemma pure_py_iter x : pure_m (py_iter x).
Proof. intros s. destruct x; reflexivity. Qed.

Lemma pure_map_m {A B} (f : A -> M B) l : (forall x, pure_m (f x)) -> pure_m (map_m f l).
Proof.
  intros Hf. induction l as [|x l IH]; simpl; [apply pure_ret|].
  apply pure_bind; [apply Hf | intros y; apply pure_bind; [exact IH | intros; apply pure_ret]].
Qed.

Lemma pure_aggregator_fields i fields : pure_m (aggregator_fields i fields).
Proof.
  revert i. induction fields as [|f fields IH]; intros i; simpl; [apply pure_ret|].
  repeat (apply pure_bind; [first [apply pure_dict_get | apply IH] | intros ?]).
  apply pure_ret.
Qed.

Lemma pure_aggregator_line line : pure_m (aggregator_line line).
Proof.
  unfold aggregator_line.
  repeat (apply pure_bind;
          [first [apply pure_dict_get | apply pure_py_iter | apply pure_aggregator_fields]
          | intros ?]).
  apply pure_ret.
Qed.

Lemma get_response_json_pure resp : pure_m (get_response_json resp).
Proof.
  intros s. destruct resp as [status [j|]]; unfold get_response_json;
    destruct (is_20x status); reflexivity.
Qed.

Lemma get_ok_truthy o j : get_ok o = Some j -> truthy j = true.
Proof.
  destruct o as [|status [j'|]]; simpl; try discriminate.
  destruct (is_20x status) eqn:E1, (truthy j') eqn:E2; simpl; try discriminate.
  intros H. injection H as <-. exact E2.
Qed.

Lemma bind_pure_snd {A B} (m : M A) (k : A -> M B) s :
  (forall a, pure_m (k a)) -> snd (bind m k s) = snd (m s).
Proof.
  intros Hk. unfold bind. destruct (m s) as [[a|e] s']; [apply Hk | reflexivity].
Qed.

Lemma bind_fst_exc {A B} (m : M A) (k : A -> M B) s e :
  fst (m s) = Exc e -> fst (bind m k s) = Exc e.
Proof. unfold bind. destruct (m s) as [[a|e'] s']; simpl; congruence. Qed.

Lemma list_sigmarules_loop_rules rules acc s :
  Forall (fun r => r <> []) rules ->
  list_sigmarules_loop (map JObj rules) acc s = (Ok (acc ++ rules), s).
Proof.
  revert acc. induction rules as [|r rules IH]; intros acc Hr.
  - simpl. rewrite app_nil_r. reflexivity.
  - inversion Hr as [|? ? Hne Hrest]; subst. cbn [map list_sigmarules_loop].
    destruct r as [|kv r]; [congruence|]. simpl. unfold bind, ret.
    rewrite IH by exact Hrest. rewrite <- app_assoc. reflexivity.
Qed.

Lemma list_sigmarules_loop_falsy pre e post acc s :
  Forall (fun r => r <> []) pre -> truthy e = false ->
  list_sigmarules_loop (map JObj pre ++ e :: post) acc s = (Exc ValueError, s).
Proof.
  revert acc. induction pre as [|r pre IH]; intros acc Hr He.
  - simpl. rewrite He. reflexivity.
  - inversion Hr as [|? ? Hne Hrest]; subst. cbn [map app list_sigmarules_loop].
    destruct r as [|kv r]; [congruence|]. simpl. unfold bind at 1, ret at 1.
    apply IH; assumption.
Qed.

Lemma for_each_indices items objs s :
  Forall2 index_of items objs ->
  for_each items (fun index_dict =>
      index_id <- getitem_str index_dict "id" ;;
      index_name <- getitem_str index_dict "name" ;;
      yield (OSearchIndex index_id index_name)) s
  = (Ok tt, mkst (ncalls s) (trace s) (out s ++ objs)).
Proof.
  intros H. revert s. induction H as [|d o items objs Hd Hrest IH]; intros s.
  - simpl. rewrite app_nil_r. destruct s; reflexivity.
  - destruct Hd as (kvs & i & n & -> & Hi & Hn & ->).
    cbn [for_each]. unfold bind at 1. simpl. rewrite Hi, Hn. simpl.
    rewrite IH. simpl. rewrite <- app_assoc. reflexivity.
Qed.

Lemma aggregator_fields_columns i fields s :
  Forall (fun f => exists fkvs, f = JObj fkvs) fields ->
  exists cols, aggregator_fields i fields s = (Ok cols, s) /\
  map fst cols = flat_map (fun i => [("field_" ++ string_of_nat i ++ "_name")%string;
                                     ("field_" ++ string_of_nat i ++ "_description")%string])
                   (seq (S i) (length fields)).
Proof.
  revert i. induction fields as [|f fields IH]; intros i Hf.
  - exists []. split; reflexivity.
  - inversion Hf as [|? ? [fkvs ->] Hrest]; subst.
    destruct (IH (S i) Hrest) as [cols [Hc Hm]].
    eexists. split.
    + simpl. unfold bind at 1 2 3. simpl. rewrite Hc. reflexivity.
    + simpl. rewrite Hm. reflexivity.
Qed.

Lemma aggregator_line_row line s :
  aggregator_line_ok line ->
  exists row, aggregator_line line s = (Ok row, s) /\
  map fst row = "name" :: "description" :: aggregator_columns (aggregator_nfields line) /\
  exists kvs, line = JObj kvs /\
  firstn 2 (map snd row) = [get_or kvs "name" (JStr "N/A"); get_or kvs "description" (JStr "N/A")].
Proof.
  intros (kvs & -> & Hf). unfold aggregator_line, aggregator_nfields, aggregator_columns.
  destruct (assoc "fields" kvs) as [fields|] eqn:E.
  - destruct fields as [| | | | fields |]; try contradiction.
    destruct (aggregator_fields_columns 0 fields s Hf) as [cols [Hc Hm]].
    eexists. split.
    + unfold bind. simpl. rewrite E. simpl. rewrite Hc. reflexivity.
    + split; [simpl; rewrite Hm; reflexivity|]. exists kvs. split; reflexivity.
  - eexists. split.
    + unfold bind. simpl. rewrite E. reflexivity.
    + split; [reflexivity|]. exists kvs. split; reflexivity.
Qed.

Lemma aggregator_rows lines s :
  Forall aggregator_line_ok lines ->
  exists rows, map_m aggregator_line lines s = (Ok rows, s) /\
  Forall2 aggregator_row lines rows.
Proof.
  induction lines as [|line lines IH]; intros Hl.
  - exists []. split; [reflexivity | constructor].
  - inversion Hl as [|? ? H1 Hrest]; subst.
    destruct (aggregator_line_row line s H1) as [row [Hr Hrow]].
    destruct (IH Hrest) as [rows [Hrs Hall]].
    exists (row :: rows). split.
    + simpl. unfold bind. rewrite Hr, Hrs. reflexivity.
    + constructor; assumption.
Qed.

(** X6. [check_celery_status(job_id)] sends one GET, to
    [<api_root>/tasks/?job_id=<job_id>], or to [<api_root>/tasks/] when
    [job_id] is empty. On a dict answer it returns its [objects], or [[]]
    when the key is absent; on any other answer (a list, a string, ...)
    [.get] raises [AttributeError]. *)
Theorem check_celery_status_objects (srv : request -> nat -> http_outcome) api_root job_id s j :
  get_ok (srv (mkreq GET (api_root ++ "/tasks/"
                          ++ (if String.eqb job_id EmptyString then EmptyString
                              else "?job_id=" ++ job_id))%string JNull) (ncalls s)) = Some j ->
  appended s (check_celery_status srv api_root job_id s)
    [ECall (mkreq GET (api_root ++ "/tasks/"
                       ++ (if String.eqb job_id EmptyString then EmptyString
                           else "?job_id=" ++ job_id))%string JNull)] /\
  fst (check_celery_status srv api_root job_id s)
  = match j with
    | JObj kvs => Ok (get_or kvs "objects" (JList []))
    | _ => Exc AttributeError
    end.
Proof.
  unfold check_celery_status, appended.
  destruct (String.eqb job_id EmptyString); cbn [negb]; intros H.
  - assert (H' : get_ok (srv (mkreq GET (api_root ++ "/" ++ "tasks/")%string JNull) (ncalls s))
                 = Some j) by exact H.
    rewrite (bind_ok _ _ _ _ _ (fetch_resource_data_first _ _ _ _ _ _ H')).
    destruct j; split; reflexivity.
  - assert (H' : get_ok (srv (mkreq GET (api_root ++ "/" ++ ("tasks/?job_id=" ++ job_id))%string
                                JNull) (ncalls s)) = Some j) by exact H.
    rewrite (bind_ok _ _ _ _ _ (fetch_resource_data_first _ _ _ _ _ _ H')).
    destruct j; split; reflexivity.
Qed.

Lemma check_celery_status_objects_witness :
  get_ok (server_const (HResp 200 (Some (JObj [("meta", JObj [])])))
            (mkreq GET ("https://ts/api/v1" ++ "/tasks/"
                        ++ (if String.eqb "42" EmptyString then EmptyString
                            else "?job_id=" ++ "42"))%string JNull) 0%nat)
  = Some (JObj [("meta", JObj [])]) /\
  fst (check_celery_status (server_const (HResp 200 (Some (JObj [("meta", JObj [])]))))
         "https://ts/api/v1" "42" init_st) = Ok (JList []).
Proof.
  assert (H : get_ok (server_const (HResp 200 (Some (JObj [("meta", JObj [])])))
            (mkreq GET ("https://ts/api/v1" ++ "/tasks/"
                        ++ (if String.eqb "42" EmptyString then EmptyString
                            else "?job_id=" ++ "42"))%string JNull) 0%nat)
              = Some (JObj [("meta", JObj [])])) by reflexivity.
  split; [exact H|].
  exact (proj2 (check_celery_status_objects
                  (server_const (HResp 200 (Some (JObj [("meta", JObj [])]))))
                  "https://ts/api/v1" "42" init_st (JObj [("meta", JObj [])]) H)).
Defined.

(** X7. The [version] property on a dict answer of [<api_root>/version/]:
    with a non-empty string [meta.version] it is
    ["API Client: <client>\nTS Backend: <version>"]; without a [meta] key,
    or with a [meta] dict whose [version] is absent or falsy, it is
    ["API Client: <client>"]; with a non-zero number as [meta.version] the
    [{1:s}] format raises [ValueError]. *)
Theorem version_string (srv : request -> nat -> http_outcome) api_root client_version s kvs :
  get_ok (srv (mkreq GET (api_root ++ "/version/")%string JNull) (ncalls s)) = Some (JObj kvs) ->
  (forall mkvs v, assoc "meta" kvs = Some (JObj mkvs) -> assoc "version" mkvs = Some (JStr v) ->
     v <> EmptyString ->
     fst (version srv api_root client_version s)
     = Ok ("API Client: " ++ client_version ++ newline ++ "TS Backend: " ++ v)%string) /\
  (assoc "meta" kvs = None ->
     fst (version srv api_root client_version s) = Ok ("API Client: " ++ client_version)%string) /\
  (forall mkvs, assoc "meta" kvs = Some (JObj mkvs) ->
     truthy (get_or mkvs "version" JNull) = false ->
     fst (version srv api_root client_version s) = Ok ("API Client: " ++ client_version)%string) /\
  (forall mkvs z, assoc "meta" kvs = Some (JObj mkvs) -> assoc "version" mkvs = Some (JNum z) ->
     z <> 0 -> fst (version srv api_root client_version s) = Exc ValueError).
Proof.
  intros H. pose proof (get_ok_truthy _ _ H) as Ht.
  assert (H' : get_ok (srv (mkreq GET (api_root ++ "/" ++ "version/")%string JNull) (ncalls s))
               = Some (JObj kvs)) by exact H.
  unfold version. rewrite (bind_ok _ _ _ _ _ (fetch_resource_data_first _ _ _ _ _ _ H')).
  rewrite Ht. unfold bind, dict_get, ret, raise, get_or.
  repeat split.
  - intros mkvs v Hm Hv Hne. rewrite Hm, Hv. apply String.eqb_neq in Hne.
    cbn [truthy]. rewrite Hne. reflexivity.
  - intros Hm. rewrite Hm. reflexivity.
  - intros mkvs Hm Hv. rewrite Hm. rewrite Hv. reflexivity.
  - intros mkvs z Hm Hv Hz. rewrite Hm, Hv. apply Z.eqb_neq in Hz.
    cbn [truthy]. rewrite Hz. reflexivity.
Qed.

Lemma version_string_witness :
  get_ok (server_const (HResp 200 (Some (JObj [("meta", JObj [("version", JStr "20240101")])])))
            (mkreq GET ("https://ts/api/v1" ++ "/version/")%string JNull) 0%nat)
  = Some (JObj [("meta", JObj [("version", JStr "20240101")])]) /\
  fst (version (server_const (HResp 200 (Some (JObj [("meta", JObj [("version", JStr "20240101")])]))))
         "https://ts/api/v1" "1.0" init_st)
  = Ok ("API Client: " ++ "1.0" ++ newline ++ "TS Backend: " ++ "20240101")%string /\
  fst (version (server_const (HResp 200 (Some (JObj [("meta", JObj [("version", JNum 2)])]))))
         "https://ts/api/v1" "1.0" init_st) = Exc ValueError.
Proof.
  assert (H : get_ok (server_const (HResp 200 (Some (JObj [("meta", JObj [("version", JStr "20240101")])])))
            (mkreq GET ("https://ts/api/v1" ++ "/version/")%string JNull) 0%nat)
              = Some (JObj [("meta", JObj [("version", JStr "20240101")])])) by reflexivity.
  split; [exact H|]. split.
  - exact (proj1 (version_string _ "https://ts/api/v1" "1.0" init_st _ H)
             [("version", JStr "20240101")] "20240101" eq_refl eq_refl ltac:(discriminate)).
  - exact (proj2 (proj2 (proj2 (version_string
             (server_const (HResp 200 (Some (JObj [("meta", JObj [("version", JNum 2)])]))))
             "https://ts/api/v1" "1.0" init_st _ eq_refl)))
             [("version", JNum 2)] 2 eq_refl eq_refl ltac:(discriminate)).
Defined.

(** X8. [get_aggregator_info] with a name sends exactly one POST of
    [{"aggregator": name}] to [<api_root>/aggregation/info/], with no
    retry and no sleep, whatever the answer. A connection error, a status
    outside 20x or a body that is not JSON is raised at once, with the
    class [fetch_resource_data] would use; a 20x JSON body is returned as
    it is (without [as_pandas]), even when it is falsy. *)
Theorem get_aggregator_info_named (srv : request -> nat -> http_outcome) api_root name as_pandas s :
  name <> EmptyString ->
  appended s (get_aggregator_info srv api_root name as_pandas s)
    [ECall (mkreq POST (api_root ++ "/" ++ "aggregation/info/")%string
              (JObj [("aggregator", JStr name)]))] /\
  ncalls (snd (get_aggregator_info srv api_root name as_pandas s)) = S (ncalls s) /\
  (hard_failure (srv (mkreq POST (api_root ++ "/" ++ "aggregation/info/")%string
                        (JObj [("aggregator", JStr name)])) (ncalls s)) = true ->
   fst (get_aggregator_info srv api_root name as_pandas s)
   = Exc (get_failure_exc (srv (mkreq POST (api_root ++ "/" ++ "aggregation/info/")%string
                                  (JObj [("aggregator", JStr name)])) (ncalls s)))) /\
  (forall status j,
   srv (mkreq POST (api_root ++ "/" ++ "aggregation/info/")%string
          (JObj [("aggregator", JStr name)])) (ncalls s) = HResp status (Some j) ->
   is_20x status = true -> as_pandas = false ->
   fst (get_aggregator_info srv api_root name as_pandas s) = Ok (AggJson j)).
Proof.
  intros Hn. apply String.eqb_neq in Hn.
  assert (E : snd (get_aggregator_info srv api_root name as_pandas s)
              = snd (http srv (mkreq POST (api_root ++ "/" ++ "aggregation/info/")%string
                                 (JObj [("aggregator", JStr name)])) s)).
  { unfold get_aggregator_info. rewrite Hn. cbn [negb].
    rewrite bind_pure_snd.
    - rewrite bind_pure_snd; [reflexivity | intros; apply get_response_json_pure].
    - intros a. cbv beta zeta. destruct as_pandas; cbn [negb]; [|apply pure_ret].
      apply pure_bind; [apply pure_py_iter | intros items].
      apply pure_bind; [apply pure_map_m; apply pure_aggregator_line | intros; apply pure_ret]. }
  unfold appended. rewrite E. unfold http at 1 2.
  unfold get_aggregator_info. rewrite Hn. cbn [negb]. cbv zeta.
  split; [|split].
  - destruct (srv (mkreq POST (api_root ++ "/" ++ "aggregation/info/")%string
                  (JObj [("aggregator", JStr name)])) (ncalls s)); reflexivity.
  - destruct (srv (mkreq POST (api_root ++ "/" ++ "aggregation/info/")%string
                  (JObj [("aggregator", JStr name)])) (ncalls s)); reflexivity.
  - split.
    + intros Hh. apply bind_fst_exc. unfold bind, http.
      destruct (srv (mkreq POST (api_root ++ "/" ++ "aggregation/info/")%string
                  (JObj [("aggregator", JStr name)])) (ncalls s)) as [|status [j|]]; simpl in Hh |- *; [reflexivity| |];
        unfold get_response_json; destruct (is_20x status); simpl in Hh |- *;
        try discriminate; reflexivity.
    + intros status j Hs H20 Hp. subst as_pandas. unfold bind, http. rewrite Hs.
      unfold get_response_json. rewrite H20. reflexivity.
Qed.

Lemma get_aggregator_info_named_witness :
  "top_terms" <> EmptyString /\
  fst (get_aggregator_info (server_const (HResp 200 (Some (JList []))))
         "https://ts/api/v1" "top_terms" false init_st) = Ok (AggJson (JList [])) /\
  ncalls (snd (get_aggregator_info (server_const (HResp 502 None))
                 "https://ts/api/v1" "top_terms" false init_st)) = 1%nat.
Proof.
  assert (Hn : "top_terms" <> EmptyString) by discriminate.
  split; [exact Hn|]. split.
  - exact (proj2 (proj2 (proj2 (get_aggregator_info_named
             (server_const (HResp 200 (Some (JList [])))) "https://ts/api/v1" "top_terms" false
             init_st Hn))) 200 (JList []) eq_refl eq_refl eq_refl).
  - exact (proj1 (proj2 (get_aggregator_info_named (server_const (HResp 502 None))
             "https://ts/api/v1" "top_terms" false init_st Hn))).
Defined.

(** X9. [get_aggregator_info(as_pandas=True)] without a name gives one row
    per aggregator: a dict answer is a single row, a list answer one row
    per item, in order. Each row has the columns [name] and [description]
    (["N/A"] when the key is absent), then [field_<i>_name] and
    [field_<i>_description] for the [i]-th field, from 1. *)
Theorem get_aggregator_info_frame (srv : request -> nat -> http_outcome) api_root s j lines :
  get_ok (srv (mkreq GET (api_root ++ "/" ++ "aggregation/info/")%string JNull) (ncalls s))
  = Some j ->
  (j = JList lines \/ (lines = [j] /\ exists kvs, j = JObj kvs)) ->
  Forall aggregator_line_ok lines ->
  exists rows, fst (get_aggregator_info srv api_root EmptyString true s) = Ok (AggFrame rows) /\
               Forall2 aggregator_row lines rows.
Proof.
  intros H Hj Hl. unfold get_aggregator_info. cbn [String.eqb negb]. cbv zeta.
  rewrite (bind_ok _ _ _ _ _ (fetch_resource_data_first _ _ _ _ _ _ H)). cbn [negb].
  destruct (aggregator_rows lines
              (mkst (S (ncalls s))
                 (trace s ++ [ECall (mkreq GET (api_root ++ "/" ++ "aggregation/info/")%string JNull)])
                 (out s)) Hl) as [rows [Hr Hall]].
  exists rows. split; [|exact Hall].
  destruct Hj as [-> | [-> [kvs ->]]]; unfold bind, py_iter, ret; rewrite Hr; reflexivity.
Qed.

Lemma get_aggregator_info_frame_witness :
  exists rows,
  fst (get_aggregator_info
         (server_const (HResp 200 (Some (JObj [("name", JStr "top_terms");
                                              ("fields", JList [JObj [("name", JStr "field")]])]))))
         "https://ts/api/v1" EmptyString true init_st) = Ok (AggFrame rows) /\
  Forall2 aggregator_row [JObj [("name", JStr "top_terms");
                                ("fields", JList [JObj [("name", JStr "field")]])]] rows.
Proof.
  refine (get_aggregator_info_frame
            (server_const (HResp 200 (Some (JObj [("name", JStr "top_terms");
                                                 ("fields", JList [JObj [("name", JStr "field")]])]))))
            "https://ts/api/v1" init_st
            (JObj [("name", JStr "top_terms"); ("fields", JList [JObj [("name", JStr "field")]])])
            [JObj [("name", JStr "top_terms"); ("fields", JList [JObj [("name", JStr "field")]])]]
            eq_refl _ _).
  - right. split; [reflexivity | eexists; reflexivity].
  - constructor; [|constructor].
    eexists. split; [reflexivity|]. simpl. constructor; [eexists; reflexivity | constructor].
Defined.

(** X10. [list_sigmarules()] on a dict answer of [<api_root>/sigmarules/]:
    without an [objects] key it raises [KeyError]; when [objects] is a list
    of non-empty dicts it returns one rule per dict, in order, each set
    from the dict's key/value pairs in order, so [{"objects": []}] gives
    [[]] rather than the documented [ValueError]; an empty entry after
    non-empty dicts raises [ValueError]. *)
Theorem list_sigmarules_rules (srv : request -> nat -> http_outcome) api_root s kvs :
  get_ok (srv (mkreq GET (api_root ++ "/" ++ "sigmarules/")%string JNull) (ncalls s))
  = Some (JObj kvs) ->
  (assoc "objects" kvs = None ->
   fst (list_sigmarules srv api_root false s) = Exc KeyError) /\
  (forall rules, assoc "objects" kvs = Some (JList (map JObj rules)) ->
   Forall (fun r => r <> []) rules ->
   fst (list_sigmarules srv api_root false s) = Ok (Rules rules)) /\
  (forall pre e post, assoc "objects" kvs = Some (JList (map JObj pre ++ e :: post)) ->
   Forall (fun r => r <> []) pre -> truthy e = false ->
   fst (list_sigmarules srv api_root false s) = Exc ValueError).
Proof.
  intros H. pose proof (get_ok_truthy _ _ H) as Ht.
  unfold list_sigmarules. rewrite (bind_ok _ _ _ _ _ (fetch_resource_data_first _ _ _ _ _ _ H)).
  rewrite Ht. cbn [negb]. unfold getitem_str.
  split; [|split].
  - intros Ho. rewrite Ho. reflexivity.
  - intros rules Ho Hr. rewrite Ho. unfold bind, py_iter, ret.
    cbv beta iota zeta. rewrite list_sigmarules_loop_rules by exact Hr. reflexivity.
  - intros pre e post Ho Hp He. rewrite Ho. unfold bind, py_iter, ret.
    cbv beta iota zeta. rewrite list_sigmarules_loop_falsy by assumption. reflexivity.
Qed.

Lemma list_sigmarules_rules_witness :
  fst (list_sigmarules (server_const (HResp 200 (Some (JObj [("objects", JList [])]))))
         "https://ts/api/v1" false init_st) = Ok (Rules []) /\
  fst (list_sigmarules
         (server_const (HResp 200 (Some (JObj [("objects", JList [JObj [("title", JStr "t")]; JObj []])]))))
         "https://ts/api/v1" false init_st) = Exc ValueError.
Proof.
  split.
  - exact (proj1 (proj2 (list_sigmarules_rules
             (server_const (HResp 200 (Some (JObj [("objects", JList [])]))))
             "https://ts/api/v1" init_st [("objects", JList [])] eq_refl)) [] eq_refl (Forall_nil _)).
  - assert (Hp : Forall (fun r : list (string * json) => r <> []) [[("title", JStr "t")]])
      by (constructor; [discriminate | constructor]).
    exact (proj2 (proj2 (list_sigmarules_rules
             (server_const (HResp 200 (Some (JObj [("objects", JList [JObj [("title", JStr "t")]; JObj []])]))))
             "https://ts/api/v1" init_st _ eq_refl))
             [[("title", JStr "t")]] (JObj []) [] eq_refl
             Hp eq_refl).
Defined.

(** X11. [list_searchindices()] on a dict answer whose [objects] is a list
    with a list [items] of index dicts first yields one [SearchIndex] per
    dict, in order, from its [id] and [name]; an empty [objects[0]], as in
    [{"objects": [[]]}], yields nothing (not [None]). *)
Theorem list_searchindices_entries (srv : request -> nat -> http_outcome) api_root s kvs
    items rest objs :
  get_ok (srv (mkreq GET (api_root ++ "/" ++ "searchindices/")%string JNull) (ncalls s))
  = Some (JObj kvs) ->
  assoc "objects" kvs = Some (JList (JList items :: rest)) ->
  Forall2 index_of items objs ->
  fst (list_searchindices srv api_root s) = Ok tt /\
  out (snd (list_searchindices srv api_root s)) = out s ++ objs.
Proof.
  intros H Ho Hi. unfold list_searchindices.
  rewrite (bind_ok _ _ _ _ _ (fetch_resource_data_first _ _ _ _ _ _ H)).
  rewrite (bind_ok (dict_get (JObj kvs) "objects" JNull) _ _ (JList (JList items :: rest)) _)
    by (unfold dict_get; rewrite Ho; reflexivity).
  cbn [truthy negb].
  rewrite (bind_ok (getitem_0 (JList (JList items :: rest))) _ _ (JList items) _ eq_refl).
  rewrite (bind_ok (py_iter (JList items)) _ _ items _ eq_refl).
  rewrite (for_each_indices items objs _ Hi). split; reflexivity.
Qed.

Lemma list_searchindices_entries_witness :
  fst (list_searchindices
         (server_const (HResp 200 (Some (JObj [("objects", JList [JList [JObj [("id", JNum 1); ("name", JStr "logs")]]])]))))
         "https://ts/api/v1" init_st) = Ok tt /\
  out (snd (list_searchindices
         (server_const (HResp 200 (Some (JObj [("objects", JList [JList [JObj [("id", JNum 1); ("name", JStr "logs")]]])]))))
         "https://ts/api/v1" init_st)) = [OSearchIndex (JNum 1) (JStr "logs")].
Proof.
  assert (Hi : Forall2 index_of [JObj [("id", JNum 1); ("name", JStr "logs")]]
                 [OSearchIndex (JNum 1) (JStr "logs")])
    by (constructor; [do 3 eexists; repeat split; reflexivity | constructor]).
  exact (list_searchindices_entries
           (server_const (HResp 200 (Some (JObj [("objects", JList [JList [JObj [("id", JNum 1); ("name", JStr "logs")]]])]))))
           "https://ts/api/v1" init_st _ _ [] _ eq_refl eq_refl Hi).
Defined.

Lemma header_get_set_eq h k v : header_get (header_set h k v) k = Some v.
Proof.
  induction h as [|[k' v'] h IH]; simpl.
  - rewrite String.eqb_refl. reflexivity.
  - destruct (String.eqb (str_lower k) (str_lower k')) eqn:E; simpl.
    + rewrite String.eqb_refl. reflexivity.
    + rewrite E. exact IH.
Qed.

Lemma header_get_set_neq h k v k2 :
  str_lower k2 <> str_lower k -> header_get (header_set h k v) k2 = header_get h k2.
Proof.
  intros Hne. apply String.eqb_neq in Hne.
  induction h as [|[k' v'] h IH]; simpl.
  - rewrite Hne. reflexivity.
  - destruct (String.eqb (str_lower k) (str_lower k')) eqn:E; simpl.
    + apply String.eqb_eq in E. rewrite Hne, <- E, Hne. reflexivity.
    + destruct (String.eqb (str_lower k2) (str_lower k')); [reflexivity | exact IH].
Qed.

Section SessionRuns.

Variable srv : request -> nat -> http_outcome.
Variable host_uri : string.
Variable csrf_input csrf_meta : request -> nat -> option (option string).

Lemma set_csrf_token_run sess s :
  srv (mkreq GET host_uri JNull) (ncalls s) <> HConnErr ->
  exists sess',
    _set_csrf_token srv host_uri csrf_input csrf_meta sess s
    = (Ok sess', mkst (S (ncalls s)) (trace s ++ [ECall (mkreq GET host_uri JNull)]) (out s)) /\
    auth sess' = auth sess /\ verify sess' = verify sess.
Proof.
  intros Hc. unfold _set_csrf_token, http.
  destruct (srv (mkreq GET host_uri JNull) (ncalls s)) as [|status body]; [congruence|].
  destruct (match csrf_input (mkreq GET host_uri JNull) (ncalls s) with
            | Some value => value
            | None => match csrf_meta (mkreq GET host_uri JNull) (ncalls s) with
                      | Some content => content | None => None end
            end) as [t|];
    [destruct (String.eqb t EmptyString)|]; eexists; split; try reflexivity; split; reflexivity.
Qed.

Lemma set_csrf_token_conn sess s :
  srv (mkreq GET host_uri JNull) (ncalls s) = HConnErr ->
  _set_csrf_token srv host_uri csrf_input csrf_meta sess s
  = (Exc ConnectionError,
     mkst (S (ncalls s)) (trace s ++ [ECall (mkreq GET host_uri JNull)]) (out s)).
Proof. intros Hc. unfold _set_csrf_token, http. rewrite Hc. reflexivity. Qed.

End SessionRuns.

Lemma create_session_userpass_run (srv : request -> nat -> http_outcome) host_uri csrf_input
    csrf_meta create_oauth username password verify_cert client_id client_secret s :
  srv (mkreq GET host_uri JNull) (ncalls s) <> HConnErr ->
  exists sess,
  _create_session srv host_uri csrf_input csrf_meta create_oauth username password verify_cert
    client_id client_secret "userpass" s
  = (match srv (mkreq POST (host_uri ++ "/login/")%string
                  (JObj [("username", JStr username); ("password", JStr password)]))
             (S (ncalls s)) with
     | HConnErr => Exc ConnectionError
     | HResp _ _ => Ok sess
     end,
     mkst (S (S (ncalls s)))
       (trace s ++ [ECall (mkreq GET host_uri JNull);
                    ECall (mkreq POST (host_uri ++ "/login/")%string
                             (JObj [("username", JStr username); ("password", JStr password)]))])
       (out s)).
Proof.
  intros Hc. unfold _create_session.
  cbn [String.eqb Ascii.eqb Bool.eqb andb negb]. cbv zeta.
  match goal with
  | |- context [_set_csrf_token srv host_uri csrf_input csrf_meta ?sess] =>
      destruct (set_csrf_token_run srv host_uri csrf_input csrf_meta sess s Hc)
        as [sess' [Heq _]]
  end.
  exists sess'. rewrite (bind_ok _ _ _ _ _ Heq). cbn [String.eqb Ascii.eqb Bool.eqb andb].
  unfold bind, ret, _authenticate_session, bind, http. cbn [ncalls trace out].
  destruct (srv _ (S (ncalls s))); rewrite <- app_assoc; reflexivity.
Qed.

Lemma create_session_userpass_conn (srv : request -> nat -> http_outcome) host_uri csrf_input
    csrf_meta create_oauth username password verify_cert client_id client_secret s :
  srv (mkreq GET host_uri JNull) (ncalls s) = HConnErr ->
  fst (_create_session srv host_uri csrf_input csrf_meta create_oauth username password
         verify_cert client_id client_secret "userpass" s) = Exc ConnectionError.
Proof.
  intros Hc. unfold _create_session.
  cbn [String.eqb Ascii.eqb Bool.eqb andb negb]. cbv zeta.
  unfold bind at 1. rewrite set_csrf_token_conn by exact Hc. reflexivity.
Qed.

(** X12. [_create_session] outside the OAuth modes sends a GET to the
    host for the CSRF token, then, for ["userpass"] only, the POST of the
    credentials to [<host>/login/]. Only ["http-basic"] sets [auth], to
    [(username, password)]; any other mode, unknown ones included, leaves
    the session without credentials and sends no login. [verify] is kept
    in every case. *)
Theorem _create_session_modes (srv : request -> nat -> http_outcome) host_uri csrf_input csrf_meta
    create_oauth username password verify_cert client_id client_secret s :
  srv (mkreq GET host_uri JNull) (ncalls s) <> HConnErr ->
  (appended s (_create_session srv host_uri csrf_input csrf_meta create_oauth username password
                 verify_cert client_id client_secret "http-basic" s)
     [ECall (mkreq GET host_uri JNull)] /\
   exists sess, fst (_create_session srv host_uri csrf_input csrf_meta create_oauth username
                       password verify_cert client_id client_secret "http-basic" s) = Ok sess /\
   auth sess = Some (username, password) /\ verify sess = verify_cert) /\
  (appended s (_create_session srv host_uri csrf_input csrf_meta create_oauth username password
                 verify_cert client_id client_secret "userpass" s)
     [ECall (mkreq GET host_uri JNull);
      ECall (mkreq POST (host_uri ++ "/login/")%string
               (JObj [("username", JStr username); ("password", JStr password)]))] /\
   (srv (mkreq POST (host_uri ++ "/login/")%string
           (JObj [("username", JStr username); ("password", JStr password)])) (S (ncalls s))
    <> HConnErr ->
    exists sess, fst (_create_session srv host_uri csrf_input csrf_meta create_oauth username
                        password verify_cert client_id client_secret "userpass" s) = Ok sess /\
    auth sess = None /\ verify sess = verify_cert)) /\
  (forall auth_mode, ~ In auth_mode ["oauth"; "oauth_local"; "http-basic"; "userpass"] ->
   appended s (_create_session srv host_uri csrf_input csrf_meta create_oauth username password
                 verify_cert client_id client_secret auth_mode s)
     [ECall (mkreq GET host_uri JNull)] /\
   exists sess, fst (_create_session srv host_uri csrf_input csrf_meta create_oauth username
                       password verify_cert client_id client_secret auth_mode s) = Ok sess /\
   auth sess = None /\ verify sess = verify_cert).
Proof.
  intros Hc. unfold _create_session, appended.
  split; [|split].
  - cbn [String.eqb Ascii.eqb Bool.eqb andb negb]. cbv zeta.
    match goal with
    | |- context [_set_csrf_token srv host_uri csrf_input csrf_meta ?sess] =>
        destruct (set_csrf_token_run srv host_uri csrf_input csrf_meta sess s Hc)
          as [sess' [Heq [Ha Hv]]]
    end.
    rewrite (bind_ok _ _ _ _ _ Heq). cbn [String.eqb Ascii.eqb Bool.eqb andb].
    unfold bind, ret. split; [reflexivity|].
    exists sess'. split; [reflexivity|].
    rewrite Ha, Hv. destruct verify_cert; split; reflexivity.
  - cbn [String.eqb Ascii.eqb Bool.eqb andb negb]. cbv zeta.
    match goal with
    | |- context [_set_csrf_token srv host_uri csrf_input csrf_meta ?sess] =>
        destruct (set_csrf_token_run srv host_uri csrf_input csrf_meta sess s Hc)
          as [sess' [Heq [Ha Hv]]]
    end.
    rewrite (bind_ok _ _ _ _ _ Heq). cbn [String.eqb Ascii.eqb Bool.eqb andb].
    unfold bind, ret, _authenticate_session, bind, http. cbn [ncalls trace out].
    split.
    + destruct (srv _ (S (ncalls s))); simpl; rewrite <- app_assoc; reflexivity.
    + intros Hl. destruct (srv _ (S (ncalls s))) as [|status body]; [congruence|].
      exists sess'. split; [reflexivity|].
      rewrite Ha, Hv. destruct verify_cert; split; reflexivity.
  - intros auth_mode Hm.
    assert (E1 : String.eqb auth_mode "oauth" = false)
      by (apply String.eqb_neq; intros ->; apply Hm; simpl; auto).
    assert (E2 : String.eqb auth_mode "oauth_local" = false)
      by (apply String.eqb_neq; intros ->; apply Hm; simpl; auto).
    assert (E3 : String.eqb auth_mode "http-basic" = false)
      by (apply String.eqb_neq; intros ->; apply Hm; simpl; auto).
    assert (E4 : String.eqb auth_mode "userpass" = false)
      by (apply String.eqb_neq; intros ->; apply Hm; simpl; auto).
    rewrite E1, E2, E3. cbv zeta.
    match goal with
    | |- context [_set_csrf_token srv host_uri csrf_input csrf_meta ?sess] =>
        destruct (set_csrf_token_run srv host_uri csrf_input csrf_meta sess s Hc)
          as [sess' [Heq [Ha Hv]]]
    end.
    rewrite (bind_ok _ _ _ _ _ Heq). rewrite E4.
    unfold bind, ret. split; [reflexivity|].
    exists sess'. split; [reflexivity|].
    rewrite Ha, Hv. destruct verify_cert; split; reflexivity.
Qed.

Lemma _create_session_modes_witness :
  server_const (HResp 200 None) (mkreq GET "https://ts" JNull) (ncalls init_st) <> HConnErr /\
  (exists sess,
     fst (_create_session (server_const (HResp 200 None)) "https://ts" (fun _ _ => None)
            (fun _ _ => None) (fun _ _ _ _ => raise RuntimeError) "alice" "secret" true "" ""
            "kerberos" init_st) = Ok sess /\ auth sess = None /\ verify sess = true).
Proof.
  assert (Hc : server_const (HResp 200 None) (mkreq GET "https://ts" JNull) (ncalls init_st)
               <> HConnErr) by discriminate.
  assert (Hm : ~ In "kerberos" ["oauth"; "oauth_local"; "http-basic"; "userpass"])
    by (simpl; intros [H|[H|[H|[H|H]]]]; discriminate || contradiction).
  split; [exact Hc|].
  exact (proj2 (proj2 (proj2 (_create_session_modes (server_const (HResp 200 None)) "https://ts"
           (fun _ _ => None) (fun _ _ => None) (fun _ _ _ _ => raise RuntimeError)
           "alice" "secret" true "" "" init_st Hc)) "kerberos" Hm)).
Defined.

(** X13. The constructor [TimesketchApi] with [create_session=False] sends
    nothing and leaves no session, so the [session] property raises
    [ValueError]. In ["userpass"] mode it does not check the login: once
    the GET of the host answered, any answer to the login POST (401 or
    500 included) gives a client with a session; only a connection error
    on either request makes it raise [ConnectionError]. *)
Theorem TimesketchApi_userpass (srv : request -> nat -> http_outcome) host_uri csrf_input
    csrf_meta create_oauth username password verify_cert client_id client_secret s :
  (TimesketchApi srv host_uri csrf_input csrf_meta create_oauth username password verify_cert
     client_id client_secret "userpass" false s
   = (Ok (mkapi (host_uri ++ "/api/v1")%string None), s) /\
   forall s', fst (session_prop (mkapi (host_uri ++ "/api/v1")%string None) s') = Exc ValueError) /\
  (srv (mkreq GET host_uri JNull) (ncalls s) <> HConnErr ->
   forall status body,
   srv (mkreq POST (host_uri ++ "/login/")%string
          (JObj [("username", JStr username); ("password", JStr password)])) (S (ncalls s))
   = HResp status body ->
   exists sess,
   fst (TimesketchApi srv host_uri csrf_input csrf_meta create_oauth username password
          verify_cert client_id client_secret "userpass" true s)
   = Ok (mkapi (host_uri ++ "/api/v1")%string (Some sess))) /\
  (srv (mkreq GET host_uri JNull) (ncalls s) = HConnErr \/
   srv (mkreq POST (host_uri ++ "/login/")%string
          (JObj [("username", JStr username); ("password", JStr password)])) (S (ncalls s))
   = HConnErr ->
   fst (TimesketchApi srv host_uri csrf_input csrf_meta create_oauth username password
          verify_cert client_id client_secret "userpass" true s) = Exc ConnectionError).
Proof.
  split; [|split].
  - split; [reflexivity | intros s'; reflexivity].
  - intros Hc status body Hl. unfold TimesketchApi. cbn [negb]. cbv zeta. unfold catch, bind.
    destruct (create_session_userpass_run srv host_uri csrf_input csrf_meta create_oauth
                username password verify_cert client_id client_secret s Hc) as [sess Heq].
    rewrite Heq, Hl. exists sess. reflexivity.
  - intros H. unfold TimesketchApi. cbn [negb]. cbv zeta. unfold catch, bind.
    destruct (srv (mkreq GET host_uri JNull) (ncalls s)) eqn:Hg.
    + pose proof (create_session_userpass_conn srv host_uri csrf_input csrf_meta create_oauth
                    username password verify_cert client_id client_secret s Hg) as He.
      destruct (_create_session _ _ _ _ _ _ _ _ _ _ _ s) as [[a|e] s']; simpl in He;
        [discriminate | injection He as ->; reflexivity].
    + assert (Hc : srv (mkreq GET host_uri JNull) (ncalls s) <> HConnErr) by congruence.
      destruct H as [H|H]; [congruence|].
      destruct (create_session_userpass_run srv host_uri csrf_input csrf_meta create_oauth
                  username password verify_cert client_id client_secret s Hc) as [sess Heq].
      rewrite Heq, H. reflexivity.
Qed.

Lemma TimesketchApi_userpass_witness :
  HResp 200 None <> HConnErr /\
  (exists sess,
   fst (TimesketchApi (fun r n => if (n =? 0)%nat then HResp 200 None else HResp 401 None)
          "https://ts" (fun _ _ => None) (fun _ _ => None) (fun _ _ _ _ => raise RuntimeError)
          "alice" "wrong" true "" "" "userpass" true init_st)
   = Ok (mkapi ("https://ts" ++ "/api/v1")%string (Some sess))).
Proof.
  assert (Hc : HResp 200 None <> HConnErr) by discriminate.
  split; [exact Hc|].
  exact (proj1 (proj2 (TimesketchApi_userpass
           (fun r n => if (n =? 0)%nat then HResp 200 None else HResp 401 None)
           "https://ts" (fun _ _ => None) (fun _ _ => None) (fun _ _ _ _ => raise RuntimeError)
           "alice" "wrong" true "" "" init_st)) Hc 401 None eq_refl).
Defined.

(** X14. [_set_csrf_token] sends one GET to the host. A non-empty token
    from the [csrf_token] input tag, or, when there is no such tag, from
    the [csrf-token] meta tag, is stored in the [x-csrftoken] header with
    the host as [referer]; the other headers (compared without case),
    [auth] and [verify] are kept.
    An input tag without a value (or with an empty one) leaves the session
    as it is, even when a meta tag carries a token; so does a missing or
    empty meta token. *)
Theorem _set_csrf_token_precedence (srv : request -> nat -> http_outcome) host_uri csrf_input
    csrf_meta sess s :
  srv (mkreq GET host_uri JNull) (ncalls s) <> HConnErr ->
  appended s (_set_csrf_token srv host_uri csrf_input csrf_meta sess s)
    [ECall (mkreq GET host_uri JNull)] /\
  (forall t,
   (csrf_input (mkreq GET host_uri JNull) (ncalls s) = Some (Some t) \/
    (csrf_input (mkreq GET host_uri JNull) (ncalls s) = None /\
     csrf_meta (mkreq GET host_uri JNull) (ncalls s) = Some (Some t))) ->
   t <> EmptyString ->
   exists sess', fst (_set_csrf_token srv host_uri csrf_input csrf_meta sess s) = Ok sess' /\
   header_get (headers sess') "x-csrftoken" = Some t /\
   header_get (headers sess') "referer" = Some host_uri /\
   (forall k, str_lower k <> "x-csrftoken" -> str_lower k <> "referer" ->
    header_get (headers sess') k = header_get (headers sess) k) /\
   auth sess' = auth sess /\ verify sess' = verify sess) /\
  (forall v, csrf_input (mkreq GET host_uri JNull) (ncalls s) = Some v ->
   v = None \/ v = Some EmptyString ->
   fst (_set_csrf_token srv host_uri csrf_input csrf_meta sess s) = Ok sess) /\
  (csrf_input (mkreq GET host_uri JNull) (ncalls s) = None ->
   (csrf_meta (mkreq GET host_uri JNull) (ncalls s) = None \/
    csrf_meta (mkreq GET host_uri JNull) (ncalls s) = Some None \/
    csrf_meta (mkreq GET host_uri JNull) (ncalls s) = Some (Some EmptyString)) ->
   fst (_set_csrf_token srv host_uri csrf_input csrf_meta sess s) = Ok sess).
Proof.
  intros Hc. unfold appended, _set_csrf_token, http.
  destruct (srv (mkreq GET host_uri JNull) (ncalls s)) as [|status body]; [congruence|].
  split; [|split; [|split]].
  - destruct (match csrf_input (mkreq GET host_uri JNull) (ncalls s) with
              | Some value => value
              | None => match csrf_meta (mkreq GET host_uri JNull) (ncalls s) with
                        | Some content => content | None => None end
              end) as [t|]; [destruct (String.eqb t EmptyString)|]; reflexivity.
  - intros t Ht Hne.
    assert (Htok : match csrf_input (mkreq GET host_uri JNull) (ncalls s) with
                   | Some value => value
                   | None => match csrf_meta (mkreq GET host_uri JNull) (ncalls s) with
                             | Some content => content | None => None end
                   end = Some t)
      by (destruct Ht as [-> | [-> ->]]; reflexivity).
    rewrite Htok. apply String.eqb_neq in Hne. rewrite Hne.
    eexists. split; [reflexivity|]. cbn [headers auth verify].
    split; [|split; [|split; [|split; reflexivity]]].
    + rewrite header_get_set_neq by (intros H; vm_compute in H; discriminate).
      apply header_get_set_eq.
    + apply header_get_set_eq.
    + intros k Hk1 Hk2. rewrite header_get_set_neq by exact Hk2.
      apply header_get_set_neq. exact Hk1.
  - intros v Hv Hv'. rewrite Hv. destruct Hv' as [-> | ->]; reflexivity.
  - intros Hn Hm. rewrite Hn. destruct Hm as [-> | [-> | ->]]; reflexivity.
Qed.

Lemma _set_csrf_token_precedence_witness :
  HResp 200 None <> HConnErr /\
  fst (_set_csrf_token (server_const (HResp 200 None)) "https://ts"
         (fun _ _ => Some None) (fun _ _ => Some (Some "tok")) new_session init_st)
  = Ok new_session.
Proof.
  assert (Hc : HResp 200 None <> HConnErr) by discriminate.
  split; [exact Hc|].
  exact (proj1 (proj2 (proj2 (_set_csrf_token_precedence (server_const (HResp 200 None))
           "https://ts" (fun _ _ => Some None) (fun _ _ => Some (Some "tok")) new_session init_st
           Hc))) None eq_refl (or_introl eq_refl)).
Defined.

